(** * Finvoice: the transaction authorization control plane

    A shallow embedding of the Redis-backed services of the Finvoice
    backend: [services/redis_service.py] (sessions, one-time passcodes,
    rate limiting, token blacklist), the authentication dependency of
    [auth/auth_manager.py], the passcode draw of
    [services/banking_service.py] and the passcode flow of [main.py].

    Conventions of the model.
    - The Redis server is a finite map from keys to entries with an
      optional expiry instant, read against a clock that counts whole
      seconds.  A key whose expiry instant has been reached is invisible
      to every command (lazy expiry).  One service call is instantaneous;
      time passes between calls ([elapse]).
    - The text held under a key is represented by the JSON document it
      spells: [json.dumps] writes a document, [json.loads] reads it back,
      the text [1] written by [setex(key, ttl, 1)] and by
      [setex(key, ttl, "1")] is the document [JInt 1].  Numbers are
      integers; no float is ever stored by these services.
    - Every command sent to the server draws the next flag of a fault
      plan; a drawn fault makes the client raise [ConnectionError] and
      leaves the data untouched.  Python exceptions are values of [exn]
      threaded through a state-and-error monad; [try_except] is Python's
      [try: ... except Exception as e: ...].
    - Strings are byte strings; the character classes of [strip],
      [lower] and the regular expression are the ASCII ones.  Printing
      and the logging of security events have no effect on the store and
      are left out. *)

From stdpp Require Import base gmap strings list pretty.
From Stdlib Require Import ZArith Lia.

#[local] Set Warnings "-register-all".
Open Scope string_scope.
Open Scope Z_scope.

(** ** JSON documents and Python dictionaries *)

Inductive json :=
| JNull
| JBool (b : bool)
| JInt (n : Z)
| JStr (s : string)
| JList (l : list json)
| JObj (kv : list (string * json)).

(** A Python [dict] with string keys, in insertion order. *)
Abbreviation pydict := (list (string * json)).

Fixpoint dict_get (k : string) (d : pydict) : option json :=
  match d with
  | [] => None
  | (k', v) :: d' => if bool_decide (k' = k) then Some v else dict_get k d'
  end.

(** [k in d] *)
Definition dict_has (k : string) (d : pydict) : bool :=
  match dict_get k d with Some _ => true | None => false end.

(** [d[k] = v]: an existing key keeps its position, a new one is appended. *)
Fixpoint dict_set (k : string) (v : json) (d : pydict) : pydict :=
  match d with
  | [] => [(k, v)]
  | (k', v') :: d' =>
      if bool_decide (k' = k) then (k', v) :: d' else (k', v') :: dict_set k v d'
  end.

(** ** Exceptions and the service monad *)

Inductive exn :=
| ConnectionError
| ResponseError (msg : string)
| TypeError
| KeyError (key : string)
| ValueError
| HTTPException (status_code : Z) (detail : string)
| OtherError (msg : string).

Inductive result (A : Type) :=
| Ok (a : A)
| Raise (e : exn).
Arguments Ok {A} a.
Arguments Raise {A} e.

(** ** The store *)

Record entry := Entry { value : json; expiry : option Z }.

(** The faults the network will inject, command by command. *)
Inductive plan :=
| Healthy
| Down
| Next (fault : bool) (rest : plan).

Definition next_fault (p : plan) : bool * plan :=
  match p with
  | Healthy => (false, Healthy)
  | Down => (true, Down)
  | Next b rest => (b, rest)
  end.

(** What an observer of the process sees, oldest first. *)
Inductive event :=
| Command (name key : string) (ok : bool)
| JwtDecode (token : string).

(** The process and what it talks to: the clock, the data of the Redis
    server, the faults to come, the raw words the random generator will
    hand out ([entropy], read at position [draws]), and the log. *)
Record world := World {
  now : Z;
  db : gmap string entry;
  faults : plan;
  entropy : nat → Z;
  draws : nat;
  log : list event
}.

Definition set_db (m : gmap string entry) (w : world) : world :=
  World (now w) m (faults w) (entropy w) (draws w) (log w).
Definition set_faults (p : plan) (w : world) : world :=
  World (now w) (db w) p (entropy w) (draws w) (log w).
Definition record (e : event) (w : world) : world :=
  World (now w) (db w) (faults w) (entropy w) (draws w) (log w ++ [e]).

(** [d] seconds pass. *)
Definition elapse (d : Z) (w : world) : world :=
  World (now w + d) (db w) (faults w) (entropy w) (draws w) (log w).

Definition M (A : Type) : Type := world → result A * world.

Definition ret {A} (a : A) : M A := fun w => (Ok a, w).
Definition raise {A} (e : exn) : M A := fun w => (Raise e, w).
Definition bind {A B} (c : M A) (k : A → M B) : M B := fun w =>
  match c w with
  | (Ok a, w') => k a w'
  | (Raise e, w') => (Raise e, w')
  end.
Definition try_except {A} (body : M A) (handler : exn → M A) : M A := fun w =>
  match body w with
  | (Ok a, w') => (Ok a, w')
  | (Raise e, w') => handler e w'
  end.

Notation "'let*' x := c 'in' k" := (bind c (fun x => k))
  (at level 10, x name, c at level 100, k at level 200).
Notation "c ;; k" := (bind c (fun _ => k))
  (at level 100, k at level 200, right associativity).

(** The entry a command sees under [k]: present and not yet expired. *)
Definition live (w : world) (k : string) : option entry :=
  match db w !! k with
  | Some e =>
      match expiry e with
      | Some t => if bool_decide (now w < t) then Some e else None
      | None => Some e
      end
  | None => None
  end.

(** One round trip to the server: draw the fault flag, then run [op].
    The clock stands still during a round trip.  A call made of several
    round trips is written as if they fell in the same second; where a
    property depends on the time between them, the call is written with
    that time spelled out (the timed checks of the rate limiter). *)
Definition command {A} (name key : string) (op : world → result A * world) : M A :=
  fun w =>
    let (fault, rest) := next_fault (faults w) in
    let w1 := set_faults rest w in
    if fault then (Raise ConnectionError, record (Command name key false) w1)
    else
      match op w1 with
      | (Ok a, w2) => (Ok a, record (Command name key true) w2)
      | (Raise e, w2) => (Raise e, record (Command name key false) w2)
      end.

(** [GET key] *)
Definition redis_get (k : string) : M (option json) :=
  command "GET" k (fun w => (Ok (value <$> live w k), w)).

(** [SETEX key seconds value]; the server refuses a non-positive time. *)
Definition redis_setex (k : string) (seconds : Z) (v : json) : M unit :=
  command "SETEX" k (fun w =>
    if bool_decide (0 < seconds)
    then (Ok tt, set_db (<[k := Entry v (Some (now w + seconds))]> (db w)) w)
    else (Raise (ResponseError "invalid expire time in 'setex' command"), w)).

(** [DEL key]: the number of keys removed. *)
Definition redis_delete (k : string) : M Z :=
  command "DEL" k (fun w =>
    (Ok (if live w k is Some _ then 1 else 0), set_db (delete k (db w)) w)).

(** [TTL key]: seconds left, -1 without expiry, -2 when absent. *)
Definition redis_ttl (k : string) : M Z :=
  command "TTL" k (fun w =>
    (Ok (match live w k with
         | Some (Entry _ (Some t)) => t - now w
         | Some (Entry _ None) => -1
         | None => -2
         end), w)).

(** [INCR key]: an absent key starts at 1 without expiry; the expiry of
    a present key is kept. *)
Definition redis_incr (k : string) : M Z :=
  command "INCR" k (fun w =>
    match live w k with
    | None => (Ok 1, set_db (<[k := Entry (JInt 1) None]> (db w)) w)
    | Some (Entry (JInt n) t) =>
        (Ok (n + 1), set_db (<[k := Entry (JInt (n + 1)) t]> (db w)) w)
    | Some _ =>
        (Raise (ResponseError "value is not an integer or out of range"), w)
    end).

(** [EXISTS key] *)
Definition redis_exists (k : string) : M Z :=
  command "EXISTS" k (fun w => (Ok (if live w k is Some _ then 1 else 0), w)).

(** [timedelta(minutes=m)] as the client sends it: whole seconds. *)
Definition timedelta_minutes (m : Z) : Z := 60 * m.

(** ** Python operations on decoded JSON values *)

(** [json.loads(text)] and [json.dumps(obj)]: a stored text is the
    document it spells. *)
Definition json_loads (text : json) : json := text.
Definition json_dumps (obj : json) : json := obj.

(** [obj[key]] for a string key. *)
Definition py_getitem (obj : json) (key : string) : M json :=
  match obj with
  | JObj d =>
      match dict_get key d with
      | Some v => ret v
      | None => raise (KeyError key)
      end
  | _ => raise TypeError
  end.

(** [obj[key] = v] *)
Definition py_setitem (obj : json) (key : string) (v : json) : M json :=
  match obj with
  | JObj d => ret (JObj (dict_set key v d))
  | _ => raise TypeError
  end.

(** A value used as a number: [int], and [bool] as 0 or 1. *)
Definition py_number (v : json) : M Z :=
  match v with
  | JInt n => ret n
  | JBool b => ret (if b then 1 else 0)
  | _ => raise TypeError
  end.

(** [v == s] for a string [s]: only an equal string compares equal. *)
Definition py_eq_str (v : json) (s : string) : bool :=
  match v with
  | JStr t => bool_decide (t = s)
  | _ => false
  end.

(** [int(text)] on a stored text: only an integer literal parses. *)
Definition py_int (text : json) : M Z :=
  match text with
  | JInt n => ret n
  | _ => raise ValueError
  end.

(** ** services/redis_service.py *)

Record otp_result := OtpResult {
  valid : bool;
  message : string;
  attempts_left : Z
}.

Record rate_result := RateResult {
  allowed : bool;
  remaining : Z;
  reset_in : Z
}.

Definition session_key (user_id : string) : string := "session:" +:+ user_id.
Definition otp_key (user_id transaction_id : string) : string :=
  "otp:" +:+ user_id +:+ ":" +:+ transaction_id.
Definition rate_key (user_id action : string) : string :=
  "rate:" +:+ user_id +:+ ":" +:+ action.
Definition token_key (token : string) : string := "blacklist:" +:+ token.

Definition create_session (user_id : string) (session_data : json)
    (expiry_minutes : Z) : M (option string) :=
  try_except
    (redis_setex (session_key user_id) (timedelta_minutes expiry_minutes)
       (json_dumps session_data) ;;
     ret (Some (session_key user_id)))
    (fun _ => ret None).

Definition get_session (user_id : string) : M (option json) :=
  try_except
    (let* session_data := redis_get (session_key user_id) in
     match session_data with
     | Some text => ret (Some (json_loads text))
     | None => ret None
     end)
    (fun _ => ret None).

Definition delete_session (user_id : string) : M bool :=
  try_except
    (let* result := redis_delete (session_key user_id) in
     ret (bool_decide (result ≠ 0)))
    (fun _ => ret false).

(** The record [store_otp] writes. *)
Definition otp_data (otp transaction_id user_id : string) (attempts : Z) : json :=
  JObj [("otp", JStr otp); ("transaction_id", JStr transaction_id);
        ("user_id", JStr user_id); ("attempts", JInt attempts)].

Definition store_otp (user_id otp transaction_id : string)
    (expiry_minutes : Z) : M bool :=
  try_except
    (redis_setex (otp_key user_id transaction_id)
       (timedelta_minutes expiry_minutes)
       (json_dumps (otp_data otp transaction_id user_id 0)) ;;
     ret true)
    (fun _ => ret false).

Definition invalid_otp_message (attempts_left : Z) : string :=
  "Invalid OTP. " +:+ pretty attempts_left +:+ " attempts left".

Definition verify_otp (user_id transaction_id otp : string)
    (max_attempts : Z) : M otp_result :=
  try_except
    (let key := otp_key user_id transaction_id in
     let* otp_data_str := redis_get key in
     match otp_data_str with
     | None => ret (OtpResult false "OTP expired or not found" 0)
     | Some text =>
         let otp_data := json_loads text in
         let* stored_attempts := py_getitem otp_data "attempts" in
         let* attempts := py_number stored_attempts in
         if bool_decide (max_attempts ≤ attempts) then
           redis_delete key ;;
           ret (OtpResult false "Maximum OTP attempts exceeded" 0)
         else
           let* stored_otp := py_getitem otp_data "otp" in
           if py_eq_str stored_otp otp then
             redis_delete key ;;
             ret (OtpResult true "OTP verified successfully"
                    (max_attempts - attempts))
           else
             let* otp_data := py_setitem otp_data "attempts" (JInt (attempts + 1)) in
             let* remaining_ttl := redis_ttl key in
             redis_setex key remaining_ttl (json_dumps otp_data) ;;
             let attempts_left := max_attempts - (attempts + 1) in
             ret (OtpResult false (invalid_otp_message attempts_left) attempts_left)
     end)
    (fun _ => ret (OtpResult false "OTP verification failed" 0)).

Definition check_rate_limit (user_id action : string)
    (max_requests window_minutes : Z) : M rate_result :=
  try_except
    (let key := rate_key user_id action in
     let* count := redis_get key in
     match count with
     | None =>
         redis_setex key (timedelta_minutes window_minutes) (JInt 1) ;;
         ret (RateResult true (max_requests - 1) (window_minutes * 60))
     | Some text =>
         let* count := py_int text in
         if bool_decide (max_requests ≤ count) then
           let* ttl := redis_ttl key in
           ret (RateResult false 0 ttl)
         else
           redis_incr key ;;
           let* ttl := redis_ttl key in
           ret (RateResult true (max_requests - count - 1) ttl)
     end)
    (fun _ => ret (RateResult true max_requests (window_minutes * 60))).

Definition blacklist_token (token : string) (expiry_minutes : Z) : M bool :=
  try_except
    (redis_setex (token_key token) (timedelta_minutes expiry_minutes) (JInt 1) ;;
     ret true)
    (fun _ => ret false).

Definition is_token_blacklisted (token : string) : M bool :=
  try_except
    (let* n := redis_exists (token_key token) in
     ret (bool_decide (0 < n)))
    (fun _ => ret false).


(** ** Python text helpers *)

Definition py_isspace (c : Ascii.ascii) : bool :=
  let n := Ascii.nat_of_ascii c in
  ((9 <=? n) && (n <=? 13) || (28 <=? n) && (n <=? 32))%nat.

Definition py_isdigit (c : Ascii.ascii) : bool :=
  let n := Ascii.nat_of_ascii c in ((48 <=? n) && (n <=? 57))%nat.

Definition ascii_upper (c : Ascii.ascii) : Ascii.ascii :=
  let n := Ascii.nat_of_ascii c in
  if ((97 <=? n) && (n <=? 122))%nat then Ascii.ascii_of_nat (n - 32) else c.

Definition ascii_lower (c : Ascii.ascii) : Ascii.ascii :=
  let n := Ascii.nat_of_ascii c in
  if ((65 <=? n) && (n <=? 90))%nat then Ascii.ascii_of_nat (n + 32) else c.

Fixpoint lower (s : string) : string :=
  match s with
  | EmptyString => EmptyString
  | String c s' => String (ascii_lower c) (lower s')
  end.

(** [s.capitalize()] *)
Definition capitalize (s : string) : string :=
  match s with
  | EmptyString => EmptyString
  | String c s' => String (ascii_upper c) (lower s')
  end.

(** [len(s.strip()) == 0] *)
Fixpoint blank (s : string) : bool :=
  match s with
  | EmptyString => true
  | String c s' => py_isspace c && blank s'
  end.

(** [sub in s] *)
Definition contains (sub s : string) : bool :=
  match String.index 0 sub s with Some _ => true | None => false end.

(** [sep.join(parts)] *)
Fixpoint join (sep : string) (parts : list string) : string :=
  match parts with
  | [] => ""
  | [x] => x
  | x :: rest => x +:+ sep +:+ join sep rest
  end.

Fixpoint strip_prefix (p s : string) : option string :=
  match p, s with
  | EmptyString, _ => Some s
  | String a p', String b s' => if bool_decide (a = b) then strip_prefix p' s' else None
  | String _ _, EmptyString => None
  end.

Fixpoint skip_spaces (s : string) : string :=
  match s with
  | String c s' => if py_isspace c then skip_spaces s' else s
  | EmptyString => s
  end.

Fixpoint take_digits (n : nat) (s : string) : option string :=
  match n with
  | O => Some ""
  | S n' =>
      match s with
      | String c s' =>
          if py_isdigit c then String c <$> take_digits n' s' else None
      | EmptyString => None
      end
  end.

(** [re.search(r'OTP:\s*(\d{6})', text)]: the group of the leftmost match. *)
Fixpoint search_otp (text : string) : option string :=
  match strip_prefix "OTP:" text ≫= (fun rest => take_digits 6 (skip_spaces rest)) with
  | Some digits => Some digits
  | None =>
      match text with
      | String _ text' => search_otp text'
      | EmptyString => None
      end
  end.

(** Truth value of a decoded JSON value. *)
Definition py_truthy (v : json) : bool :=
  match v with
  | JNull => false
  | JBool b => b
  | JInt n => bool_decide (n ≠ 0)
  | JStr s => bool_decide (s ≠ "")
  | JList l => bool_decide (l ≠ [])
  | JObj d => bool_decide (d ≠ [])
  end.

(** [key in v] for a string [key]. *)
Definition py_contains (key : string) (v : json) : M bool :=
  match v with
  | JObj d => ret (dict_has key d)
  | JList l => ret (existsb (fun x => py_eq_str x key) l)
  | JStr s => ret (contains key s)
  | _ => raise TypeError
  end.

(** [str(e)] for the exceptions whose text a handler reads; the others
    are only ever printed and carry none. *)
Definition exn_str (e : exn) : string :=
  match e with
  | ResponseError msg | OtherError msg => msg
  | HTTPException status detail => pretty status +:+ ": " +:+ detail
  | _ => ""
  end.

(** ** services/banking_service.py: the relational store, as queried *)

Record beneficiary := Beneficiary {
  full_name : string;
  account_number : string;
  bank_name : string
}.

(** The three queries of [transfer_money]: the active beneficiary of a
    user under a nickname (compared case-insensitively by the database),
    the nicknames of a user's active beneficiaries, the balance of the
    primary account; [outage] is the text of the error every query raises
    when the database cannot be reached. *)
Record bank := Bank {
  beneficiary_of : string → string → option beneficiary;
  nicknames_of : string → list string;
  balance_of : string → option Z;
  outage : option string
}.

Inductive transfer_result :=
| TransferInitiated (otp recipient recipient_account recipient_bank : string) (amount : Z)
| TransferFailed (error : string).

(** [random.randint(a, b)]: the next raw word, folded into [a..b]. *)
Definition randint (a b : Z) : M Z := fun w =>
  (Ok (a + entropy w (draws w) `mod` (b - a + 1)),
   World (now w) (db w) (faults w) (entropy w) (S (draws w)) (log w)).

(** Wall-clock seconds, [int(datetime.now().timestamp())]. *)
Definition timestamp : M Z := fun w => (Ok (now w), w).

Inductive decode_outcome :=
| Decoded (payload : pydict)
| ExpiredSignatureError
| JWTError (msg : string)
| DecodeCrash (msg : string).

Record voice_reply := VoiceReply {
  response_text : string;
  intent : string;
  otp_status : option string;
  reply_transaction_id : option json
}.

Record transfer_reply := TransferReply {
  transaction_id : string;
  issued_otp : string;
  recipient_name : string;
  transfer_amount : Z
}.

Section Application.

(** Library functions the application calls and this development does not
    look into: [jwt.decode] with the configured key and algorithm at a
    given instant, Python's rendering of lists and dictionaries inside an
    f-string, and the [:,.2f] number format. *)
Variable jwt_decode : Z → string → decode_outcome.
Variable py_repr : json → string.
Variable format_money : Z → string.

(** [f"{v}"] *)
Definition py_str (v : json) : string :=
  match v with
  | JNull => "None"
  | JBool true => "True"
  | JBool false => "False"
  | JInt n => pretty n
  | JStr s => s
  | _ => py_repr v
  end.

Definition py_str_opt (o : option json) : string :=
  match o with Some v => py_str v | None => "None" end.

Definition transfer_money (b : bank) (user_id recipient : string) (amount : Z)
    : M transfer_result :=
  match outage b with
  | Some msg => ret (TransferFailed msg)
  | None =>
      match beneficiary_of b user_id recipient with
      | None =>
          ret (TransferFailed ("Beneficiary '" +:+ recipient +:+ "' not found. Available: "
                               +:+ join ", " (nicknames_of b user_id)))
      | Some (Beneficiary full_name account_number bank_name) =>
          match balance_of b user_id with
          | None => ret (TransferFailed "Account not found")
          | Some balance =>
              if bool_decide (balance < amount) then
                ret (TransferFailed ("Insufficient balance. Available: ₹"
                                     +:+ format_money balance))
              else
                let* n := randint 100000 999999 in
                let otp := pretty n in
                ret (TransferInitiated otp full_name account_number bank_name amount)
          end
      end
  end.

(** ** auth/auth_manager.py *)

Definition verify_token (token token_type : string) : M pydict := fun w =>
  let w1 := record (JwtDecode token) w in
  match jwt_decode (now w) token with
  | Decoded payload =>
      if negb (match dict_get "type" payload with
               | Some v => py_eq_str v token_type
               | None => false
               end)
      then raise (HTTPException 401
                    ("Invalid token type. Expected " +:+ token_type +:+ ", got "
                     +:+ py_str_opt (dict_get "type" payload))) w1
      else
        match dict_get "sub" payload with
        | None | Some JNull =>
            raise (HTTPException 401 "Invalid token: no user ID found") w1
        | Some _ => ret payload w1
        end
  | ExpiredSignatureError =>
      raise (HTTPException 401
               (capitalize token_type +:+ " token has expired. Please login again.")) w1
  | JWTError msg =>
      raise (HTTPException 401 ("Could not validate credentials: " +:+ msg)) w1
  | DecodeCrash msg => raise (OtherError msg) w1
  end.

(** [redis_service] tells whether a Redis service was registered at start
    up ([set_redis_service]); [token] is [credentials.credentials]. *)
Definition get_current_user (redis_service : bool) (token : string) : M json :=
  try_except
    ((if redis_service then
        try_except
          (let* is_blacklisted := is_token_blacklisted token in
           if is_blacklisted
           then raise (HTTPException 401 "Token has been revoked. Please login again.")
           else ret tt)
          (fun e => match e with HTTPException _ _ => raise e | _ => ret tt end)
      else ret tt) ;;
     let* payload := verify_token token "access" in
     py_getitem (JObj payload) "sub")
    (fun e =>
       match e with
       | HTTPException _ _ => raise e
       | _ => raise (HTTPException 401 ("Authentication failed: " +:+ exn_str e))
       end).

(** ** main.py *)

(** The rate limiting block of [login]. *)
Definition login_rate_check (redis_service : bool) (email : string) : M unit :=
  if redis_service then
    let* rate_check := check_rate_limit email "login" 5 5 in
    if negb (allowed rate_check) then
      raise (HTTPException 429
               ("Too many login attempts. Try again in "
                +:+ pretty (reset_in rate_check) +:+ " seconds"))
    else ret tt
  else ret tt.

(** [initiate_transfer]; an application error leaves as the HTTP error
    [handle_api_error] turns it into, with its message as detail. *)
Definition initiate_transfer (redis_service : bool) (b : bank)
    (current_user recipient : string) (amount : Z) : M transfer_reply :=
  if bool_decide (amount ≤ 0) then raise (HTTPException 400 "Amount must be positive")
  else if blank recipient then raise (HTTPException 400 "Recipient cannot be empty")
  else
    let* result := transfer_money b current_user recipient amount in
    match result with
    | TransferFailed error_msg =>
        if contains "not found" (lower error_msg)
        then raise (HTTPException 400 ("Recipient '" +:+ recipient +:+ "' not found"))
        else raise (HTTPException 500 error_msg)
    | TransferInitiated otp full_name _ _ amount =>
        let* t := timestamp in
        let transaction_id := "TXN" +:+ pretty t in
        (if redis_service
         then store_otp current_user otp transaction_id 5 ;; ret tt
         else ret tt) ;;
        ret (TransferReply transaction_id otp full_name amount)
    end.

(** The passcode flow of [process_voice], from the reply of the language
    agent ([intent], [otp_extracted] when present, [response_text]) to
    the reply handed to speech synthesis. *)
Definition process_voice (redis_service : bool) (current_user : string)
    (intent : string) (otp_extracted : option string) (response_text : string)
    : M voice_reply :=
  match bool_decide (intent = "OTP_VERIFICATION"), otp_extracted with
  | true, Some otp =>
      if redis_service then
        let* session := get_session current_user in
        let* pending :=
          match session with
          | Some s => if py_truthy s then py_contains "pending_transaction_id" s
                      else ret false
          | None => ret false
          end in
        match session, pending with
        | Some session, true =>
            let* transaction_id := py_getitem session "pending_transaction_id" in
            let* verification :=
              verify_otp current_user (py_str transaction_id) otp 3 in
            if valid verification then
              let* session := py_setitem session "pending_transaction_id" JNull in
              create_session current_user session 1440 ;;
              ret (VoiceReply "Transaction completed successfully!"
                     "TRANSACTION_COMPLETE" (Some "verified") (Some transaction_id))
            else
              ret (VoiceReply ("Invalid OTP. " +:+ message verification)
                     "OTP_FAILED" (Some "failed") (Some transaction_id))
        | _, _ =>
            ret (VoiceReply "No pending transaction found." intent
                   (Some "no_transaction") None)
        end
      else ret (VoiceReply response_text intent None None)
  | _, _ =>
      if bool_decide (intent = "FUND_TRANSFER") && contains "OTP:" response_text then
        match search_otp response_text with
        | Some otp =>
            let* t := timestamp in
            let transaction_id := "TXN" +:+ pretty t in
            if redis_service then
              store_otp current_user otp transaction_id 5 ;;
              let* session := get_session current_user in
              match session with
              | Some session =>
                  if py_truthy session then
                    let* session :=
                      py_setitem session "pending_transaction_id" (JStr transaction_id) in
                    create_session current_user session 1440 ;; ret tt
                  else ret tt
              | None => ret tt
              end ;;
              ret (VoiceReply
                     (response_text +:+ " Please say your OTP to complete the transaction.")
                     intent (Some "pending") (Some (JStr transaction_id)))
            else
              ret (VoiceReply response_text intent None (Some (JStr transaction_id)))
        | None => ret (VoiceReply response_text intent None None)
        end
      else ret (VoiceReply response_text intent None None)
  end.

End Application.

(** ** Observing runs *)

Definition run {A} (c : M A) (w : world) : result A := fst (c w).
Definition after {A} (c : M A) (w : world) : world := snd (c w).

(** What a call added to the log. *)
Definition new_events {A} (c : M A) (w : world) : list event :=
  drop (length (log w)) (log (after c w)).

Definition failed (e : event) : bool :=
  match e with
  | Command _ _ ok => negb ok
  | JwtDecode _ => false
  end.

(** Some command sent during the call raised. *)
Definition store_raised {A} (c : M A) (w : world) : Prop :=
  existsb failed (new_events c w) = true.

(** Under [otp_key u t] lives a passcode record with code [code],
    [attempts] failed attempts so far and expiry instant [exp]. *)
Definition otp_record (w : world) (u t code : string) (attempts exp : Z) : Prop :=
  ∃ d, live w (otp_key u t) = Some (Entry (JObj d) (Some exp)) ∧
       dict_get "attempts" d = Some (JInt attempts) ∧
       dict_get "otp" d = Some (JStr code).

Definition total_delay (tries : list (Z * string)) : Z :=
  foldr (λ p acc, p.1 + acc) 0 tries.

(** Verification calls in a row, each after a delay. *)
Fixpoint verify_all (u t : string) (max_attempts : Z) (tries : list (Z * string))
    (w : world) : list (result otp_result) * world :=
  match tries with
  | [] => ([], w)
  | (delay, code) :: rest =>
      let w1 := elapse delay w in
      let (rs, w2) :=
        verify_all u t max_attempts rest (after (verify_otp u t code max_attempts) w1) in
      (run (verify_otp u t code max_attempts) w1 :: rs, w2)
  end.

Definition total (delays : list Z) : Z := foldr Z.add 0 delays.

(** Under [rate_key u action] lives a counter at [count] that expires at
    [exp]. *)
Definition rate_counter (w : world) (u action : string) (count exp : Z) : Prop :=
  live w (rate_key u action) = Some (Entry (JInt count) (Some exp)).

(** Rate limit checks in a row, each after a delay. *)
Fixpoint check_all (u action : string) (max_requests window_minutes : Z)
    (delays : list Z) (w : world) : list (result rate_result) * world :=
  match delays with
  | [] => ([], w)
  | delay :: rest =>
      let w1 := elapse delay w in
      let c := check_rate_limit u action max_requests window_minutes in
      let (rs, w2) := check_all u action max_requests window_minutes rest (after c w1) in
      (run c w1 :: rs, w2)
  end.

(** The traffic of the passcode authority. *)
Inductive otp_op :=
| StoreOtp (user_id otp transaction_id : string) (expiry_minutes : Z)
| VerifyOtp (user_id transaction_id otp : string)
| Wait (seconds : Z).

Definition otp_step (max_attempts : Z) (w : world) (op : otp_op) : world :=
  match op with
  | StoreOtp u code t m => after (store_otp u code t m) w
  | VerifyOtp u t code => after (verify_otp u t code max_attempts) w
  | Wait d => elapse d w
  end.

Definition otp_exec (max_attempts : Z) (ops : list otp_op) (w : world) : world :=
  foldl (otp_step max_attempts) w ops.

(** No record held by the store counts more than [max_attempts] attempts. *)
Definition attempts_bounded (max_attempts : Z) (w : world) : Prop :=
  ∀ k e d n, db w !! k = Some e → value e = JObj d →
    dict_get "attempts" d = Some (JInt n) → n ≤ max_attempts.

(** ** Proof automation *)

(** Case analysis of a service call.

    [crunch] walks through a call: at each command it splits on the next
    fault flag, at each read on what the store holds, at each test on its
    outcome. *)

Ltac crunch :=
  repeat (simpl;
    match goal with
    | |- context [next_fault ?p] => destruct (next_fault p) as [[] ?] eqn:?
    | |- context [live ?w ?k] => destruct (live w k) as [[? [?|]]|]
    | |- context [match dict_get ?k ?d with _ => _ end] => destruct (dict_get k d) as [?|]
    | |- context [match ?x with JNull => _ | _ => _ end] => destruct x
    | |- context [match ?x with Decoded _ => _ | _ => _ end] => destruct x
    | |- context [bool_decide ?P] => destruct (bool_decide_reflect P)
    | |- context [if ?b then _ else _] => destruct b
    end); simpl.

(** Once the plan is [Healthy] it stays so. *)
Ltac healthy_chain :=
  repeat match goal with
    | H : ?p = Healthy, E : next_fault ?p = _ |- _ => rewrite H in E
    | E : next_fault Healthy = _ |- _ => simpl in E; simplify_eq
    end.

Ltac open_service :=
  unfold store_raised, new_events, run, after,
    verify_otp, store_otp, check_rate_limit, is_token_blacklisted,
    create_session, get_session, blacklist_token,
    try_except, bind, redis_get, redis_delete, redis_ttl, redis_setex,
    redis_incr, redis_exists, command,
    py_getitem, py_number, py_setitem, py_int, json_loads, json_dumps, ret, raise.

(** The events of a call, read off its final log. *)
Ltac read_events :=
  repeat rewrite <- app_assoc;
  first [rewrite drop_app_length | rewrite drop_all]; simpl.

(** ** The remaining store commands and services *)

(** [EXPIRE key seconds]: 1 when the key is there, 0 otherwise; a
    non-positive time deletes the key at once. *)
Definition redis_expire (k : string) (seconds : Z) : M Z :=
  command "EXPIRE" k (fun w =>
    match live w k with
    | None => (Ok 0, w)
    | Some (Entry v _) =>
        if bool_decide (0 < seconds)
        then (Ok 1, set_db (<[k := Entry v (Some (now w + seconds))]> (db w)) w)
        else (Ok 1, set_db (delete k (db w)) w)
    end).

Definition refresh_session (user_id : string) (expiry_minutes : Z) : M bool :=
  try_except
    (let* result := redis_expire (session_key user_id) (timedelta_minutes expiry_minutes) in
     ret (bool_decide (result ≠ 0)))
    (fun _ => ret false).

(** [s.replace(old, new)] for a non-empty [old]: the matches are taken
    from the left and do not overlap; [skip] counts the characters of a
    match still to be dropped. *)
Fixpoint replace_go (old new : string) (skip : nat) (s : string) : string :=
  match s with
  | EmptyString => EmptyString
  | String c s' =>
      match skip with
      | S n => replace_go old new n s'
      | O =>
          match strip_prefix old s with
          | Some _ => new +:+ replace_go old new (String.length old - 1) s'
          | None => String c (replace_go old new 0 s')
          end
      end
  end.

(** With an empty [old], [new] goes before every character and at the end. *)
Fixpoint intersperse (new s : string) : string :=
  match s with
  | EmptyString => new
  | String c s' => new +:+ String c (intersperse new s')
  end.

Definition replace (old new s : string) : string :=
  if bool_decide (old = "") then intersperse new s else replace_go old new 0 s.

(** [d.update(extra)] *)
Definition dict_update (d extra : pydict) : pydict :=
  foldl (λ acc kv, dict_set kv.1 kv.2 acc) d extra.

(** ** auth/auth_manager.py: accounts and tokens *)

Record user_row := UserRow {
  row_user_id : string;
  row_name : string;
  row_email : string;
  row_phone : string;
  row_password_hash : string
}.

(** The [users] table as [authenticate_user] queries it: the active user
    with a given email; [users_down] when the database raises. *)
Record user_db := UserDb {
  active_user : string → option user_row;
  users_down : bool
}.

Record user_info := UserInfo {
  info_user_id : string;
  info_name : string;
  info_email : string;
  info_phone : string
}.

Record refresh_reply := RefreshReply {
  new_access_token : string;
  new_token_type : string;
  expires_in_minutes : Z
}.

Record login_reply := LoginReply {
  login_access_token : string;
  login_refresh_token : string;
  login_user : user_info
}.

Inductive verify_reply :=
| VerifyRefused (message : string) (attempts_left : Z)
| VerifyCompleted (transaction_id reference_number : string).

Section Accounts.

(** Outside this development: [jwt.decode] and [jwt.encode] with the
    configured key, [bcrypt.checkpw] (its text when it raises), the two
    token lifetimes read from the environment, [datetime.isoformat] and
    Python's rendering of containers. *)
Variable jwt_decode : Z → string → decode_outcome.
Variable jwt_encode : pydict → string.
Variable checkpw : string → string → bool + string.
Variable ACCESS_TOKEN_EXPIRE_MINUTES : Z.
Variable REFRESH_TOKEN_EXPIRE_DAYS : Z.
Variable isoformat : Z → string.
Variable py_repr : json → string.

Definition create_access_token (user_id : json) (additional_claims : option pydict)
    : M string := fun w =>
  let expire := now w + 60 * ACCESS_TOKEN_EXPIRE_MINUTES in
  let to_encode := [("sub", user_id); ("exp", JInt expire); ("iat", JInt (now w));
                    ("type", JStr "access")] in
  let to_encode :=
    match additional_claims with
    | Some extra => if bool_decide (extra ≠ []) then dict_update to_encode extra
                    else to_encode
    | None => to_encode
    end in
  (Ok (jwt_encode to_encode), w).

Definition create_refresh_token (user_id : json) : M string := fun w =>
  let expire := now w + 86400 * REFRESH_TOKEN_EXPIRE_DAYS in
  (Ok (jwt_encode [("sub", user_id); ("exp", JInt expire); ("iat", JInt (now w));
                   ("type", JStr "refresh")]), w).

Definition refresh_access_token (redis_service : bool) (refresh_token : string)
    : M refresh_reply :=
  try_except
    (let* payload := verify_token jwt_decode py_repr refresh_token "refresh" in
     (if redis_service then
        let* revoked := is_token_blacklisted refresh_token in
        if revoked
        then raise (HTTPException 401 "Refresh token has been revoked. Please login again.")
        else ret tt
      else ret tt) ;;
     let user_id := match dict_get "sub" payload with Some v => v | None => JNull end in
     let* new_access_token := create_access_token user_id None in
     ret (RefreshReply new_access_token "bearer" ACCESS_TOKEN_EXPIRE_MINUTES))
    (fun e =>
       match e with
       | HTTPException _ _ => raise e
       | _ => raise (HTTPException 401 ("Failed to refresh token: " +:+ exn_str e))
       end).

Definition authenticate_user (users : user_db) (email password : string)
    : M user_info :=
  if users_down users then raise (HTTPException 500 "Database connection failed")
  else
    match active_user users email with
    | None => raise (HTTPException 401 "Invalid email or password")
    | Some (UserRow user_id name email phone password_hash) =>
        match checkpw password password_hash with
        | inl true => ret (UserInfo user_id name email phone)
        | inl false => raise (HTTPException 401 "Invalid email or password")
        | inr msg => raise (HTTPException 500 ("Authentication failed: " +:+ msg))
        end
    end.

(** [credentials] is absent when the request carries no bearer token. *)
Definition get_current_user_optional (redis_service : bool)
    (credentials : option string) : M (option json) :=
  match credentials with
  | None => ret None
  | Some token =>
      try_except
        (let* revoked :=
           if redis_service
           then try_except (is_token_blacklisted token) (fun _ => ret false)
           else ret false in
         if revoked then ret None
         else
           let* payload := verify_token jwt_decode py_repr token "access" in
           let* sub := py_getitem (JObj payload) "sub" in
           ret (Some sub))
        (fun _ => ret None)
  end.

(** ** main.py: the endpoints around the store *)

Definition login (redis_service : bool) (users : user_db)
    (client_ip email password : string) : M login_reply :=
  if bool_decide (email = "") || bool_decide (password = "")
  then raise (HTTPException 400 "Email and password are required")
  else
    login_rate_check redis_service email ;;
    let* user := authenticate_user users email password in
    let* access_token :=
      create_access_token (JStr (info_user_id user))
        (Some [("name", JStr (info_name user)); ("email", JStr (info_email user))]) in
    let* refresh_token := create_refresh_token (JStr (info_user_id user)) in
    (if redis_service then
       let* login_time := timestamp in
       create_session (info_user_id user)
         (JObj [("name", JStr (info_name user)); ("email", JStr (info_email user));
                ("login_time", JStr (isoformat login_time));
                ("ip_address", JStr client_ip)]) 15 ;;
       ret tt
     else ret tt) ;;
    ret (LoginReply access_token refresh_token user).

(** [current_user] is what the dependency returned for the request. *)
Definition logout (redis_service : bool) (current_user authorization : string)
    (refresh_token : option string) : M unit :=
  let access_token := replace "Bearer " "" authorization in
  if redis_service then
    blacklist_token access_token 15 ;;
    match refresh_token with
    | Some token =>
        if bool_decide (token ≠ "")
        then blacklist_token token (7 * 24 * 60) ;; ret tt
        else ret tt
    | None => ret tt
    end ;;
    delete_session current_user ;;
    ret tt
  else ret tt.

(** The endpoint [/api/transactions/verify-otp]; [len] counts the
    characters of the code, here its bytes. *)
Definition api_verify_otp (redis_service : bool)
    (current_user transaction_id otp : string) : M verify_reply :=
  if negb redis_service then raise (HTTPException 500 "OTP service unavailable")
  else if bool_decide (otp = "") || negb (String.length otp =? 6)%nat
  then raise (HTTPException 400 "Invalid OTP format")
  else
    let* verification := verify_otp current_user transaction_id otp 3 in
    if negb (valid verification)
    then ret (VerifyRefused (message verification) (attempts_left verification))
    else ret (VerifyCompleted transaction_id ("REF" +:+ transaction_id)).

End Accounts.


(** No character of [s] is [c]. *)
Fixpoint lacks (c : Ascii.ascii) (s : string) : bool :=
  match s with
  | EmptyString => true
  | String a s' => negb (bool_decide (a = c)) && lacks c s'
  end.

(** Login attempts in a row, each after a delay. *)
Fixpoint login_all (jwt_encode : pydict → string) (checkpw : string → string → bool + string)
    (access_minutes refresh_days : Z) (isoformat : Z → string)
    (users : user_db) (client_ip email : string) (tries : list (Z * string))
    (w : world) : list (result login_reply) * world :=
  match tries with
  | [] => ([], w)
  | (delay, password) :: rest =>
      let w1 := elapse delay w in
      let c := login jwt_encode checkpw access_minutes refresh_days isoformat
                 true users client_ip email password in
      let (rs, w2) :=
        login_all jwt_encode checkpw access_minutes refresh_days isoformat
          users client_ip email rest (after c w1) in
      (run c w1 :: rs, w2)
  end.

(** ** The time a call takes *)

(** The client makes one round trip per command, and the clock may move
    between two of them: [pause d] is [d] seconds passing inside a call. *)
Definition pause (d : Z) : M unit := fun w => (Ok tt, elapse d w).

(** [check_rate_limit] with the time between its round trips written
    out: [gap1] seconds pass between the GET and the command that
    follows it, [gap2] between the INCR and the TTL. *)
Definition check_rate_limit_timed (gap1 gap2 : Z) (user_id action : string)
    (max_requests window_minutes : Z) : M rate_result :=
  try_except
    (let key := rate_key user_id action in
     let* count := redis_get key in
     pause gap1 ;;
     match count with
     | None =>
         redis_setex key (timedelta_minutes window_minutes) (JInt 1) ;;
         ret (RateResult true (max_requests - 1) (window_minutes * 60))
     | Some text =>
         let* count := py_int text in
         if bool_decide (max_requests ≤ count) then
           let* ttl := redis_ttl key in
           ret (RateResult false 0 ttl)
         else
           redis_incr key ;;
           pause gap2 ;;
           let* ttl := redis_ttl key in
           ret (RateResult true (max_requests - count - 1) ttl)
     end)
    (fun _ => ret (RateResult true max_requests (window_minutes * 60))).

(** Timed rate limit checks in a row: each entry is the delay before the
    call and the two gaps inside it. *)
Fixpoint check_all_timed (u action : string) (max_requests window_minutes : Z)
    (calls : list (Z * (Z * Z))) (w : world) : list (result rate_result) * world :=
  match calls with
  | [] => ([], w)
  | (delay, (gap1, gap2)) :: rest =>
      let w1 := elapse delay w in
      let c := check_rate_limit_timed gap1 gap2 u action max_requests window_minutes in
      let (rs, w2) :=
        check_all_timed u action max_requests window_minutes rest (after c w1) in
      (run c w1 :: rs, w2)
  end.





(** The calls of [RedisService] that touch one key, and the key each
    one addresses. *)
Inductive service_call :=
| CallCreateSession (user_id : string) (session_data : json) (expiry_minutes : Z)
| CallGetSession (user_id : string)
| CallDeleteSession (user_id : string)
| CallRefreshSession (user_id : string) (expiry_minutes : Z)
| CallStoreOtp (user_id otp transaction_id : string) (expiry_minutes : Z)
| CallVerifyOtp (user_id transaction_id otp : string) (max_attempts : Z)
| CallCheckRateLimit (user_id action : string) (max_requests window_minutes : Z)
| CallBlacklistToken (token : string) (expiry_minutes : Z)
| CallIsTokenBlacklisted (token : string).

Definition call_key (c : service_call) : string :=
  match c with
  | CallCreateSession u _ _ | CallGetSession u | CallDeleteSession u
  | CallRefreshSession u _ => session_key u
  | CallStoreOtp u _ t _ | CallVerifyOtp u t _ _ => otp_key u t
  | CallCheckRateLimit u a _ _ => rate_key u a
  | CallBlacklistToken token _ | CallIsTokenBlacklisted token => token_key token
  end.

(** The world after the call. *)
Definition perform (c : service_call) (w : world) : world :=
  match c with
  | CallCreateSession u data m => after (create_session u data m) w
  | CallGetSession u => after (get_session u) w
  | CallDeleteSession u => after (delete_session u) w
  | CallRefreshSession u m => after (refresh_session u m) w
  | CallStoreOtp u code t m => after (store_otp u code t m) w
  | CallVerifyOtp u t code max => after (verify_otp u t code max) w
  | CallCheckRateLimit u a max win => after (check_rate_limit u a max win) w
  | CallBlacklistToken token m => after (blacklist_token token m) w
  | CallIsTokenBlacklisted token => after (is_token_blacklisted token) w
  end.

(** The character [:]. *)
Definition colon : Ascii.ascii := Ascii.ascii_of_nat 58.

(** Like [crunch], reading every lookup against the world the call
    started from, so that the reads of one call agree. *)
Ltac crunch_live :=
  repeat (simpl;
    repeat match goal with
      | |- context [live (record ?e ?w) ?k] =>
          change (live (record e w) k) with (live w k)
      | |- context [live (set_faults ?p ?w) ?k] =>
          change (live (set_faults p w) k) with (live w k)
      end;
    match goal with
    | |- context [next_fault ?p] => destruct (next_fault p) as [[] ?] eqn:?
    | |- context [live ?w ?k] => destruct (live w k) as [[? [?|]]|] eqn:?
    | |- context [match dict_get ?k ?d with _ => _ end] => destruct (dict_get k d) as [?|] eqn:?
    | |- context [match ?x with JNull => _ | _ => _ end] => destruct x
    | |- context [match ?x with Decoded _ => _ | _ => _ end] => destruct x eqn:?
    | |- context [bool_decide ?P] => destruct (bool_decide_reflect P)
    | |- context [if ?b then _ else _] => destruct b eqn:?
    end); simpl.

Ltac open_more :=
  unfold refresh_session, redis_expire, refresh_access_token, get_current_user_optional,
    get_current_user, verify_token, create_access_token, delete_session, logout,
    api_verify_otp;
  open_service.
(** * Properties *)

(** ** Worlds and commands *)

Lemma live_record e w k : live (record e w) k = live w k.
Proof. reflexivity. Qed.

Lemma live_set_faults p w k : live (set_faults p w) k = live w k.
Proof. reflexivity. Qed.

Lemma set_faults_id w : set_faults (faults w) w = w.
Proof. by destruct w. Qed.

Lemma next_fault_healthy p : p = Healthy → next_fault p = (false, Healthy).
Proof. by intros ->. Qed.

Lemma command_healthy {A} name key (op : world → result A * world) w :
  faults w = Healthy →
  command name key op w =
    match op w with
    | (Ok a, w2) => (Ok a, record (Command name key true) w2)
    | (Raise e, w2) => (Raise e, record (Command name key false) w2)
    end.
Proof.
  intros H. unfold command. rewrite H. simpl.
  rewrite <- H, set_faults_id. reflexivity.
Qed.

Lemma live_insert_eq w k v t :
  now w < t →
  live (set_db (<[k := Entry v (Some t)]> (db w)) w) k = Some (Entry v (Some t)).
Proof.
  intros H. unfold live. simpl. rewrite lookup_insert_eq. simpl.
  by rewrite bool_decide_eq_true_2.
Qed.

Lemma live_insert_ne w k k' e :
  k ≠ k' → live (set_db (<[k := e]> (db w)) w) k' = live w k'.
Proof. intros H. unfold live. simpl. by rewrite lookup_insert_ne. Qed.

Lemma live_delete_eq w k : live (set_db (delete k (db w)) w) k = None.
Proof. unfold live. simpl. by rewrite lookup_delete_eq. Qed.

Lemma live_delete_ne w k k' :
  k ≠ k' → live (set_db (delete k (db w)) w) k' = live w k'.
Proof. intros H. unfold live. simpl. by rewrite lookup_delete_ne. Qed.

Lemma live_db w k e : live w k = Some e → db w !! k = Some e.
Proof.
  unfold live. destruct (db w !! k) as [[v [t|]]|]; simpl; try done.
  by case_bool_decide.
Qed.

(** [live] reads the clock and the data, nothing else. *)
Lemma live_ext w w' k : now w' = now w → db w' !! k = db w !! k → live w' k = live w k.
Proof. unfold live. by intros -> ->. Qed.

(** Expiry is irreversible: what is invisible now stays invisible. *)
Lemma live_elapse_None w k d : 0 ≤ d → live w k = None → live (elapse d w) k = None.
Proof.
  intros Hd. unfold live. simpl. destruct (db w !! k) as [[v [t|]]|]; simpl; try done.
  case_bool_decide; [done|]. intros _. rewrite bool_decide_eq_false_2; [done|lia].
Qed.

Lemma live_elapse_Some w k v t d :
  live w k = Some (Entry v (Some t)) → now w + d < t →
  live (elapse d w) k = Some (Entry v (Some t)).
Proof.
  unfold live. simpl. destruct (db w !! k) as [[v' [t'|]]|]; simpl; try done.
  case_bool_decide; [|done]. intros [= -> ->] H'. by rewrite bool_decide_eq_true_2.
Qed.

Lemma live_elapse_expired w k v t d :
  live w k = Some (Entry v (Some t)) → t ≤ now w + d → live (elapse d w) k = None.
Proof.
  unfold live. simpl. destruct (db w !! k) as [[v' [t'|]]|]; simpl; try done.
  case_bool_decide; [|done]. intros [= -> ->] H'. by rewrite bool_decide_eq_false_2 by lia.
Qed.

Lemma live_Some_now w k v t : live w k = Some (Entry v (Some t)) → now w < t.
Proof.
  unfold live. destruct (db w !! k) as [[v' [t'|]]|]; simpl; try done.
  case_bool_decide; [|done]. by intros [= -> ->].
Qed.

(** ** Dictionaries *)

Lemma dict_get_set_eq k v d : dict_get k (dict_set k v d) = Some v.
Proof.
  induction d as [|[k' v'] d IH]; simpl.
  - by rewrite bool_decide_eq_true_2.
  - case_bool_decide as E; simpl; rewrite ?E; [by rewrite bool_decide_eq_true_2|].
    by rewrite bool_decide_eq_false_2.
Qed.

Lemma dict_get_set_ne k k' v d : k ≠ k' → dict_get k' (dict_set k v d) = dict_get k' d.
Proof.
  intros Hne. induction d as [|[k0 v0] d IH]; simpl.
  - by rewrite bool_decide_eq_false_2.
  - case_bool_decide as E; simpl.
    + subst k0. by rewrite !bool_decide_eq_false_2.
    + by rewrite IH.
Qed.

(** ** Keys of different services never meet *)

Lemma session_key_not_otp_key u u' t : session_key u ≠ otp_key u' t.
Proof. discriminate. Qed.

(** ** What [verify_otp] and [store_otp] do to the store *)

Lemma verify_otp_db u t c max w :
  let w' := after (verify_otp u t c max) w in
  db w' = db w ∨ db w' = delete (otp_key u t) (db w) ∨
  ∃ d a exp, a < max ∧
    db w' = <[otp_key u t :=
                Entry (JObj (dict_set "attempts" (JInt (a + 1)) d)) (Some exp)]> (db w).
Proof.
  open_service. crunch.
  all: try (left; reflexivity).
  all: try (right; left; reflexivity).
  all: right; right; eexists _, _, _; (split; [|reflexivity]); lia.
Qed.

Lemma verify_otp_now u t c max w : now (after (verify_otp u t c max) w) = now w.
Proof. open_service. crunch; reflexivity. Qed.

Lemma verify_otp_healthy u t c max w :
  faults w = Healthy → faults (after (verify_otp u t c max) w) = Healthy.
Proof. intros H. open_service. crunch; healthy_chain; done. Qed.

(** [verify_otp] answers, whatever happens. *)
Lemma verify_otp_total u t c max w : ∃ r, run (verify_otp u t c max) w = Ok r.
Proof. open_service. crunch; eauto. Qed.

Lemma verify_otp_other_key u t c max w k :
  k ≠ otp_key u t → db (after (verify_otp u t c max) w) !! k = db w !! k.
Proof.
  intros Hk. destruct (verify_otp_db u t c max w) as [->|[->|(d & a & exp & _ & ->)]].
  - done.
  - by rewrite lookup_delete_ne.
  - by rewrite lookup_insert_ne.
Qed.

Lemma store_otp_db u code t m w :
  let w' := after (store_otp u code t m) w in
  db w' = db w ∨
  db w' = <[otp_key u t := Entry (otp_data code t u 0) (Some (now w + 60 * m))]> (db w).
Proof. open_service. crunch; auto. Qed.

(** C10: [verify_otp] fails closed.  Whenever a command sent to the store
    during the call raises, the answer is [valid = false] with message
    "OTP verification failed" and no attempts left; a success is never
    reported. *)
Theorem verify_otp_fails_closed (u t code : string) (max : Z) (w : world) :
  store_raised (verify_otp u t code max) w →
  run (verify_otp u t code max) w = Ok (OtpResult false "OTP verification failed" 0).
Proof.
  open_service. crunch; read_events; done.
Qed.

(** ** The branches of [verify_otp] against a reachable store *)

Lemma verify_otp_absent u t code max w :
  faults w = Healthy → live w (otp_key u t) = None →
  run (verify_otp u t code max) w = Ok (OtpResult false "OTP expired or not found" 0).
Proof.
  intros Hf Hl. unfold run, verify_otp, try_except, bind, redis_get.
  rewrite command_healthy by done. by rewrite Hl.
Qed.

Lemma verify_otp_match u t code max w d exp n :
  faults w = Healthy →
  live w (otp_key u t) = Some (Entry (JObj d) exp) →
  dict_get "attempts" d = Some (JInt n) →
  dict_get "otp" d = Some (JStr code) →
  n < max →
  run (verify_otp u t code max) w
    = Ok (OtpResult true "OTP verified successfully" (max - n)) ∧
  db (after (verify_otp u t code max) w) = delete (otp_key u t) (db w).
Proof.
  intros Hf Hl Ha Ho Hn.
  unfold run, after, verify_otp, try_except, bind, redis_get, redis_delete.
  rewrite command_healthy by done. rewrite Hl. simpl.
  rewrite Ha. simpl. rewrite bool_decide_eq_false_2 by lia.
  rewrite Ho. simpl. rewrite bool_decide_eq_true_2 by done.
  rewrite command_healthy by done. done.
Qed.

Lemma verify_otp_exhausted u t code max w d exp n :
  faults w = Healthy →
  live w (otp_key u t) = Some (Entry (JObj d) exp) →
  dict_get "attempts" d = Some (JInt n) →
  max ≤ n →
  run (verify_otp u t code max) w
    = Ok (OtpResult false "Maximum OTP attempts exceeded" 0) ∧
  db (after (verify_otp u t code max) w) = delete (otp_key u t) (db w).
Proof.
  intros Hf Hl Ha Hn.
  unfold run, after, verify_otp, try_except, bind, redis_get, redis_delete.
  rewrite command_healthy by done. rewrite Hl. simpl.
  rewrite Ha. simpl. rewrite bool_decide_eq_true_2 by lia.
  rewrite command_healthy by done. done.
Qed.

Lemma verify_otp_mismatch u t code max w d exp n stored :
  faults w = Healthy →
  live w (otp_key u t) = Some (Entry (JObj d) (Some exp)) →
  dict_get "attempts" d = Some (JInt n) →
  dict_get "otp" d = Some (JStr stored) →
  stored ≠ code →
  n < max →
  run (verify_otp u t code max) w
    = Ok (OtpResult false (invalid_otp_message (max - (n + 1))) (max - (n + 1))) ∧
  db (after (verify_otp u t code max) w)
    = <[otp_key u t := Entry (JObj (dict_set "attempts" (JInt (n + 1)) d)) (Some exp)]> (db w).
Proof.
  intros Hf Hl Ha Ho Hne Hn. pose proof (live_Some_now _ _ _ _ Hl) as Hnow.
  unfold run, after, verify_otp, try_except, bind, redis_get, redis_ttl, redis_setex.
  rewrite command_healthy by done. rewrite Hl. simpl.
  rewrite Ha. simpl. rewrite bool_decide_eq_false_2 by lia.
  rewrite Ho. simpl. rewrite bool_decide_eq_false_2 by done. simpl.
  rewrite command_healthy by done. rewrite live_record, Hl. simpl.
  rewrite command_healthy by done.
  rewrite bool_decide_eq_true_2 by lia. simpl.
  replace (now w + (exp - now w)) with exp by lia. done.
Qed.

(** A wrong code moves a record from [n] to [n + 1] attempts, in place. *)
Lemma verify_otp_wrong_step u t code stored max w n exp :
  faults w = Healthy →
  otp_record w u t stored n exp →
  stored ≠ code → n < max →
  let w' := after (verify_otp u t code max) w in
  run (verify_otp u t code max) w
    = Ok (OtpResult false (invalid_otp_message (max - (n + 1))) (max - (n + 1))) ∧
  faults w' = Healthy ∧ now w' = now w ∧
  otp_record w' u t stored (n + 1) exp.
Proof.
  intros Hf (d & Hl & Ha & Ho) Hne Hn w'.
  destruct (verify_otp_mismatch u t code max w d exp n stored) as [Hr Hdb]; try done.
  split; [done|]. split; [by apply verify_otp_healthy|].
  split; [apply verify_otp_now|].
  exists (dict_set "attempts" (JInt (n + 1)) d). split; [|split].
  - unfold live. subst w'. rewrite Hdb, verify_otp_now, lookup_insert_eq. simpl.
    rewrite bool_decide_eq_true_2; [done|]. by eapply live_Some_now.
  - apply dict_get_set_eq.
  - by rewrite dict_get_set_ne.
Qed.

Lemma otp_record_elapse w u t code n exp d :
  otp_record w u t code n exp → now w + d < exp →
  otp_record (elapse d w) u t code n exp.
Proof.
  intros (r & Hl & Ha & Ho) H. exists r. split; [|done].
  by apply live_elapse_Some.
Qed.

(** [store_otp] against a reachable store: a record with no attempts. *)
Lemma store_otp_fresh u code t m w :
  faults w = Healthy → 0 < m →
  let w' := after (store_otp u code t m) w in
  run (store_otp u code t m) w = Ok true ∧
  faults w' = Healthy ∧ now w' = now w ∧
  live w' (otp_key u t) = Some (Entry (otp_data code t u 0) (Some (now w + 60 * m))).
Proof.
  intros Hf Hm. unfold run, after, store_otp, try_except, bind, redis_setex, timedelta_minutes.
  rewrite command_healthy by done.
  rewrite bool_decide_eq_true_2 by lia. simpl.
  split; [done|]. split; [done|]. split; [done|].
  unfold live. simpl. rewrite lookup_insert_eq. simpl.
  by rewrite bool_decide_eq_true_2 by lia.
Qed.

Lemma store_otp_record u code t m w :
  faults w = Healthy → 0 < m →
  otp_record (after (store_otp u code t m) w) u t code 0 (now w + 60 * m).
Proof.
  intros Hf Hm. destruct (store_otp_fresh u code t m w) as (_ & _ & _ & Hl); try done.
  by exists [("otp", JStr code); ("transaction_id", JStr t);
             ("user_id", JStr u); ("attempts", JInt 0)].
Qed.

(** C1: a matching code on a record whose attempts are below the maximum
    is accepted with [attempts_left = max_attempts - attempts]; the record
    is deleted, so a [GET] on the key finds nothing, and replaying the
    same verification, at once or later, answers "OTP expired or not
    found" with no attempts left. *)
Theorem verify_otp_match_consumes_record
    (u t code : string) (max n : Z) (d : pydict) (exp : option Z) (w : world) :
  faults w = Healthy →
  live w (otp_key u t) = Some (Entry (JObj d) exp) →
  dict_get "attempts" d = Some (JInt n) →
  dict_get "otp" d = Some (JStr code) →
  n < max →
  let w' := after (verify_otp u t code max) w in
  run (verify_otp u t code max) w
    = Ok (OtpResult true "OTP verified successfully" (max - n)) ∧
  db w' !! otp_key u t = None ∧
  run (redis_get (otp_key u t)) w' = Ok None ∧
  ∀ later, 0 ≤ later →
    run (verify_otp u t code max) (elapse later w')
      = Ok (OtpResult false "OTP expired or not found" 0).
Proof.
  intros Hf Hl Ha Ho Hn w'.
  destruct (verify_otp_match u t code max w d exp n) as [Hr Hdb]; try done.
  assert (Hgone : live w' (otp_key u t) = None).
  { unfold live. subst w'. by rewrite Hdb, lookup_delete_eq. }
  assert (Hh : faults w' = Healthy) by by apply verify_otp_healthy.
  split; [done|]. split; [subst w'; by rewrite Hdb, lookup_delete_eq|]. split.
  - unfold run, redis_get. rewrite command_healthy by done. by rewrite Hgone.
  - intros later Hlater. apply verify_otp_absent; [done|].
    by apply live_elapse_None.
Qed.

Lemma verify_otp_match_consumes_record_witness :
  let w := after (store_otp "U1" "123456" "TXN1" 5) (World 1000 ∅ Healthy (λ _, 0) 0 []) in
  run (verify_otp "U1" "TXN1" "123456" 3) w
    = Ok (OtpResult true "OTP verified successfully" 3) ∧
  run (verify_otp "U1" "TXN1" "123456" 3) (after (verify_otp "U1" "TXN1" "123456" 3) w)
    = Ok (OtpResult false "OTP expired or not found" 0).
Proof.
  intros w.
  destruct (verify_otp_match_consumes_record "U1" "TXN1" "123456" 3 0
              [("otp", JStr "123456"); ("transaction_id", JStr "TXN1");
               ("user_id", JStr "U1"); ("attempts", JInt 0)]
              (Some 1300) w) as (H1 & _ & _ & H2);
    [reflexivity | reflexivity | reflexivity | reflexivity | lia |].
  split; [exact H1|]. exact (H2 0 ltac:(lia)).
Defined.

(** ** Runs of wrong codes *)

Lemma verify_all_wrong u t stored max exp tries : ∀ w n,
  faults w = Healthy →
  otp_record w u t stored n exp →
  Forall (λ p, 0 ≤ p.1 ∧ p.2 ≠ stored) tries →
  now w + total_delay tries < exp →
  n + Z.of_nat (length tries) ≤ max →
  let w' := (verify_all u t max tries w).2 in
  let rs := (verify_all u t max tries w).1 in
  faults w' = Healthy ∧ now w' = now w + total_delay tries ∧
  otp_record w' u t stored (n + Z.of_nat (length tries)) exp ∧
  length rs = length tries ∧
  ∀ (i : nat) r, rs !! i = Some r →
    r = Ok (OtpResult false (invalid_otp_message (max - (n + Z.of_nat i + 1)))
              (max - (n + Z.of_nat i + 1))).
Proof.
  induction tries as [|[delay code] tries IH]; intros w n Hf Hrec Hall Htime Hlen.
  - simpl in *. repeat split; try done.
    + lia.
    + by rewrite Z.add_0_r.
  - apply Forall_cons in Hall as [[Hd Hc] Hall]. simpl in Hd, Hc.
    cbn [total_delay foldr fst] in Htime. fold (total_delay tries) in Htime.
    assert (Htd : 0 ≤ total_delay tries).
    { clear -Hall. induction Hall as [|[d c] l [H _] _ IHl]; simpl in *; lia. }
    cbn [length] in Hlen.
    pose proof (otp_record_elapse w u t stored n exp delay Hrec ltac:(lia)) as Hrec1.
    destruct (verify_otp_wrong_step u t code stored max (elapse delay w) n exp)
      as (Hr & Hf1 & Hn1 & Hrec2); [done|done|done|lia|].
    specialize (IH (after (verify_otp u t code max) (elapse delay w)) (n + 1)
                  Hf1 Hrec2 Hall).
    rewrite Hn1 in IH. simpl in IH.
    destruct IH as (IHf & IHn & IHrec & IHlen & IHrs); [lia|lia|].
    simpl.
    destruct (verify_all u t max tries (after (verify_otp u t code max) (elapse delay w)))
      as [rs w2] eqn:E. simpl in *.
    split; [done|]. split; [cbn [total_delay foldr fst]; fold (total_delay tries); lia|].
    split; [by replace (n + Z.of_nat (S (length tries))) with (n + 1 + Z.of_nat (length tries)) by lia|].
    split; [by rewrite IHlen|].
    intros [|i] r Hi; simpl in Hi.
    + injection Hi as <-. rewrite Hr. by replace (n + Z.of_nat 0 + 1) with (n + 1) by lia.
    + rewrite (IHrs i r Hi). by replace (n + 1 + Z.of_nat i + 1) with (n + Z.of_nat (S i) + 1) by lia.
Qed.

(** C2: on a freshly issued record (no attempts yet, still valid
    throughout), [max_attempts] wrong codes in a row are each refused, the
    last of them leaving [attempts_left = 0]; the first call after that,
    with any code, the right one included, answers "Maximum OTP attempts
    exceeded" with no attempts left and deletes the record. *)
Theorem otp_exhausted_after_max_wrong_codes
    (u t stored : string) (max exp : Z) (tries : list (Z * string)) (w : world) :
  faults w = Healthy →
  otp_record w u t stored 0 exp →
  1 ≤ max →
  length tries = Z.to_nat max →
  Forall (λ p, 0 ≤ p.1 ∧ p.2 ≠ stored) tries →
  now w + total_delay tries < exp →
  let rs := (verify_all u t max tries w).1 in
  let w' := (verify_all u t max tries w).2 in
  last rs = Some (Ok (OtpResult false "Invalid OTP. 0 attempts left" 0)) ∧
  ∀ delay code, 0 ≤ delay → now w' + delay < exp →
    let w2 := elapse delay w' in
    run (verify_otp u t code max) w2
      = Ok (OtpResult false "Maximum OTP attempts exceeded" 0) ∧
    db (after (verify_otp u t code max) w2) !! otp_key u t = None ∧
    live (after (verify_otp u t code max) w2) (otp_key u t) = None.
Proof.
  intros Hf Hrec Hmax Hlen Hall Htime rs w'.
  destruct (verify_all_wrong u t stored max exp tries w 0 Hf Hrec Hall Htime)
    as (Hf' & Hn' & Hrec' & Hlrs & Hrs); [lia|].
  fold rs in Hlrs, Hrs. fold w' in Hf', Hn', Hrec'. split.
  - rewrite last_lookup.
    destruct (rs !! pred (length rs)) as [r|] eqn:E.
    + rewrite (Hrs _ _ E). rewrite Hlrs, Hlen.
      replace (max - (0 + Z.of_nat (pred (Z.to_nat max)) + 1)) with 0 by lia. done.
    + apply lookup_ge_None in E. lia.
  - intros delay code Hd Hlate w2.
    replace (0 + Z.of_nat (length tries)) with max in Hrec' by lia.
    destruct (otp_record_elapse w' u t stored max exp delay Hrec' Hlate)
      as (d & Hl & Ha & _).
    destruct (verify_otp_exhausted u t code max w2 d (Some exp) max) as [Hr Hdb];
      [done|done|done|lia|].
    split; [done|]. split.
    + by rewrite Hdb, lookup_delete_eq.
    + unfold live. by rewrite Hdb, lookup_delete_eq.
Qed.

Lemma otp_exhausted_after_max_wrong_codes_witness :
  let w := after (store_otp "U1" "123456" "TXN1" 5) (World 1000 ∅ Healthy (λ _, 0) 0 []) in
  let tries := [(1, "000000"); (20, "111111"); (30, "654321")] in
  last (verify_all "U1" "TXN1" 3 tries w).1
    = Some (Ok (OtpResult false "Invalid OTP. 0 attempts left" 0)) ∧
  run (verify_otp "U1" "TXN1" "123456" 3) (elapse 5 (verify_all "U1" "TXN1" 3 tries w).2)
    = Ok (OtpResult false "Maximum OTP attempts exceeded" 0).
Proof.
  intros w tries.
  destruct (otp_exhausted_after_max_wrong_codes "U1" "TXN1" "123456" 3 1300 tries w)
    as [H1 H2].
  - reflexivity.
  - apply (store_otp_record "U1" "123456" "TXN1" 5); [reflexivity | lia].
  - lia.
  - reflexivity.
  - repeat constructor; simpl; (lia || discriminate).
  - vm_compute. reflexivity.
  - split; [exact H1|].
    destruct (H2 5 "123456") as [H _]; [lia | vm_compute; reflexivity | exact H].
Defined.

(** ** The attempt counter is bounded *)

Lemma attempts_bounded_insert max w w' k d exp n :
  attempts_bounded max w →
  db w' = <[k := Entry (JObj d) exp]> (db w) →
  dict_get "attempts" d = Some (JInt n) → n ≤ max →
  attempts_bounded max w'.
Proof.
  intros Hinv Hdb Hd Hn k' e d' n' Hk He Ha. rewrite Hdb in Hk.
  destruct (decide (k = k')) as [<-|Hne].
  - rewrite lookup_insert_eq in Hk. injection Hk as <-. simpl in He.
    injection He as <-. congruence.
  - rewrite lookup_insert_ne in Hk by done. eauto.
Qed.

Lemma attempts_bounded_delete max w w' k :
  attempts_bounded max w → db w' = delete k (db w) → attempts_bounded max w'.
Proof.
  intros Hinv Hdb k' e d n Hk. rewrite Hdb in Hk.
  apply lookup_delete_Some in Hk as [_ Hk]. eauto.
Qed.

Lemma attempts_bounded_same max w w' :
  attempts_bounded max w → db w' = db w → attempts_bounded max w'.
Proof. intros Hinv Hdb k e d n Hk. rewrite Hdb in Hk. eauto. Qed.

Lemma otp_step_bounded max w op :
  0 ≤ max → attempts_bounded max w → attempts_bounded max (otp_step max w op).
Proof.
  intros Hmax Hinv. destruct op as [u code t m|u t code|d]; simpl.
  - destruct (store_otp_db u code t m w) as [H|H].
    + by eapply attempts_bounded_same.
    + eapply attempts_bounded_insert; [done|exact H|reflexivity|done].
  - destruct (verify_otp_db u t code max w) as [H|[H|(d & a & exp & Ha & H)]].
    + by eapply attempts_bounded_same.
    + by eapply attempts_bounded_delete.
    + eapply attempts_bounded_insert; [done|exact H|apply dict_get_set_eq|lia].
  - by eapply attempts_bounded_same.
Qed.

Lemma otp_exec_bounded max ops : ∀ w,
  0 ≤ max → attempts_bounded max w → attempts_bounded max (otp_exec max ops w).
Proof.
  induction ops as [|op ops IH]; intros w Hmax Hinv; simpl; [done|].
  apply IH; [done|]. by apply otp_step_bounded.
Qed.

(** Whenever [store_otp] reports success, the record it left has no
    attempts, whatever the fault plan was. *)
Lemma store_otp_true_record u code t m w :
  run (store_otp u code t m) w = Ok true →
  otp_record (after (store_otp u code t m) w) u t code 0 (now w + 60 * m).
Proof.
  open_service. unfold timedelta_minutes. crunch; try done. intros _.
  exists [("otp", JStr code); ("transaction_id", JStr t);
          ("user_id", JStr u); ("attempts", JInt 0)].
  split; [|split; reflexivity]. unfold live. simpl.
  rewrite lookup_insert_eq. simpl. by rewrite bool_decide_eq_true_2 by lia.
Qed.

(** C3: [store_otp] creates every record with no attempts: with the
    store reachable and a positive lifetime it succeeds and leaves, under
    the key of the user and the transaction, the record of the code with
    its attempts at 0, and whenever it reports success, under any faults,
    the record it left has no attempts.  Along every sequence of
    [store_otp] and [verify_otp] calls (on any keys, with any delays and
    any faults in between) no record in the store ever counts more
    attempts than the maximum; a refused code adds exactly one attempt,
    and only to a counter strictly below the maximum; a call that finds
    the counter at or above the maximum deletes the record instead. *)
Theorem otp_attempts_never_exceed_max (max : Z) :
  0 ≤ max →
  (∀ u code t m w,
     faults w = Healthy → 0 < m →
     run (store_otp u code t m) w = Ok true ∧
     live (after (store_otp u code t m) w) (otp_key u t)
       = Some (Entry (otp_data code t u 0) (Some (now w + 60 * m))) ∧
     otp_record (after (store_otp u code t m) w) u t code 0 (now w + 60 * m)) ∧
  (∀ u code t m w,
     run (store_otp u code t m) w = Ok true →
     otp_record (after (store_otp u code t m) w) u t code 0 (now w + 60 * m)) ∧
  (∀ ops w, attempts_bounded max w →
     ∀ k e d n, live (otp_exec max ops w) k = Some e → value e = JObj d →
       dict_get "attempts" d = Some (JInt n) → n ≤ max) ∧
  (∀ u t code w,
     let w' := after (verify_otp u t code max) w in
     db w' = db w ∨ db w' = delete (otp_key u t) (db w) ∨
     ∃ d a exp, a < max ∧
       db w' = <[otp_key u t :=
                   Entry (JObj (dict_set "attempts" (JInt (a + 1)) d)) (Some exp)]> (db w)) ∧
  (∀ u t code stored n exp w,
     faults w = Healthy → otp_record w u t stored n exp → stored ≠ code → n < max →
     otp_record (after (verify_otp u t code max) w) u t stored (n + 1) exp) ∧
  (∀ u t code stored n exp w,
     faults w = Healthy → otp_record w u t stored n exp → max ≤ n →
     run (verify_otp u t code max) w
       = Ok (OtpResult false "Maximum OTP attempts exceeded" 0) ∧
     db (after (verify_otp u t code max) w) !! otp_key u t = None).
Proof.
  intros Hmax. split; [|split; [|split; [|split; [|split]]]].
  - intros u code t m w Hf Hm.
    destruct (store_otp_fresh u code t m w Hf Hm) as (Hr & _ & _ & Hl).
    split; [done|]. split; [done|]. by apply store_otp_true_record.
  - intros. by apply store_otp_true_record.
  - intros ops w Hinv k e d n Hl. apply live_db in Hl.
    by apply (otp_exec_bounded max ops w Hmax Hinv k e d n).
  - intros. apply verify_otp_db.
  - intros u t code stored n exp w Hf Hrec Hne Hn.
    by destruct (verify_otp_wrong_step u t code stored max w n exp) as (_ & _ & _ & H).
  - intros u t code stored n exp w Hf (d & Hl & Ha & _) Hn.
    destruct (verify_otp_exhausted u t code max w d (Some exp) n) as [Hr Hdb]; try done.
    split; [done|]. by rewrite Hdb, lookup_delete_eq.
Qed.

Lemma otp_attempts_never_exceed_max_witness :
  let w0 := World 1000 ∅ (Next false (Next true Healthy)) (λ _, 0) 0 [] in
  let ops := [StoreOtp "U1" "123456" "TXN1" 5; VerifyOtp "U1" "TXN1" "000000";
              Wait 10; VerifyOtp "U1" "TXN1" "111111"; VerifyOtp "U1" "TXN1" "222222";
              VerifyOtp "U1" "TXN1" "333333"] in
  let w := World 1000 ∅ Healthy (λ _, 0) 0 [] in
  (run (store_otp "U1" "123456" "TXN1" 5) w = Ok true ∧
   otp_record (after (store_otp "U1" "123456" "TXN1" 5) w) "U1" "TXN1" "123456" 0 1300) ∧
  attempts_bounded 3 w0 ∧
  ∀ k e d n, live (otp_exec 3 ops w0) k = Some e → value e = JObj d →
    dict_get "attempts" d = Some (JInt n) → n ≤ 3.
Proof.
  intros w0 ops w.
  assert (H0 : attempts_bounded 3 w0).
  { intros k e d n Hk. simpl in Hk. by rewrite lookup_empty in Hk. }
  destruct (otp_attempts_never_exceed_max 3 ltac:(lia)) as (Hs & _ & H & _).
  split.
  - destruct (Hs "U1" "123456" "TXN1" 5 w eq_refl ltac:(lia)) as (H1 & _ & H2).
    split; [exact H1 | exact H2].
  - split; [exact H0|]. exact (H ops w0 H0).
Defined.

(** ** The fixed window of the rate limiter *)

Lemma check_rate_limit_now u a max win w :
  now (after (check_rate_limit u a max win) w) = now w.
Proof. open_service. crunch; reflexivity. Qed.

Lemma check_rate_limit_healthy u a max win w :
  faults w = Healthy → faults (after (check_rate_limit u a max win) w) = Healthy.
Proof. intros H. open_service. crunch; healthy_chain; done. Qed.

Lemma check_rate_limit_first u a max win w :
  faults w = Healthy → live w (rate_key u a) = None → 0 < win →
  run (check_rate_limit u a max win) w = Ok (RateResult true (max - 1) (win * 60)) ∧
  rate_counter (after (check_rate_limit u a max win) w) u a 1 (now w + 60 * win).
Proof.
  intros Hf Hl Hw.
  unfold rate_counter, run, after, check_rate_limit, try_except, bind, redis_get,
    redis_setex, timedelta_minutes.
  rewrite command_healthy by done. rewrite Hl. simpl.
  rewrite command_healthy by done. rewrite bool_decide_eq_true_2 by lia. simpl.
  split; [done|]. unfold live. simpl. rewrite lookup_insert_eq. simpl.
  by rewrite bool_decide_eq_true_2 by lia.
Qed.

Lemma check_rate_limit_denied u a max win w c exp :
  faults w = Healthy → rate_counter w u a c exp → max ≤ c →
  run (check_rate_limit u a max win) w = Ok (RateResult false 0 (exp - now w)) ∧
  db (after (check_rate_limit u a max win) w) = db w.
Proof.
  intros Hf Hl Hc.
  unfold rate_counter, run, after, check_rate_limit, try_except, bind, redis_get,
    redis_ttl in *.
  rewrite command_healthy by done. rewrite Hl. simpl.
  rewrite bool_decide_eq_true_2 by lia.
  rewrite command_healthy by done. rewrite live_record, Hl. done.
Qed.

Lemma check_rate_limit_counted u a max win w c exp :
  faults w = Healthy → rate_counter w u a c exp → c < max →
  run (check_rate_limit u a max win) w
    = Ok (RateResult true (max - (c + 1)) (exp - now w)) ∧
  db (after (check_rate_limit u a max win) w)
    = <[rate_key u a := Entry (JInt (c + 1)) (Some exp)]> (db w).
Proof.
  intros Hf Hl Hc. pose proof (live_Some_now _ _ _ _ Hl) as Hnow.
  unfold rate_counter, run, after, check_rate_limit, try_except, bind, redis_get,
    redis_ttl, redis_incr in *.
  rewrite command_healthy by done. rewrite Hl. simpl.
  rewrite bool_decide_eq_false_2 by lia.
  rewrite command_healthy by done. rewrite live_record, Hl. simpl.
  rewrite command_healthy by done. rewrite live_record.
  unfold live at 1. simpl. rewrite lookup_insert_eq. simpl.
  rewrite bool_decide_eq_true_2 by lia. simpl.
  by replace (max - c - 1) with (max - (c + 1)) by lia.
Qed.

Lemma rate_counter_elapse w u a c exp d :
  rate_counter w u a c exp → now w + d < exp → rate_counter (elapse d w) u a c exp.
Proof. intros H Hd. by apply live_elapse_Some. Qed.

Lemma rate_counter_db w w' u a c exp :
  now w' = now w → now w < exp →
  db w' = <[rate_key u a := Entry (JInt c) (Some exp)]> (db w) →
  rate_counter w' u a c exp.
Proof.
  intros Hn Hlt Hdb. unfold rate_counter, live. rewrite Hdb, Hn, lookup_insert_eq. simpl.
  by rewrite bool_decide_eq_true_2.
Qed.

Lemma total_nonneg delays : Forall (λ d, 0 ≤ d) delays → 0 ≤ total delays.
Proof. induction 1; simpl; lia. Qed.

(** While the counter is below the maximum every call is let through
    and counted. *)
Lemma check_all_counted u a max win exp delays : ∀ w c,
  faults w = Healthy → rate_counter w u a c exp →
  Forall (λ d, 0 ≤ d) delays → now w + total delays < exp →
  c + Z.of_nat (length delays) ≤ max →
  let rs := (check_all u a max win delays w).1 in
  let w' := (check_all u a max win delays w).2 in
  faults w' = Healthy ∧ now w' = now w + total delays ∧
  rate_counter w' u a (c + Z.of_nat (length delays)) exp ∧
  length rs = length delays ∧
  ∀ (i : nat) r, rs !! i = Some r →
    ∃ ttl, 0 < ttl ∧ r = Ok (RateResult true (max - (c + Z.of_nat i + 1)) ttl).
Proof.
  induction delays as [|d delays IH]; intros w c Hf Hc Hall Htime Hlen.
  - simpl in *. rewrite !Z.add_0_r. done.
  - apply Forall_cons in Hall as [Hd Hall].
    pose proof (total_nonneg _ Hall) as Ht.
    cbn [total foldr] in Htime. fold (total delays) in Htime. cbn [length] in Hlen.
    pose proof (rate_counter_elapse w u a c exp d Hc ltac:(lia)) as Hc1.
    destruct (check_rate_limit_counted u a max win (elapse d w) c exp)
      as [Hr Hdb]; [done|done|lia|].
    set (w1 := after (check_rate_limit u a max win) (elapse d w)) in *.
    assert (Hn1 : now w1 = now w + d) by apply check_rate_limit_now.
    assert (Hf1 : faults w1 = Healthy) by by apply check_rate_limit_healthy.
    assert (Hc2 : rate_counter w1 u a (c + 1) exp).
    { eapply rate_counter_db; [apply check_rate_limit_now| |exact Hdb]. simpl. lia. }
    destruct (IH w1 (c + 1) Hf1 Hc2 Hall) as (IHf & IHn & IHc & IHlen & IHrs); [lia|lia|].
    simpl. fold w1.
    destruct (check_all u a max win delays w1) as [rs w2] eqn:E. simpl in *.
    split; [done|]. split; [fold (total delays); lia|].
    split; [by replace (c + Z.of_nat (S (length delays)))
                 with (c + 1 + Z.of_nat (length delays)) by lia|].
    split; [by rewrite IHlen|].
    intros [|i] r Hi; simpl in Hi.
    + injection Hi as <-. rewrite Hr. exists (exp - (now w + d)).
      split; [lia|]. by replace (c + Z.of_nat 0 + 1) with (c + 1) by lia.
    + destruct (IHrs i r Hi) as (ttl & Httl & ->). exists ttl. split; [done|].
      by replace (c + 1 + Z.of_nat i + 1) with (c + Z.of_nat (S i) + 1) by lia.
Qed.

(** Inside the window the counter, however often it is hit, keeps its
    expiry instant. *)
Lemma check_all_window u a max win exp delays : ∀ w c,
  faults w = Healthy → rate_counter w u a c exp →
  Forall (λ d, 0 ≤ d) delays → now w + total delays < exp →
  let w' := (check_all u a max win delays w).2 in
  faults w' = Healthy ∧ now w' = now w + total delays ∧
  ∃ c', rate_counter w' u a c' exp.
Proof.
  induction delays as [|d delays IH]; intros w c Hf Hc Hall Htime.
  - simpl in *. rewrite Z.add_0_r. eauto.
  - apply Forall_cons in Hall as [Hd Hall].
    pose proof (total_nonneg _ Hall) as Ht.
    cbn [total foldr] in Htime. fold (total delays) in Htime.
    pose proof (rate_counter_elapse w u a c exp d Hc ltac:(lia)) as Hc1.
    set (w1 := after (check_rate_limit u a max win) (elapse d w)).
    assert (Hn1 : now w1 = now w + d) by apply check_rate_limit_now.
    assert (Hf1 : faults w1 = Healthy) by by apply check_rate_limit_healthy.
    assert (Hc2 : ∃ c1, rate_counter w1 u a c1 exp).
    { destruct (decide (c < max)).
      - exists (c + 1).
        destruct (check_rate_limit_counted u a max win (elapse d w) c exp)
          as [_ Hdb]; [done|done|lia|].
        eapply rate_counter_db; [apply check_rate_limit_now| |exact Hdb]. simpl. lia.
      - exists c.
        destruct (check_rate_limit_denied u a max win (elapse d w) c exp)
          as [_ Hdb]; [done|done|lia|].
        unfold rate_counter. rewrite <- Hc1. apply live_ext; [done|].
        fold w1 in Hdb. by rewrite Hdb. }
    destruct Hc2 as [c1 Hc2].
    destruct (IH w1 c1 Hf1 Hc2 Hall) as (IHf & IHn & IHc); [lia|].
    simpl. fold w1.
    destruct (check_all u a max win delays w1) as [rs w2] eqn:E. simpl in *.
    split; [done|]. split; [fold (total delays); lia|]. done.
Qed.

Lemma check_all_app u a max win l1 : ∀ l2 w,
  check_all u a max win (l1 ++ l2) w =
    ((check_all u a max win l1 w).1 ++
       (check_all u a max win l2 (check_all u a max win l1 w).2).1,
     (check_all u a max win l2 (check_all u a max win l1 w).2).2)%list.
Proof.
  induction l1 as [|d l1 IH]; intros l2 w; simpl.
  - by destruct (check_all u a max win l2 w).
  - rewrite IH.
    by destruct (check_all u a max win l1
                   (after (check_rate_limit u a max win) (elapse d w))).
Qed.

Lemma total_app l1 l2 : total (l1 ++ l2) = total l1 + total l2.
Proof. induction l1; simpl; lia. Qed.

(** The fixed window, for calls during which the clock does not move
    (the round trips of a call all fall in the same second), the store
    being reachable.  The first check of a window creates the counter at 1
    with the TTL of the window and allows, leaving [max_requests - 1]; a
    later check that reads a count at or above the maximum denies,
    reports the remaining TTL of the key and leaves the counter alone;
    any other later check increments the counter and allows, leaving
    [max_requests] minus the new count.  Hence call number
    [max_requests + 1] inside the window of the first call is denied, and
    a call after the window has elapsed is allowed again with a fresh
    counter at 1.  A window that ends while a call runs is another
    matter: see the timed checks further on. *)
Theorem rate_limit_fixed_window (u a : string) (max win : Z) (w : world) :
  faults w = Healthy → 1 ≤ max → 0 < win → live w (rate_key u a) = None →
  let check := check_rate_limit u a max win in
  let w1 := after check w in
  (run check w = Ok (RateResult true (max - 1) (win * 60)) ∧
   rate_counter w1 u a 1 (now w + 60 * win)) ∧
  (∀ w c exp, faults w = Healthy → rate_counter w u a c exp → max ≤ c →
     run check w = Ok (RateResult false 0 (exp - now w)) ∧
     db (after check w) = db w) ∧
  (∀ w c exp, faults w = Healthy → rate_counter w u a c exp → c < max →
     run check w = Ok (RateResult true (max - (c + 1)) (exp - now w)) ∧
     rate_counter (after check w) u a (c + 1) exp) ∧
  (∀ delays,
     length delays = Z.to_nat max → Forall (λ d, 0 ≤ d) delays →
     total delays < 60 * win →
     let rs := (check_all u a max win delays w1).1 in
     (∀ (i : nat) r, (i < Z.to_nat max - 1)%nat → rs !! i = Some r →
        ∃ ttl, 0 < ttl ∧ r = Ok (RateResult true (max - (Z.of_nat i + 2)) ttl)) ∧
     ∃ ttl, 0 < ttl ∧
       rs !! (Z.to_nat max - 1)%nat = Some (Ok (RateResult false 0 ttl))) ∧
  (∀ delays d,
     Forall (λ d, 0 ≤ d) delays → total delays < 60 * win →
     60 * win ≤ total delays + d →
     let w2 := elapse d (check_all u a max win delays w1).2 in
     run check w2 = Ok (RateResult true (max - 1) (win * 60)) ∧
     rate_counter (after check w2) u a 1 (now w2 + 60 * win)).
Proof.
  intros Hf Hmax Hwin Hl check w1.
  destruct (check_rate_limit_first u a max win w Hf Hl Hwin) as [Hr1 Hc1].
  assert (Hf1 : faults w1 = Healthy) by by apply check_rate_limit_healthy.
  assert (Hn1 : now w1 = now w) by apply check_rate_limit_now.
  split; [done|]. split; [|split; [|split]].
  - intros w' c exp Hf' Hc Hge. by apply (check_rate_limit_denied u a max win w' c exp).
  - intros w' c exp Hf' Hc Hlt.
    destruct (check_rate_limit_counted u a max win w' c exp) as [Hr Hdb]; try done.
    split; [done|]. eapply rate_counter_db; [apply check_rate_limit_now| |exact Hdb].
    exact (live_Some_now _ _ _ _ Hc).
  - intros delays Hlen Hall Htot rs.
    destruct (exists_last (l := delays)) as (init & d & ->).
    { intros ->. simpl in Hlen. lia. }
    rewrite length_app in Hlen. simpl in Hlen.
    apply Forall_app in Hall as [Hinit Hd]. apply Forall_cons in Hd as [Hd _].
    rewrite total_app in Htot. simpl in Htot.
    pose proof (total_nonneg _ Hinit) as Hti.
    destruct (check_all_counted u a max win (now w + 60 * win) init w1 1)
      as (Hf2 & Hn2 & Hc2 & Hlen2 & Hrs2); [done|done|done|lia|lia|].
    subst rs. rewrite check_all_app. cbn [fst].
    set (rs1 := (check_all u a max win init w1).1) in *.
    set (w2 := (check_all u a max win init w1).2) in *.
    split.
    + intros i r Hi Hlook. rewrite lookup_app_l in Hlook by lia.
      destruct (Hrs2 i r Hlook) as (ttl & Httl & ->). exists ttl. split; [done|].
      by replace (1 + Z.of_nat i + 1) with (Z.of_nat i + 2) by lia.
    + exists (now w + 60 * win - (now w2 + d)). split; [lia|].
      rewrite lookup_app_r by lia.
      replace (Z.to_nat max - 1 - length rs1)%nat with 0%nat by lia.
      simpl.
      destruct (check_rate_limit_denied u a max win (elapse d w2)
                  (1 + Z.of_nat (length init)) (now w + 60 * win)) as [Hr _].
      * done.
      * apply rate_counter_elapse; [done|lia].
      * lia.
      * by rewrite Hr.
  - intros delays d Hall Htot Hlate w2.
    destruct (check_all_window u a max win (now w + 60 * win) delays w1 1)
      as (Hf2 & Hn2 & c' & Hc2); [done|done|done|lia|].
    assert (Hgone : live w2 (rate_key u a) = None).
    { eapply live_elapse_expired; [exact Hc2|]. lia. }
    destruct (check_rate_limit_first u a max win w2) as [Hr Hc]; done.
Qed.

(** ** Store outage: the security gates fail open *)

Lemma check_rate_limit_fails_open u a max win w :
  store_raised (check_rate_limit u a max win) w →
  run (check_rate_limit u a max win) w = Ok (RateResult true max (win * 60)).
Proof. open_service. crunch; read_events; done. Qed.

Lemma is_token_blacklisted_fails_open token w :
  store_raised (is_token_blacklisted token) w →
  run (is_token_blacklisted token) w = Ok false.
Proof. open_service. crunch; read_events; done. Qed.

Lemma down_raises_check u a max win w :
  faults w = Down → store_raised (check_rate_limit u a max win) w.
Proof. intros H. open_service. rewrite H. simpl. by read_events. Qed.

Lemma down_raises_blacklist token w :
  faults w = Down → store_raised (is_token_blacklisted token) w.
Proof. intros H. open_service. rewrite H. simpl. by read_events. Qed.

(** The outcome of token validation does not depend on what was logged,
    nor on the store. *)
Lemma verify_token_run jwt_decode py_repr token ty w w' :
  now w' = now w →
  run (verify_token jwt_decode py_repr token ty) w'
    = run (verify_token jwt_decode py_repr token ty) w.
Proof.
  intros H. unfold run, verify_token, raise, ret. rewrite H.
  destruct (jwt_decode (now w) token) as [payload| | |]; try done.
  destruct (negb _); [done|]. by destruct (dict_get "sub" payload) as [[]|].
Qed.

Lemma get_current_user_unchecked jwt_decode py_repr token w w' :
  now w' = now w →
  run (get_current_user jwt_decode py_repr false token) w'
    = run (get_current_user jwt_decode py_repr false token) w.
Proof.
  intros H.
  unfold run, get_current_user, try_except, bind, ret, verify_token, raise, py_getitem.
  simpl. rewrite H.
  destruct (jwt_decode (now w) token) as [payload| | |]; try done.
  destruct (negb _); [done|].
  destruct (dict_get "sub" payload) as [[]|] eqn:E;
    unfold ret, raise; simpl; rewrite ?E; done.
Qed.

(** When the blacklist cannot be read, the request is judged on the
    token alone. *)
Lemma get_current_user_outage jwt_decode py_repr token w :
  store_raised (is_token_blacklisted token) w →
  run (get_current_user jwt_decode py_repr true token) w
    = run (get_current_user jwt_decode py_repr false token) w.
Proof.
  intros Hraised. pose proof (is_token_blacklisted_fails_open token w Hraised) as Hr.
  unfold run in *.
  unfold get_current_user at 1. unfold try_except at 1. unfold bind at 1.
  unfold try_except at 1. unfold bind at 1.
  destruct (is_token_blacklisted token w) as [[b|e] w1] eqn:E; simpl in Hr; [|done].
  injection Hr as ->. simpl.
  assert (Hn : now w1 = now w).
  { revert E. open_service. crunch; by intros [= <-]. }
  pose proof (get_current_user_unchecked jwt_decode py_repr token w w1 Hn) as Hu.
  unfold run, get_current_user, try_except, bind in Hu. simpl in Hu.
  unfold bind, ret. exact Hu.
Qed.

(** C6: during a store outage the security gates fail open.  Whenever a
    command of the call raises, [check_rate_limit] answers [allowed = true]
    (for every identifier and action) and [is_token_blacklisted] answers
    [false] (for every token); with the store down this is every call, so
    the login rate check lets the request pass and the authentication
    dependency judges it on the token alone. *)
Theorem store_outage_fails_open
    (jwt_decode : Z → string → decode_outcome) (py_repr : json → string)
    (u a token : string) (max win : Z) (w : world) :
  (store_raised (check_rate_limit u a max win) w →
     run (check_rate_limit u a max win) w = Ok (RateResult true max (win * 60))) ∧
  (store_raised (is_token_blacklisted token) w →
     run (is_token_blacklisted token) w = Ok false) ∧
  (faults w = Down →
     run (check_rate_limit u a max win) w = Ok (RateResult true max (win * 60)) ∧
     run (is_token_blacklisted token) w = Ok false ∧
     run (login_rate_check true u) w = Ok tt ∧
     run (get_current_user jwt_decode py_repr true token) w
       = run (get_current_user jwt_decode py_repr false token) w).
Proof.
  split; [apply check_rate_limit_fails_open|].
  split; [apply is_token_blacklisted_fails_open|].
  intros Hdown. split; [|split; [|split]].
  - by apply check_rate_limit_fails_open, down_raises_check.
  - by apply is_token_blacklisted_fails_open, down_raises_blacklist.
  - pose proof (check_rate_limit_fails_open u "login" 5 5 w
                  (down_raises_check u "login" 5 5 w Hdown)) as Hr.
    unfold run, login_rate_check, bind in *.
    destruct (check_rate_limit u "login" 5 5 w) as [[r|e] w1]; simpl in Hr; [|done].
    by injection Hr as ->.
  - by apply get_current_user_outage, down_raises_blacklist.
Qed.

Lemma store_outage_fails_open_witness :
  let w := World 1000 ∅ Down (λ _, 0) 0 [] in
  run (check_rate_limit "a@b.c" "login" 5 5) w = Ok (RateResult true 5 300) ∧
  run (is_token_blacklisted "tok") w = Ok false.
Proof.
  intros w.
  destruct (store_outage_fails_open (λ _ _, JWTError "") (λ _, "")
              "a@b.c" "login" "tok" 5 5 w) as (_ & _ & H).
  destruct H as (H1 & H2 & _); [reflexivity|]. split; [exact H1 | exact H2].
Defined.

(** ** The blacklist is consulted first *)

(** With a registered store the first thing a request causes is the
    blacklist lookup; decoding the token, if it happens at all, comes
    after it. *)
Lemma get_current_user_events jwt_decode py_repr token w :
  ∃ ok rest,
    new_events (get_current_user jwt_decode py_repr true token) w
      = Command "EXISTS" (token_key token) ok :: rest ∧
    (rest = [] ∨ rest = [JwtDecode token]).
Proof.
  unfold get_current_user, verify_token, py_getitem; open_service. crunch; read_events; eauto.
Qed.

(** Every refusal of the dependency is an HTTP 401. *)
Lemma get_current_user_refusal jwt_decode py_repr rs token w e :
  run (get_current_user jwt_decode py_repr rs token) w = Raise e →
  ∃ detail, e = HTTPException 401 detail.
Proof.
  unfold get_current_user, verify_token, py_getitem; open_service. crunch; intros [= <-]; eauto.
Qed.

Lemma get_current_user_blacklisted jwt_decode py_repr token w :
  (next_fault (faults w)).1 = false →
  is_Some (live w (token_key token)) →
  run (get_current_user jwt_decode py_repr true token) w
    = Raise (HTTPException 401 "Token has been revoked. Please login again.") ∧
  new_events (get_current_user jwt_decode py_repr true token) w
    = [Command "EXISTS" (token_key token) true].
Proof.
  intros Hf [e He]. unfold get_current_user, verify_token, py_getitem; open_service.
  destruct (next_fault (faults w)) as [fault rest]. simpl in Hf. subst fault.
  simpl. rewrite live_set_faults, He. simpl. by read_events.
Qed.

(** The text of the refusal tells whether the token was decoded: the
    dependency answers "Token has been revoked" exactly when it refuses
    without decoding. *)
Lemma get_current_user_refusal_detail jwt_decode py_repr rs token w e :
  run (get_current_user jwt_decode py_repr rs token) w = Raise e →
  ∃ detail, e = HTTPException 401 detail ∧
    (detail = "Token has been revoked. Please login again."
     ↔ JwtDecode token ∉ new_events (get_current_user jwt_decode py_repr rs token) w).
Proof.
  unfold get_current_user, verify_token, py_getitem; open_service.
  crunch; intros [= <-]; read_events; eexists; (split; [reflexivity|]).
  all: split; intros Hdetail; try done.
  all: try (exfalso; revert Hdetail; cbv [String.append capitalize]; discriminate).
  all: try (exfalso; apply Hdetail; set_solver).
  all: by intros ?%list_elem_of_singleton.
Qed.

(** C5, as the code has it: a request whose token is on the blacklist,
    the store being reachable, is refused with HTTP 401 "Token has been
    revoked" whatever the token decodes to, and the token is never
    decoded: the lookup is the only event of the call.  In every call the
    blacklist lookup comes before any decoding of the token.  Every
    refusal, of a revoked token as of an invalid one, is an HTTP 401, but
    the two are told apart by the detail: the dependency answers "Token
    has been revoked" exactly when it refuses without decoding the
    token. *)
Theorem blacklisted_token_rejected_before_validation
    (jwt_decode : Z → string → decode_outcome) (py_repr : json → string)
    (token : string) (w : world) :
  (next_fault (faults w)).1 = false →
  is_Some (live w (token_key token)) →
  let call := get_current_user jwt_decode py_repr true token in
  run call w = Raise (HTTPException 401 "Token has been revoked. Please login again.") ∧
  new_events call w = [Command "EXISTS" (token_key token) true] ∧
  (∀ w', ∃ ok rest,
     new_events call w' = Command "EXISTS" (token_key token) ok :: rest ∧
     (rest = [] ∨ rest = [JwtDecode token])) ∧
  (∀ rs tok w' e,
     run (get_current_user jwt_decode py_repr rs tok) w' = Raise e →
     ∃ detail, e = HTTPException 401 detail ∧
       (detail = "Token has been revoked. Please login again."
        ↔ JwtDecode tok ∉ new_events (get_current_user jwt_decode py_repr rs tok) w')).
Proof.
  intros Hf Hb call.
  destruct (get_current_user_blacklisted jwt_decode py_repr token w Hf Hb) as [Hr He].
  split; [done|]. split; [done|]. split.
  - intros w'. apply get_current_user_events.
  - intros rs tok w' e. apply get_current_user_refusal_detail.
Qed.

(** C5, as stated, fails: a revoked token and a forged one are both
    refused with HTTP 401, but not identically; the details differ. *)
Lemma revoked_token_not_refused_as_invalid_one :
  let jwt := λ (_ : Z) (t : string),
    if bool_decide (t = "revoked")
    then Decoded [("sub", JStr "U1"); ("type", JStr "access")]
    else JWTError "Signature verification failed." in
  let w := after (blacklist_token "revoked" 15) (World 1000 ∅ Healthy (λ _, 0) 0 []) in
  run (get_current_user jwt (λ _, "") true "revoked") w
    = Raise (HTTPException 401 "Token has been revoked. Please login again.") ∧
  run (get_current_user jwt (λ _, "") true "forged") w
    = Raise (HTTPException 401
               "Could not validate credentials: Signature verification failed.") ∧
  run (get_current_user jwt (λ _, "") true "revoked") w
    ≠ run (get_current_user jwt (λ _, "") true "forged") w.
Proof. vm_compute. repeat split. discriminate. Qed.

Lemma blacklisted_token_rejected_before_validation_witness :
  let jwt := λ (_ : Z) (_ : string), Decoded [("sub", JStr "U1"); ("type", JStr "access")] in
  let w := after (blacklist_token "tok" 15) (World 1000 ∅ Healthy (λ _, 0) 0 []) in
  run (get_current_user jwt (λ _, "") false "tok") w = Ok (JStr "U1") ∧
  run (get_current_user jwt (λ _, "") true "tok") w
    = Raise (HTTPException 401 "Token has been revoked. Please login again.").
Proof.
  intros jwt w. split; [reflexivity|].
  destruct (blacklisted_token_rejected_before_validation jwt (λ _, "") "tok" w)
    as [H _]; [reflexivity | by eexists | exact H].
Defined.

(** ** Sessions: the last write wins *)

Lemma create_session_run u data m w :
  faults w = Healthy → 0 < m →
  create_session u data m w =
    (Ok (Some (session_key u)),
     record (Command "SETEX" (session_key u) true)
       (set_db (<[session_key u := Entry data (Some (now w + 60 * m))]> (db w)) w)).
Proof.
  intros Hf Hm. unfold create_session, try_except, bind, redis_setex, timedelta_minutes,
    json_dumps.
  rewrite command_healthy by done. by rewrite bool_decide_eq_true_2 by lia.
Qed.

Lemma get_session_run u w :
  faults w = Healthy →
  get_session u w =
    (Ok (value <$> live w (session_key u)), record (Command "GET" (session_key u) true) w).
Proof.
  intros Hf. unfold get_session, try_except, bind, redis_get, json_loads.
  rewrite command_healthy by done. by destruct (live w (session_key u)).
Qed.

(** C9: opening a session for a user with payload [A] and then with
    payload [B] leaves a read returning exactly [B]; the store is then
    what it would be had [A] never been written. *)
Theorem session_last_write_wins
    (u : string) (A B : json) (mA mB between later : Z) (w : world) :
  faults w = Healthy → 0 < mA → 0 < mB → later < 60 * mB →
  let w1 := after (create_session u A mA) w in
  let w2 := after (create_session u B mB) (elapse between w1) in
  run (get_session u) (elapse later w2) = Ok (Some B) ∧
  db w2 = db (after (create_session u B mB) (elapse between w)).
Proof.
  intros Hf HA HB Hlater w1 w2. subst w1 w2. unfold run, after.
  rewrite (create_session_run u A mA w) by done. simpl.
  rewrite !create_session_run by done. simpl. split.
  - rewrite get_session_run by done. simpl.
    unfold live. simpl. rewrite lookup_insert_eq. simpl.
    by rewrite bool_decide_eq_true_2 by lia.
  - by rewrite insert_insert_eq.
Qed.

Lemma session_last_write_wins_witness :
  let w := World 1000 ∅ Healthy (λ _, 0) 0 [] in
  let A := JObj [("name", JStr "Rahul"); ("pending_transaction_id", JStr "TXN1")] in
  let B := JObj [("name", JStr "Rahul"); ("ip_address", JStr "10.0.0.1")] in
  run (get_session "U1")
    (elapse 60 (after (create_session "U1" B 15)
                  (elapse 5 (after (create_session "U1" A 15) w))))
    = Ok (Some B).
Proof.
  intros w A B.
  destruct (session_last_write_wins "U1" A B 15 15 5 60 w) as [H _];
    [reflexivity | lia | lia | lia | exact H].
Defined.

(** ** The conversational path: the pending transaction of the session *)

Lemma dict_get_nonempty k (d : pydict) v : dict_get k d = Some v → d ≠ [].
Proof. by destruct d. Qed.

(** A spoken passcode against a session that names a pending
    transaction: what is answered and what the store holds for the
    session afterwards, payload and expiry, by the outcome of the
    verification. *)
Lemma process_voice_verification_store py_repr u otp rt s exp tid w :
  faults w = Healthy →
  live w (session_key u) = Some (Entry (JObj s) exp) →
  dict_get "pending_transaction_id" s = Some tid →
  let call := process_voice py_repr true u "OTP_VERIFICATION" (Some otp) rt in
  let w1 := after (get_session u) w in
  ∃ v, run (verify_otp u (py_str py_repr tid) otp 3) w1 = Ok v ∧
    if valid v then
      run call w = Ok (VoiceReply "Transaction completed successfully!"
                         "TRANSACTION_COMPLETE" (Some "verified") (Some tid)) ∧
      run (get_session u) (after call w)
        = Ok (Some (JObj (dict_set "pending_transaction_id" JNull s))) ∧
      live (after call w) (session_key u)
        = Some (Entry (JObj (dict_set "pending_transaction_id" JNull s))
                  (Some (now w + 60 * 1440)))
    else
      run call w = Ok (VoiceReply ("Invalid OTP. " +:+ message v)
                         "OTP_FAILED" (Some "failed") (Some tid)) ∧
      run (get_session u) (after call w) = Ok (Some (JObj s)) ∧
      live (after call w) (session_key u) = Some (Entry (JObj s) exp).
Proof.
  intros Hf Hl Hd call w1. subst call w1.
  pose proof (dict_get_nonempty _ _ _ Hd) as Hne.
  unfold after at 1. rewrite get_session_run by done. cbn [snd].
  set (w1 := record (Command "GET" (session_key u) true) w).
  assert (Hf1 : faults w1 = Healthy) by done.
  destruct (verify_otp_total u (py_str py_repr tid) otp 3 w1) as [v Hv].
  pose proof (verify_otp_healthy u (py_str py_repr tid) otp 3 w1 Hf1) as Hf2.
  pose proof (verify_otp_now u (py_str py_repr tid) otp 3 w1) as Hn2.
  pose proof (verify_otp_other_key u (py_str py_repr tid) otp 3 w1 (session_key u)
                (session_key_not_otp_key _ _ _)) as Hk2.
  exists v. split; [done|].
  assert (Hcall :
    process_voice py_repr true u "OTP_VERIFICATION" (Some otp) rt w =
      let w2 := after (verify_otp u (py_str py_repr tid) otp 3) w1 in
      if valid v then
        (let* session := py_setitem (JObj s) "pending_transaction_id" JNull in
         create_session u session 1440 ;;
         ret (VoiceReply "Transaction completed successfully!"
                "TRANSACTION_COMPLETE" (Some "verified") (Some tid))) w2
      else
        (Ok (VoiceReply ("Invalid OTP. " +:+ message v)
               "OTP_FAILED" (Some "failed") (Some tid)), w2)).
  { unfold process_voice. rewrite bool_decide_eq_true_2 by done.
    unfold bind at 1. rewrite get_session_run by done. rewrite Hl.
    cbn [fmap option_fmap option_map value py_truthy]. fold w1.
    rewrite bool_decide_eq_true_2 by done.
    unfold bind at 1. unfold py_contains, dict_has. rewrite Hd.
    unfold ret at 1. unfold bind at 1. unfold py_getitem at 1. rewrite Hd. unfold ret at 1.
    unfold bind at 1. unfold run, after in *.
    destruct (verify_otp u (py_str py_repr tid) otp 3 w1) as [[v'|e] w2];
      simpl in Hv; [|done].
    injection Hv as ->. simpl. by destruct (valid v). }
  set (w2 := after (verify_otp u (py_str py_repr tid) otp 3) w1) in *.
  unfold run at 1 3, after at 1 2 3. rewrite Hcall. cbv zeta.
  destruct (valid v).
  - unfold bind, py_setitem, ret. rewrite create_session_run by done. simpl.
    split; [done|]. split.
    + unfold run. rewrite get_session_run by done. simpl.
      unfold live. simpl. rewrite lookup_insert_eq. simpl.
      by rewrite bool_decide_eq_true_2 by lia.
    + unfold live. simpl. rewrite lookup_insert_eq. simpl. rewrite Hn2. simpl.
      by rewrite bool_decide_eq_true_2 by lia.
  - simpl. split; [done|]. split.
    + unfold run. rewrite get_session_run by done. simpl.
      by rewrite (live_ext w w2 (session_key u)), Hl.
    + unfold after. rewrite Hcall. simpl.
      by rewrite (live_ext w w2 (session_key u)), Hl.
Qed.

Lemma process_voice_verification py_repr u otp rt s exp tid w :
  faults w = Healthy →
  live w (session_key u) = Some (Entry (JObj s) exp) →
  dict_get "pending_transaction_id" s = Some tid →
  let call := process_voice py_repr true u "OTP_VERIFICATION" (Some otp) rt in
  let w1 := after (get_session u) w in
  ∃ v, run (verify_otp u (py_str py_repr tid) otp 3) w1 = Ok v ∧
    if valid v then
      run call w = Ok (VoiceReply "Transaction completed successfully!"
                         "TRANSACTION_COMPLETE" (Some "verified") (Some tid)) ∧
      run (get_session u) (after call w)
        = Ok (Some (JObj (dict_set "pending_transaction_id" JNull s)))
    else
      run call w = Ok (VoiceReply ("Invalid OTP. " +:+ message v)
                         "OTP_FAILED" (Some "failed") (Some tid)) ∧
      run (get_session u) (after call w) = Ok (Some (JObj s)).
Proof.
  intros Hf Hl Hd call w1.
  destruct (process_voice_verification_store py_repr u otp rt s exp tid w Hf Hl Hd)
    as (v & Hv & H).
  exists v. split; [done|]. destruct (valid v); destruct H as (H1 & H2 & _); done.
Qed.

(** C7, as the code has it: when a spoken passcode is checked against the
    pending transaction named by the session (store reachable), a
    successful verification rewrites the session with
    [pending_transaction_id] set to null and an expiry of 1440 minutes
    from then, and a failed one, whatever made it fail, leaves the
    session as it was, payload and expiry, still naming the
    transaction. *)
Theorem voice_verification_clears_pending_on_success_only
    (py_repr : json → string) (u otp rt : string) (s : pydict) (exp : option Z)
    (tid : json) (w : world) :
  faults w = Healthy →
  live w (session_key u) = Some (Entry (JObj s) exp) →
  dict_get "pending_transaction_id" s = Some tid →
  let call := process_voice py_repr true u "OTP_VERIFICATION" (Some otp) rt in
  ∃ v reply session,
    run (verify_otp u (py_str py_repr tid) otp 3) (after (get_session u) w) = Ok v ∧
    run call w = Ok reply ∧
    run (get_session u) (after call w) = Ok (Some (JObj session)) ∧
    if valid v then
      otp_status reply = Some "verified" ∧
      session = dict_set "pending_transaction_id" JNull s ∧
      dict_get "pending_transaction_id" session = Some JNull ∧
      live (after call w) (session_key u)
        = Some (Entry (JObj session) (Some (now w + 60 * 1440)))
    else
      otp_status reply = Some "failed" ∧
      session = s ∧
      dict_get "pending_transaction_id" session = Some tid ∧
      live (after call w) (session_key u) = Some (Entry (JObj s) exp).
Proof.
  intros Hf Hl Hd call.
  destruct (process_voice_verification_store py_repr u otp rt s exp tid w Hf Hl Hd)
    as (v & Hv & H).
  exists v. destruct (valid v) eqn:E; destruct H as (Hr & Hs & Hlive).
  - eexists _, _. repeat split; try done. apply dict_get_set_eq.
  - eexists _, _. repeat split; done.
Qed.

(** C7, as stated, fails: after a refused spoken passcode, and still
    after the refusal that exhausts the attempts, the session goes on
    naming the transaction. *)
Lemma voice_verification_failure_keeps_pending :
  let py := λ _ : json, "" in
  let say code := process_voice py true "U1" "OTP_VERIFICATION" (Some code) "" in
  let w0 := World 1000 ∅ Healthy (λ _, 0) 0 [] in
  let w1 := after (create_session "U1" (JObj [("name", JStr "Rahul")]) 15) w0 in
  let w2 := after (process_voice py true "U1" "FUND_TRANSFER" None
                     "Sending 500 to Mom. OTP: 123456") w1 in
  let w3 := after (say "000000") w2 in
  let w6 := after (say "123456") (after (say "333333") (after (say "222222") w3)) in
  run (say "000000") w2
    = Ok (VoiceReply "Invalid OTP. Invalid OTP. 2 attempts left" "OTP_FAILED"
            (Some "failed") (Some (JStr "TXN1000"))) ∧
  run (get_session "U1") w3
    = Ok (Some (JObj [("name", JStr "Rahul");
                      ("pending_transaction_id", JStr "TXN1000")])) ∧
  run (say "123456") (after (say "333333") (after (say "222222") w3))
    = Ok (VoiceReply "Invalid OTP. Maximum OTP attempts exceeded" "OTP_FAILED"
            (Some "failed") (Some (JStr "TXN1000"))) ∧
  run (get_session "U1") w6
    = Ok (Some (JObj [("name", JStr "Rahul");
                      ("pending_transaction_id", JStr "TXN1000")])).
Proof. vm_compute. repeat split. Qed.

Lemma voice_verification_clears_pending_on_success_only_witness :
  let py := λ _ : json, "" in
  let w0 := World 1000 ∅ Healthy (λ _, 0) 0 [] in
  let s := [("name", JStr "Rahul"); ("pending_transaction_id", JStr "TXN1")] in
  let w := after (store_otp "U1" "123456" "TXN1" 5) (after (create_session "U1" (JObj s) 15) w0) in
  let call := process_voice py true "U1" "OTP_VERIFICATION" (Some "123456") "" in
  ∃ v reply session,
    run (verify_otp "U1" "TXN1" "123456" 3) (after (get_session "U1") w) = Ok v ∧
    run call w = Ok reply ∧
    run (get_session "U1") (after call w) = Ok (Some (JObj session)) ∧
    if valid v then
      otp_status reply = Some "verified" ∧
      session = dict_set "pending_transaction_id" JNull s ∧
      dict_get "pending_transaction_id" session = Some JNull ∧
      live (after call w) (session_key "U1") = Some (Entry (JObj session) (Some 87400))
    else
      otp_status reply = Some "failed" ∧
      session = s ∧
      dict_get "pending_transaction_id" session = Some (JStr "TXN1") ∧
      live (after call w) (session_key "U1") = Some (Entry (JObj s) (Some 1900)).
Proof.
  intros py w0 s w call.
  apply (voice_verification_clears_pending_on_success_only py "U1" "123456" ""
           s (Some 1900) (JStr "TXN1") w); reflexivity.
Defined.

(** ** Issuing a passcode *)

Lemma div10_bounds (x lo hi : N) :
  (10 * lo ≤ x < 10 * hi → lo ≤ x `div` 10 < hi)%N.
Proof.
  intros [Hlo Hhi]. split.
  - by apply N.div_le_lower_bound.
  - by apply N.Div0.div_lt_upper_bound.
Qed.

Lemma isdigit_pretty_N_char x : py_isdigit (pretty_N_char x) = true.
Proof. unfold pretty_N_char. by repeat case_match. Qed.

(** The decimal text of a number from 100000 to 999999 is six digits. *)
Lemma pretty_six_digits (n : Z) :
  100000 ≤ n ≤ 999999 →
  String.length (pretty n) = 6%nat ∧ take_digits 6 (pretty n) = Some (pretty n).
Proof.
  intros Hn. destruct n as [|p|p]; [lia| |lia].
  change (pretty (Z.pos p)) with (pretty (N.pos p)).
  unfold pretty, pretty_N. rewrite decide_False by done.
  set (x := N.pos p). assert (Hx : (10 * 10000 ≤ x < 10 * 100000)%N) by lia.
  clearbody x. clear Hn p.
  rewrite (pretty_N_go_step x) by lia.
  set (x1 := (x `div` 10)%N). pose proof (div10_bounds x 10000 100000 Hx) as H1.
  fold x1 in H1. rewrite (pretty_N_go_step x1) by lia.
  set (x2 := (x1 `div` 10)%N). pose proof (div10_bounds x1 1000 10000 ltac:(lia)) as H2.
  fold x2 in H2. rewrite (pretty_N_go_step x2) by lia.
  set (x3 := (x2 `div` 10)%N). pose proof (div10_bounds x2 100 1000 ltac:(lia)) as H3.
  fold x3 in H3. rewrite (pretty_N_go_step x3) by lia.
  set (x4 := (x3 `div` 10)%N). pose proof (div10_bounds x3 10 100 ltac:(lia)) as H4.
  fold x4 in H4. rewrite (pretty_N_go_step x4) by lia.
  set (x5 := (x4 `div` 10)%N). pose proof (div10_bounds x4 1 10 ltac:(lia)) as H5.
  fold x5 in H5. rewrite (pretty_N_go_step x5) by lia.
  rewrite (N.div_small x5 10) by lia. rewrite pretty_N_go_0.
  split; [done|]. simpl. by rewrite !isdigit_pretty_N_char.
Qed.

Lemma randint_range a b w :
  a ≤ b →
  ∃ n, randint a b w = (Ok n, World (now w) (db w) (faults w) (entropy w) (S (draws w)) (log w))
       ∧ n = a + entropy w (draws w) `mod` (b - a + 1) ∧ a ≤ n ≤ b.
Proof.
  intros Hab. eexists. split; [reflexivity|]. split; [done|].
  pose proof (Z.mod_pos_bound (entropy w (draws w)) (b - a + 1) ltac:(lia)). lia.
Qed.

(** C8, as the code has it: every successful issuance draws the next
    random word, independently of any earlier code, folds it into
    100000..999999 and issues its six decimal digits; the record stored
    under the key of (user, transaction) is then the new one, with no
    attempts and five minutes to live, whatever record was there
    before. *)
Theorem otp_issuance_draws_and_overwrites
    (format_money : Z → string) (b : bank) (u recipient : string) (amount balance : Z)
    (payee : beneficiary) (w : world) :
  faults w = Healthy →
  0 < amount → blank recipient = false →
  outage b = None →
  beneficiary_of b u recipient = Some payee →
  balance_of b u = Some balance → amount ≤ balance →
  let call := initiate_transfer format_money true b u recipient amount in
  let n := 100000 + entropy w (draws w) `mod` 900000 in
  let txn := "TXN" +:+ pretty (now w) in
  100000 ≤ n ≤ 999999 ∧
  String.length (pretty n) = 6%nat ∧
  take_digits 6 (pretty n) = Some (pretty n) ∧
  run call w = Ok (TransferReply txn (pretty n) (full_name payee) amount) ∧
  draws (after call w) = S (draws w) ∧
  live (after call w) (otp_key u txn)
    = Some (Entry (otp_data (pretty n) txn u 0) (Some (now w + 300))).
Proof.
  intros Hf Hamt Hblank Hout Hben Hbal Hle call n txn.
  assert (Hn : 100000 ≤ n ≤ 999999).
  { subst n. pose proof (Z.mod_pos_bound (entropy w (draws w)) 900000 ltac:(lia)). lia. }
  destruct (pretty_six_digits n Hn) as [Hlen Hdig].
  split; [done|]. split; [done|]. split; [done|].
  set (w1 := World (now w) (db w) (faults w) (entropy w) (S (draws w)) (log w)).
  destruct (store_otp_fresh u (pretty n) txn 5 w1) as (Hr & Hf2 & Hn2 & Hl2); [done|lia|].
  assert (Hd2 : draws (after (store_otp u (pretty n) txn 5) w1) = S (draws w)).
  { clear. open_service. crunch; reflexivity. }
  assert (Hcall : call w =
    (Ok (TransferReply txn (pretty n) (full_name payee) amount),
     after (store_otp u (pretty n) txn 5) w1)).
  { subst call. unfold initiate_transfer.
    rewrite bool_decide_eq_false_2 by lia. rewrite Hblank.
    unfold bind at 1. unfold transfer_money. rewrite Hout, Hben.
    destruct payee as [fn acct bk]. rewrite Hbal.
    rewrite bool_decide_eq_false_2 by lia.
    unfold bind at 1. unfold randint at 1. unfold ret at 1. unfold bind at 1.
    unfold timestamp at 1. unfold bind at 1. unfold bind at 1.
    change (100000 + entropy w (draws w) `mod` (999999 - 100000 + 1)) with n.
    cbn [now db faults entropy draws log]. fold txn w1.
    unfold run, after in *.
    destruct (store_otp u (pretty n) txn 5 w1) as [[ok|e] w2]; simpl in Hr; [|done].
    reflexivity. }
  unfold run, after at 1 2. rewrite Hcall. cbn [fst snd].
  split; [done|]. split; [done|]. by rewrite Hl2.
Qed.

(** C8, as stated, fails: two issuances in a row for the same user and
    transaction may come out with the same code. *)
Lemma otp_reissue_may_repeat_code :
  let b := Bank (λ _ _, Some (Beneficiary "Mom" "0042" "SBI")) (λ _, ["mom"])
             (λ _, Some 5000) None in
  let issue := initiate_transfer pretty true b "U1" "mom" 500 in
  let w := World 1000 ∅ Healthy (λ _, 23456) 0 [] in
  run issue w = Ok (TransferReply "TXN1000" "123456" "Mom" 500) ∧
  run issue (after issue w) = Ok (TransferReply "TXN1000" "123456" "Mom" 500).
Proof. vm_compute. split; reflexivity. Qed.

Lemma otp_issuance_draws_and_overwrites_witness :
  let b := Bank (λ _ _, Some (Beneficiary "Mom" "0042" "SBI")) (λ _, ["mom"])
             (λ _, Some 5000) None in
  let issue := initiate_transfer pretty true b "U1" "mom" 500 in
  let w := after (verify_otp "U1" "TXN1000" "000000" 3)
             (after issue (World 1000 ∅ Healthy (λ n, Z.of_nat n * 7919) 0 [])) in
  run issue w = Ok (TransferReply "TXN1000" "107919" "Mom" 500) ∧
  live (after issue w) (otp_key "U1" "TXN1000")
    = Some (Entry (otp_data "107919" "TXN1000" "U1" 0) (Some 1300)).
Proof.
  intros b issue w.
  destruct (otp_issuance_draws_and_overwrites pretty b "U1" "mom" 500 5000
              (Beneficiary "Mom" "0042" "SBI") w) as (_ & _ & _ & H1 & _ & H2);
    [reflexivity | lia | reflexivity | reflexivity | reflexivity | reflexivity | lia |].
  split; [exact H1 | exact H2].
Defined.

(** ** Instances *)

Lemma rate_limit_fixed_window_witness :
  let w := World 1000 ∅ Healthy (λ _, 0) 0 [] in
  let check := check_rate_limit "a@b.c" "login" 5 5 in
  run check w = Ok (RateResult true 4 300) ∧
  ∃ ttl, 0 < ttl ∧
    (check_all "a@b.c" "login" 5 5 [1; 1; 1; 1; 1] (after check w)).1 !! 4%nat
      = Some (Ok (RateResult false 0 ttl)).
Proof.
  intros w check.
  destruct (rate_limit_fixed_window "a@b.c" "login" 5 5 w)
    as ((H1 & _) & _ & _ & H4 & _); [reflexivity | lia | lia | reflexivity |].
  split; [exact H1|].
  destruct (H4 [1; 1; 1; 1; 1]) as [_ H]; [reflexivity | | vm_compute; reflexivity | exact H].
  repeat constructor; lia.
Defined.

Lemma verify_otp_fails_closed_witness :
  let w := after (store_otp "U1" "123456" "TXN1" 5)
             (World 1000 ∅ (Next false (Next false Down)) (λ _, 0) 0 []) in
  run (verify_otp "U1" "TXN1" "123456" 3) w
    = Ok (OtpResult false "OTP verification failed" 0).
Proof.
  intros w. apply (verify_otp_fails_closed "U1" "TXN1" "123456" 3 w).
  vm_compute. reflexivity.
Defined.

(** * Further properties *)

(** ** Revocation, closing and refreshing *)

Lemma blacklist_token_run token m w :
  faults w = Healthy → 0 < m →
  blacklist_token token m w =
    (Ok true,
     record (Command "SETEX" (token_key token) true)
       (set_db (<[token_key token := Entry (JInt 1) (Some (now w + 60 * m))]> (db w)) w)).
Proof.
  intros Hf Hm. unfold blacklist_token, try_except, bind, redis_setex, timedelta_minutes.
  rewrite command_healthy by done. by rewrite bool_decide_eq_true_2 by lia.
Qed.

Lemma is_token_blacklisted_run token w :
  faults w = Healthy →
  run (is_token_blacklisted token) w
    = Ok (if live w (token_key token) is Some _ then true else false).
Proof.
  intros Hf. unfold run, is_token_blacklisted, try_except, bind, redis_exists.
  rewrite command_healthy by done. simpl. by destruct (live w (token_key token)).
Qed.

(** X1: revoking a token for a positive number of minutes succeeds; the
    token then reads as blacklisted until those minutes have passed and as
    not blacklisted from then on. *)
Theorem blacklist_round_trip (token : string) (m : Z) (w : world) :
  faults w = Healthy → 0 < m →
  let w' := after (blacklist_token token m) w in
  run (blacklist_token token m) w = Ok true ∧
  (∀ d, d < 60 * m → run (is_token_blacklisted token) (elapse d w') = Ok true) ∧
  (∀ d, 60 * m ≤ d → run (is_token_blacklisted token) (elapse d w') = Ok false).
Proof.
  intros Hf Hm w'. subst w'. unfold run at 1, after.
  rewrite blacklist_token_run by done. cbn [fst snd].
  split; [done|]. split; intros d Hd; rewrite is_token_blacklisted_run by done;
    unfold live; simpl; rewrite lookup_insert_eq; simpl.
  - by rewrite bool_decide_eq_true_2 by lia.
  - by rewrite bool_decide_eq_false_2 by lia.
Qed.

Lemma blacklist_round_trip_witness :
  let w := World 1000 ∅ Healthy (λ _, 0) 0 [] in
  run (is_token_blacklisted "tok") (elapse 899 (after (blacklist_token "tok" 15) w)) = Ok true ∧
  run (is_token_blacklisted "tok") (elapse 900 (after (blacklist_token "tok" 15) w)) = Ok false.
Proof.
  intros w.
  destruct (blacklist_round_trip "tok" 15 w) as (_ & H1 & H2); [reflexivity | lia |].
  split; [apply H1; lia | apply H2; lia].
Defined.

Lemma delete_session_run u w :
  faults w = Healthy →
  delete_session u w =
    (Ok (if live w (session_key u) is Some _ then true else false),
     record (Command "DEL" (session_key u) true)
       (set_db (delete (session_key u) (db w)) w)).
Proof.
  intros Hf. unfold delete_session, try_except, bind, redis_delete.
  rewrite command_healthy by done. simpl. by destruct (live w (session_key u)).
Qed.

(** X2: closing a session reports whether there was one to close, and
    afterwards the user has no session, at once and at any later time;
    when the store cannot be reached it reports [False]. *)
Theorem delete_session_closes (u : string) (w : world) :
  (faults w = Healthy →
     run (delete_session u) w
       = Ok (if live w (session_key u) is Some _ then true else false) ∧
     ∀ d, run (get_session u) (elapse d (after (delete_session u) w)) = Ok None) ∧
  (store_raised (delete_session u) w → run (delete_session u) w = Ok false).
Proof.
  split.
  - intros Hf. unfold run at 1, after. rewrite delete_session_run by done. cbn [fst snd].
    split; [done|]. intros d. unfold run. rewrite get_session_run by done. simpl.
    unfold live. simpl. by rewrite lookup_delete_eq.
  - open_more. crunch; read_events; done.
Qed.

Lemma delete_session_closes_witness :
  let w := after (create_session "U1" (JObj [("name", JStr "Rahul")]) 15)
             (World 1000 ∅ Healthy (λ _, 0) 0 []) in
  run (delete_session "U1") w = Ok true ∧
  run (get_session "U1") (after (delete_session "U1") w) = Ok None ∧
  run (delete_session "U1") (after (delete_session "U1") w) = Ok false.
Proof.
  intros w.
  destruct (delete_session_closes "U1" w) as [H _].
  destruct (H eq_refl) as [H1 H2].
  split; [exact H1|]. split; [exact (H2 0) | reflexivity].
Defined.

Lemma refresh_session_run u m w :
  faults w = Healthy →
  refresh_session u m w =
    match live w (session_key u) with
    | None => (Ok false, record (Command "EXPIRE" (session_key u) true) w)
    | Some (Entry v _) =>
        (Ok true,
         record (Command "EXPIRE" (session_key u) true)
           (set_db (if bool_decide (0 < 60 * m)
                    then <[session_key u := Entry v (Some (now w + 60 * m))]> (db w)
                    else delete (session_key u) (db w)) w))
    end.
Proof.
  intros Hf. unfold refresh_session, try_except, bind, redis_expire, timedelta_minutes.
  rewrite command_healthy by done.
  destruct (live w (session_key u)) as [[v t]|]; [|done].
  by case_bool_decide.
Qed.

(** X3: refreshing a session keeps its payload and moves its expiry to
    the given number of minutes from now; refreshing a session that does
    not exist, or has expired, reports [False] and creates nothing. *)
Theorem refresh_session_extends (u : string) (m : Z) (w : world) :
  faults w = Healthy → 0 < m →
  let w' := after (refresh_session u m) w in
  match live w (session_key u) with
  | Some (Entry payload _) =>
      run (refresh_session u m) w = Ok true ∧
      live w' (session_key u) = Some (Entry payload (Some (now w + 60 * m))) ∧
      ∀ d, d < 60 * m → run (get_session u) (elapse d w') = Ok (Some payload)
  | None =>
      run (refresh_session u m) w = Ok false ∧ db w' = db w ∧
      run (get_session u) w' = Ok None
  end.
Proof.
  intros Hf Hm w'. subst w'. unfold run at 1 3, after.
  rewrite refresh_session_run by done.
  destruct (live w (session_key u)) as [[v t]|] eqn:Hl; cbn [fst snd].
  - rewrite bool_decide_eq_true_2 by lia. split; [done|]. split.
    + unfold live. simpl. rewrite lookup_insert_eq. simpl.
      by rewrite bool_decide_eq_true_2 by lia.
    + intros d Hd. unfold run. rewrite get_session_run by done. simpl.
      unfold live. simpl. rewrite lookup_insert_eq. simpl.
      by rewrite bool_decide_eq_true_2 by lia.
  - split; [done|]. split; [done|]. unfold run. rewrite get_session_run by done.
    simpl. by rewrite live_record, Hl.
Qed.

Lemma refresh_session_extends_witness :
  let w := elapse 800 (after (create_session "U1" (JObj [("name", JStr "Rahul")]) 15)
                         (World 1000 ∅ Healthy (λ _, 0) 0 [])) in
  run (refresh_session "U1" 15) w = Ok true ∧
  run (get_session "U1") (elapse 899 (after (refresh_session "U1" 15) w))
    = Ok (Some (JObj [("name", JStr "Rahul")])).
Proof.
  intros w.
  pose proof (refresh_session_extends "U1" 15 w eq_refl ltac:(lia)) as H.
  destruct H as (H1 & _ & H2). split; [exact H1 | apply H2; lia].
Defined.

(** X4: a write with a non-positive number of minutes is refused by the
    store: [create_session] returns [None], [store_otp] and
    [blacklist_token] return [False], and nothing is stored, so an earlier
    session or record stays and the token is not blacklisted. *)
Theorem nonpositive_expiry_writes_nothing
    (u code t token : string) (data : json) (m : Z) (w : world) :
  m ≤ 0 →
  (run (create_session u data m) w = Ok None ∧
   db (after (create_session u data m) w) = db w) ∧
  (run (store_otp u code t m) w = Ok false ∧
   db (after (store_otp u code t m) w) = db w) ∧
  (run (blacklist_token token m) w = Ok false ∧
   db (after (blacklist_token token m) w) = db w).
Proof.
  intros Hm. unfold timedelta_minutes.
  repeat split; open_service; unfold timedelta_minutes; crunch; (done || lia).
Qed.

Lemma nonpositive_expiry_writes_nothing_witness :
  let w := World 1000 ∅ Healthy (λ _, 0) 0 [] in
  run (blacklist_token "tok" 0) w = Ok false ∧
  run (is_token_blacklisted "tok") (after (blacklist_token "tok" 0) w) = Ok false.
Proof.
  intros w.
  destruct (nonpositive_expiry_writes_nothing "" "" "" "tok" JNull 0 w ltac:(lia))
    as (_ & _ & H & _).
  split; [exact H | reflexivity].
Defined.

(** ** The other authentication paths *)

(** X5: the optional dependency never raises, and it accepts exactly the
    requests the strict one accepts: it returns the user where
    [get_current_user] returns one and [None] where that one refuses (a
    revoked, expired, invalid or wrongly typed token), as it does without
    credentials. *)
Theorem get_current_user_optional_agrees
    (jwt_decode : Z → string → decode_outcome) (py_repr : json → string)
    (redis_service : bool) (token : string) (w : world) :
  run (get_current_user_optional jwt_decode py_repr redis_service (Some token)) w
    = match run (get_current_user jwt_decode py_repr redis_service token) w with
      | Ok user => Ok (Some user)
      | Raise _ => Ok None
      end ∧
  run (get_current_user_optional jwt_decode py_repr redis_service None) w = Ok None.
Proof.
  split; [|done].
  unfold get_current_user_optional, get_current_user, verify_token, py_getitem.
  open_service. crunch_live; try done.
  all: repeat match goal with
         | H : dict_get ?k ?d = _ |- context [dict_get ?k ?d] => rewrite H
         end; done.
Qed.

(** X6: tokens cannot be used across their types.  A token that decodes
    with type "access" is refused by the refresh path, and one that
    decodes with type "refresh" is refused by the request dependency, each
    with HTTP 401 naming the expected and the found type (unless the
    blacklist already refused it). *)
Theorem token_types_do_not_mix
    (jwt_decode : Z → string → decode_outcome) (jwt_encode : pydict → string)
    (access_minutes : Z) (py_repr : json → string)
    (redis_service : bool) (token : string) (payload : pydict) (w : world) :
  jwt_decode (now w) token = Decoded payload →
  (dict_get "type" payload = Some (JStr "access") →
     run (refresh_access_token jwt_decode jwt_encode access_minutes py_repr
            redis_service token) w
       = Raise (HTTPException 401 "Invalid token type. Expected refresh, got access")) ∧
  (dict_get "type" payload = Some (JStr "refresh") →
     run (get_current_user jwt_decode py_repr redis_service token) w
       = Raise (HTTPException 401 "Invalid token type. Expected access, got refresh") ∨
     run (get_current_user jwt_decode py_repr redis_service token) w
       = Raise (HTTPException 401 "Token has been revoked. Please login again.")).
Proof.
  intros Hd. split; intros Ht.
  - unfold run, refresh_access_token, try_except, bind, verify_token.
    rewrite Hd, Ht. reflexivity.
  - unfold get_current_user, verify_token, py_getitem. open_service.
    crunch_live; simplify_eq/=; auto.
Qed.

Lemma token_types_do_not_mix_witness :
  let jwt := λ (_ : Z) (t : string),
    if bool_decide (t = "acc") then Decoded [("sub", JStr "U1"); ("type", JStr "access")]
    else Decoded [("sub", JStr "U1"); ("type", JStr "refresh")] in
  let w := World 1000 ∅ Healthy (λ _, 0) 0 [] in
  run (refresh_access_token jwt (λ _, "new") 15 (λ _, "") true "acc") w
    = Raise (HTTPException 401 "Invalid token type. Expected refresh, got access") ∧
  run (refresh_access_token jwt (λ _, "new") 15 (λ _, "") true "ref") w
    = Ok (RefreshReply "new" "bearer" 15).
Proof.
  intros jwt w. split; [|reflexivity].
  destruct (token_types_do_not_mix jwt (λ _, "new") 15 (λ _, "") true "acc"
              [("sub", JStr "U1"); ("type", JStr "access")] w eq_refl) as [H _].
  exact (H eq_refl).
Defined.

(** X7: the refresh path.  A refresh token that validates and is not
    blacklisted yields a new access token for the same subject, expiring
    after the configured minutes; one that validates but is blacklisted
    (store answering) is refused as revoked; and every refusal of the
    path is an HTTP 401. *)
Theorem refresh_access_token_behaviour
    (jwt_decode : Z → string → decode_outcome) (jwt_encode : pydict → string)
    (access_minutes : Z) (py_repr : json → string)
    (token : string) (payload : pydict) (user : json) (w : world) :
  faults w = Healthy →
  jwt_decode (now w) token = Decoded payload →
  dict_get "type" payload = Some (JStr "refresh") →
  dict_get "sub" payload = Some user → user ≠ JNull →
  let call := refresh_access_token jwt_decode jwt_encode access_minutes py_repr true token in
  (live w (token_key token) = None →
     run call w
       = Ok (RefreshReply
               (jwt_encode [("sub", user); ("exp", JInt (now w + 60 * access_minutes));
                            ("iat", JInt (now w)); ("type", JStr "access")])
               "bearer" access_minutes)) ∧
  (is_Some (live w (token_key token)) →
     run call w
       = Raise (HTTPException 401 "Refresh token has been revoked. Please login again.")) ∧
  (∀ rs tok w' e,
     run (refresh_access_token jwt_decode jwt_encode access_minutes py_repr rs tok) w'
       = Raise e →
     ∃ detail, e = HTTPException 401 detail).
Proof.
  intros Hf Hd Ht Hs Hne call.
  assert (Hv : verify_token jwt_decode py_repr token "refresh" w
               = (Ok payload, record (JwtDecode token) w)).
  { unfold verify_token. rewrite Hd, Ht. simpl. rewrite Hs. by destruct user. }
  split; [|split].
  - intros Hl. subst call. unfold run, refresh_access_token, try_except.
    unfold bind at 1. rewrite Hv. unfold bind at 1. unfold bind at 1.
    unfold is_token_blacklisted, try_except, bind, redis_exists.
    rewrite command_healthy by done. rewrite live_record, Hl. simpl.
    unfold create_access_token. simpl. by rewrite Hs.
  - intros [e Hl]. subst call. unfold run, refresh_access_token, try_except.
    unfold bind at 1. rewrite Hv. unfold bind at 1. unfold bind at 1.
    unfold is_token_blacklisted, try_except, bind, redis_exists.
    rewrite command_healthy by done. rewrite live_record, Hl. reflexivity.
  - intros rs tok w' e.
    unfold refresh_access_token, verify_token, create_access_token. open_service.
    crunch_live; intros [= <-]; eauto.
Qed.

Lemma refresh_access_token_behaviour_witness :
  let jwt := λ (_ : Z) (_ : string), Decoded [("sub", JStr "U1"); ("type", JStr "refresh")] in
  let w := World 1000 ∅ Healthy (λ _, 0) 0 [] in
  run (refresh_access_token jwt (λ _, "new") 15 (λ _, "") true "ref") w
    = Ok (RefreshReply "new" "bearer" 15) ∧
  run (refresh_access_token jwt (λ _, "new") 15 (λ _, "") true "ref")
      (after (blacklist_token "ref" 10080) w)
    = Raise (HTTPException 401 "Refresh token has been revoked. Please login again.").
Proof.
  intros jwt w. split.
  - destruct (refresh_access_token_behaviour jwt (λ _, "new") 15 (λ _, "") "ref"
                [("sub", JStr "U1"); ("type", JStr "refresh")] (JStr "U1") w)
      as (H & _); [reflexivity | reflexivity | reflexivity | reflexivity | discriminate |].
    exact (H eq_refl).
  - destruct (refresh_access_token_behaviour jwt (λ _, "new") 15 (λ _, "") "ref"
                [("sub", JStr "U1"); ("type", JStr "refresh")] (JStr "U1")
                (after (blacklist_token "ref" 10080) w))
      as (_ & H & _); [reflexivity | reflexivity | reflexivity | reflexivity | discriminate |].
    apply H. by eexists.
Defined.

(** ** Logging out *)









(** ** The transfer endpoints *)

Lemma store_otp_total u code t m w : ∃ ok, run (store_otp u code t m) w = Ok ok.
Proof. open_service. crunch; eauto. Qed.

Lemma store_otp_draws u code t m w : draws (after (store_otp u code t m) w) = draws w.
Proof. open_service. crunch; reflexivity. Qed.

(** What a valid request to [initiate_transfer] comes to: one draw, then
    [store_otp]. *)
Lemma initiate_transfer_run format_money b u recipient amount balance payee w :
  0 < amount → blank recipient = false →
  outage b = None →
  beneficiary_of b u recipient = Some payee →
  balance_of b u = Some balance → amount ≤ balance →
  let n := 100000 + entropy w (draws w) `mod` 900000 in
  let txn := "TXN" +:+ pretty (now w) in
  let w1 := World (now w) (db w) (faults w) (entropy w) (S (draws w)) (log w) in
  initiate_transfer format_money true b u recipient amount w
    = (Ok (TransferReply txn (pretty n) (full_name payee) amount),
       after (store_otp u (pretty n) txn 5) w1).
Proof.
  intros Hamt Hblank Hout Hben Hbal Hle n txn w1.
  destruct (store_otp_total u (pretty n) txn 5 w1) as [ok Hok].
  unfold initiate_transfer.
  rewrite bool_decide_eq_false_2 by lia. rewrite Hblank.
  unfold bind at 1. unfold transfer_money. rewrite Hout, Hben.
  destruct payee as [fn acct bk]. rewrite Hbal.
  rewrite bool_decide_eq_false_2 by lia.
  unfold bind at 1. unfold randint at 1. unfold ret at 1. unfold bind at 1.
  unfold timestamp at 1. unfold bind at 1. unfold bind at 1.
  change (100000 + entropy w (draws w) `mod` (999999 - 100000 + 1)) with n.
  cbn [now db faults entropy draws log]. fold txn w1.
  unfold run, after in *.
  by destruct (store_otp u (pretty n) txn 5 w1) as [[ok'|e] w2]; simpl in Hok.
Qed.

(** A code of six characters reaches [verify_otp], and the reply is read
    off its result. *)
Lemma api_verify_otp_run u t otp w :
  String.length otp = 6%nat →
  after (api_verify_otp true u t otp) w = after (verify_otp u t otp 3) w ∧
  ∃ v, run (verify_otp u t otp 3) w = Ok v ∧
       run (api_verify_otp true u t otp) w
         = Ok (if valid v then VerifyCompleted t ("REF" +:+ t)
               else VerifyRefused (message v) (attempts_left v)).
Proof.
  intros Hlen. unfold api_verify_otp. simpl.
  rewrite Hlen. simpl. rewrite bool_decide_eq_false_2 by (by intros ->).
  simpl. destruct (verify_otp_total u t otp 3 w) as [v Hv].
  unfold run, after, bind in *.
  destruct (verify_otp u t otp 3 w) as [[v'|e] w2]; simpl in Hv; [|done].
  injection Hv as ->. split; [by destruct (valid v)|].
  exists v. split; [done|]. by destruct (valid v).
Qed.

(** X9: the verification endpoint checks the shape of the code before it
    touches the store: a code that is not six characters long is refused
    with HTTP 400 and costs no attempt (the world is left as it was), as
    is every request when no store is registered (HTTP 500); a
    six-character code has exactly the effect of [verify_otp] with three
    attempts, and the reply reports its outcome. *)
Theorem api_verify_otp_guards (u t otp : string) (w : world) :
  (String.length otp ≠ 6%nat →
     api_verify_otp true u t otp w = (Raise (HTTPException 400 "Invalid OTP format"), w)) ∧
  (String.length otp = 6%nat →
     after (api_verify_otp true u t otp) w = after (verify_otp u t otp 3) w ∧
     ∃ v, run (verify_otp u t otp 3) w = Ok v ∧
          run (api_verify_otp true u t otp) w
            = Ok (if valid v then VerifyCompleted t ("REF" +:+ t)
                  else VerifyRefused (message v) (attempts_left v))) ∧
  api_verify_otp false u t otp w = (Raise (HTTPException 500 "OTP service unavailable"), w).
Proof.
  split; [|split; [|done]].
  - intros Hlen. unfold api_verify_otp. simpl.
    destruct (Nat.eqb_spec (String.length otp) 6); [done|].
    by rewrite orb_true_r.
  - apply api_verify_otp_run.
Qed.

Lemma api_verify_otp_guards_witness :
  let w := after (store_otp "U1" "123456" "TXN1" 5)
             (World 1000 ∅ Healthy (λ _, 0) 0 []) in
  api_verify_otp true "U1" "TXN1" "12345" w
    = (Raise (HTTPException 400 "Invalid OTP format"), w) ∧
  run (api_verify_otp true "U1" "TXN1" "123456") w
    = Ok (VerifyCompleted "TXN1" "REFTXN1").
Proof.
  intros w.
  destruct (api_verify_otp_guards "U1" "TXN1" "12345" w) as [H _].
  split; [apply H; discriminate | reflexivity].
Defined.

(** X10: a transfer initiated through the endpoint (store reachable) is
    completed by presenting the returned transaction identifier and code
    within five minutes; presenting them again is answered "OTP expired or
    not found", and so is presenting them for the first time once the
    five minutes have passed. *)
Theorem transfer_completes_with_issued_code
    (format_money : Z → string) (b : bank) (u recipient : string) (amount balance : Z)
    (payee : beneficiary) (w : world) :
  faults w = Healthy →
  0 < amount → blank recipient = false →
  outage b = None →
  beneficiary_of b u recipient = Some payee →
  balance_of b u = Some balance → amount ≤ balance →
  let issue := initiate_transfer format_money true b u recipient amount in
  ∃ txn code,
    run issue w = Ok (TransferReply txn code (full_name payee) amount) ∧
    (∀ d, 0 ≤ d < 300 →
       let w1 := elapse d (after issue w) in
       run (api_verify_otp true u txn code) w1
         = Ok (VerifyCompleted txn ("REF" +:+ txn)) ∧
       ∀ d', 0 ≤ d' →
         run (api_verify_otp true u txn code)
             (elapse d' (after (api_verify_otp true u txn code) w1))
           = Ok (VerifyRefused "OTP expired or not found" 0)) ∧
    (∀ d, 300 ≤ d →
       run (api_verify_otp true u txn code) (elapse d (after issue w))
         = Ok (VerifyRefused "OTP expired or not found" 0)).
Proof.
  intros Hf Hamt Hblank Hout Hben Hbal Hle issue.
  pose proof (initiate_transfer_run format_money b u recipient amount balance payee w
                Hamt Hblank Hout Hben Hbal Hle) as Hrun. cbv zeta in Hrun.
  set (n := 100000 + entropy w (draws w) `mod` 900000) in *.
  set (txn := "TXN" +:+ pretty (now w)) in *.
  set (w1 := World (now w) (db w) (faults w) (entropy w) (S (draws w)) (log w)) in *.
  assert (Hn : 100000 ≤ n ≤ 999999).
  { subst n. pose proof (Z.mod_pos_bound (entropy w (draws w)) 900000 ltac:(lia)). lia. }
  destruct (pretty_six_digits n Hn) as [Hlen _].
  destruct (store_otp_fresh u (pretty n) txn 5 w1) as (_ & Hf2 & Hn2 & Hl2); [done|lia|].
  set (w2 := after (store_otp u (pretty n) txn 5) w1) in *.
  assert (Hri : run issue w = Ok (TransferReply txn (pretty n) (full_name payee) amount))
    by (subst issue; unfold run; by rewrite Hrun).
  assert (Hai : after issue w = w2) by (subst issue; unfold after; by rewrite Hrun).
  exists txn, (pretty n). rewrite Hai. split; [done|]. split.
  - intros d Hd w3.
    destruct (api_verify_otp_run u txn (pretty n) w3 Hlen) as (Hafter & v & Hv & Hr).
    assert (Hl3 : live w3 (otp_key u txn)
                  = Some (Entry (otp_data (pretty n) txn u 0) (Some (now w1 + 60 * 5)))).
    { apply live_elapse_Some; [done|]. rewrite Hn2. lia. }
    assert (Hf3 : faults w3 = Healthy) by done.
    destruct (verify_otp_match u txn (pretty n) 3 w3 _ _ 0 Hf3 Hl3 eq_refl eq_refl)
      as [Hm Hdb]; [lia|].
    rewrite Hm in Hv. injection Hv as <-. simpl in Hr. split; [done|].
    intros d' Hd'. rewrite Hafter.
    set (w4 := elapse d' (after (verify_otp u txn (pretty n) 3) w3)).
    destruct (api_verify_otp_run u txn (pretty n) w4 Hlen) as (_ & v4 & Hv4 & Hr4).
    rewrite verify_otp_absent in Hv4.
    + injection Hv4 as <-. done.
    + simpl. by apply verify_otp_healthy.
    + apply live_elapse_None; [done|]. unfold live. by rewrite Hdb, lookup_delete_eq.
  - intros d Hd.
    set (w3 := elapse d w2).
    destruct (api_verify_otp_run u txn (pretty n) w3 Hlen) as (_ & v & Hv & Hr).
    rewrite verify_otp_absent in Hv.
    + injection Hv as <-. done.
    + done.
    + eapply live_elapse_expired; [exact Hl2|]. rewrite Hn2. simpl. lia.
Qed.

Lemma transfer_completes_with_issued_code_witness :
  let b := Bank (λ _ _, Some (Beneficiary "Mom" "0042" "SBI")) (λ _, ["mom"])
             (λ _, Some 5000) None in
  let issue := initiate_transfer pretty true b "U1" "mom" 500 in
  let w := World 1000 ∅ Healthy (λ _, 23456) 0 [] in
  ∃ txn code,
    run issue w = Ok (TransferReply txn code "Mom" 500) ∧
    run (api_verify_otp true "U1" txn code) (elapse 299 (after issue w))
      = Ok (VerifyCompleted txn ("REF" +:+ txn)) ∧
    run (api_verify_otp true "U1" txn code) (elapse 300 (after issue w))
      = Ok (VerifyRefused "OTP expired or not found" 0).
Proof.
  intros b issue w.
  destruct (transfer_completes_with_issued_code pretty b "U1" "mom" 500 5000
              (Beneficiary "Mom" "0042" "SBI") w)
    as (txn & code & H1 & H2 & H3);
    [reflexivity | lia | reflexivity | reflexivity | reflexivity | reflexivity | lia |].
  exists txn, code. split; [exact H1|]. split.
  - destruct (H2 299) as [H _]; [lia | exact H].
  - apply H3. lia.
Defined.

(** X11: a refused transfer leaves no trace.  Whenever
    [initiate_transfer] raises (a non-positive amount, a blank recipient,
    an unknown beneficiary, a missing account, insufficient funds, a
    database error) it raises HTTP 400 or 500 and the world is exactly as
    before: no code was drawn and nothing was sent to the store. *)
Theorem refused_transfer_leaves_no_trace
    (format_money : Z → string) (redis_service : bool) (b : bank)
    (u recipient : string) (amount : Z) (w : world) (e : exn) :
  run (initiate_transfer format_money redis_service b u recipient amount) w = Raise e →
  after (initiate_transfer format_money redis_service b u recipient amount) w = w ∧
  ∃ status detail, e = HTTPException status detail ∧ (status = 400 ∨ status = 500).
Proof.
  unfold run, after.
  destruct (initiate_transfer format_money redis_service b u recipient amount w)
    as [r wf] eqn:E. simpl. intros ->. revert E.
  assert (Hx : ∀ status detail, status = 400 ∨ status = 500 →
    (Raise (HTTPException status detail) : result transfer_reply, w) = (Raise e, wf) →
    wf = w ∧ ∃ status detail, e = HTTPException status detail ∧ (status = 400 ∨ status = 500)).
  { intros status detail Hs [= <- <-]. eauto. }
  unfold initiate_transfer.
  case_bool_decide; [apply Hx; auto|].
  destruct (blank recipient); [apply Hx; auto|].
  unfold bind at 1. unfold transfer_money.
  destruct (outage b) as [msg|].
  { unfold ret. simpl. destruct (contains _ _); apply Hx; auto. }
  destruct (beneficiary_of b u recipient) as [[fn acct bk]|].
  2: { unfold ret. simpl. destruct (contains _ _); apply Hx; auto. }
  destruct (balance_of b u) as [balance|].
  2: { unfold ret. simpl. apply Hx; auto. }
  case_bool_decide.
  { unfold ret. simpl. destruct (contains _ _); apply Hx; auto. }
  unfold bind at 1. unfold randint at 1. unfold ret at 1. unfold bind at 1.
  unfold timestamp at 1. unfold bind at 1. unfold bind at 1.
  destruct redis_service; [|done].
  match goal with |- context [store_otp ?a ?c ?t ?m ?w1] =>
    destruct (store_otp_total a c t m w1) as [ok Hok]; unfold run in Hok;
    destruct (store_otp a c t m w1) as [[ok'|e'] w2]; simpl in Hok; [|done]
  end.
  done.
Qed.

Lemma refused_transfer_leaves_no_trace_witness :
  let b := Bank (λ _ _, Some (Beneficiary "Mom" "0042" "SBI")) (λ _, ["mom"])
             (λ _, Some 100) None in
  let w := World 1000 ∅ Healthy (λ _, 23456) 0 [] in
  run (initiate_transfer pretty true b "U1" "mom" 500) w
    = Raise (HTTPException 500 "Insufficient balance. Available: ₹100") ∧
  after (initiate_transfer pretty true b "U1" "mom" 500) w = w.
Proof.
  intros b w.
  assert (H : run (initiate_transfer pretty true b "U1" "mom" 500) w
              = Raise (HTTPException 500 "Insufficient balance. Available: ₹100"))
    by reflexivity.
  split; [exact H|].
  by destruct (refused_transfer_leaves_no_trace pretty true b "U1" "mom" 500 w _ H).
Defined.

(** X12: [initiate_transfer] does not look at what [store_otp] returns.
    When the store cannot be reached while the code is stored, a valid
    request is still answered as initiated, code and transaction
    identifier included, although no record was written. *)
Theorem transfer_reported_though_not_stored
    (format_money : Z → string) (b : bank) (u recipient : string) (amount balance : Z)
    (payee : beneficiary) (w : world) :
  (next_fault (faults w)).1 = true →
  0 < amount → blank recipient = false →
  outage b = None →
  beneficiary_of b u recipient = Some payee →
  balance_of b u = Some balance → amount ≤ balance →
  let issue := initiate_transfer format_money true b u recipient amount in
  run issue w
    = Ok (TransferReply ("TXN" +:+ pretty (now w))
            (pretty (100000 + entropy w (draws w) `mod` 900000)) (full_name payee) amount) ∧
  db (after issue w) = db w.
Proof.
  intros Hfault Hamt Hblank Hout Hben Hbal Hle issue. subst issue.
  unfold run, after.
  rewrite (initiate_transfer_run format_money b u recipient amount balance payee w)
    by done.
  cbn [fst snd]. split; [done|].
  open_service. simpl. destruct (next_fault (faults w)) as [[] p]; [done|done].
Qed.

Lemma transfer_reported_though_not_stored_witness :
  let b := Bank (λ _ _, Some (Beneficiary "Mom" "0042" "SBI")) (λ _, ["mom"])
             (λ _, Some 5000) None in
  let w := World 1000 ∅ (Next true Healthy) (λ _, 23456) 0 [] in
  run (initiate_transfer pretty true b "U1" "mom" 500) w
    = Ok (TransferReply "TXN1000" "123456" "Mom" 500) ∧
  run (api_verify_otp true "U1" "TXN1000" "123456")
      (after (initiate_transfer pretty true b "U1" "mom" 500) w)
    = Ok (VerifyRefused "OTP expired or not found" 0).
Proof.
  intros b w.
  destruct (transfer_reported_though_not_stored pretty b "U1" "mom" 500 5000
              (Beneficiary "Mom" "0042" "SBI") w) as [H _];
    [reflexivity | lia | reflexivity | reflexivity | reflexivity | reflexivity | lia |].
  split; [exact H | reflexivity].
Defined.

(** ** The conversational path, end to end *)

Lemma strip_prefix_prefix p : ∀ s r, strip_prefix p s = Some r → String.prefix p s = true.
Proof.
  induction p as [|a p IH]; intros s r; [by destruct s|].
  destruct s as [|c s]; [done|]. cbn [strip_prefix String.prefix].
  case_bool_decide as Hac; [|done].
  subst. intros H%IH. by destruct (Ascii.ascii_dec c c).
Qed.

Lemma search_otp_contains s d : search_otp s = Some d → contains "OTP:" s = true.
Proof.
  unfold contains. induction s as [|c s IH].
  - by cbn.
  - cbn [search_otp].
    destruct (strip_prefix "OTP:" (String c s)) as [rest|] eqn:E.
    + apply strip_prefix_prefix in E. intros _. cbn [String.index]. by rewrite E.
    + cbn [mbind option_bind]. intros H%IH. cbn [String.index].
      destruct (String.prefix "OTP:" (String c s)); [done|].
      by destruct (String.index 0 "OTP:" s).
Qed.

Lemma take_digits_sound n : ∀ s d,
  take_digits n s = Some d → String.length d = n ∧ take_digits n d = Some d.
Proof.
  induction n as [|n IH]; intros s d; simpl.
  - by intros [= <-].
  - destruct s as [|c s]; [done|]. destruct (py_isdigit c) eqn:Hc; [|done].
    destruct (take_digits n s) as [d'|] eqn:E; [|done]. intros [= <-].
    destruct (IH s d' E) as [Hlen Hd]. simpl. rewrite Hc, Hd. by rewrite Hlen.
Qed.

(** What the regular expression yields is six decimal digits. *)
Lemma search_otp_sound s d :
  search_otp s = Some d → String.length d = 6%nat ∧ take_digits 6 d = Some d.
Proof.
  induction s as [|c s IH]; cbn [search_otp].
  - by cbn.
  - destruct (strip_prefix "OTP:" (String c s)) as [rest|]; cbn [mbind option_bind].
    + destruct (take_digits 6 (skip_spaces rest)) as [d'|] eqn:E.
      * intros [= <-]. by eapply take_digits_sound.
      * apply IH.
    + apply IH.
Qed.

(** The transfer branch of [process_voice] against a reachable store with
    a session open. *)
Lemma process_voice_issue py_repr u ox rt otp s exp w :
  faults w = Healthy →
  live w (session_key u) = Some (Entry (JObj s) exp) → s ≠ [] →
  search_otp rt = Some otp →
  let txn := "TXN" +:+ pretty (now w) in
  ∃ wf,
    process_voice py_repr true u "FUND_TRANSFER" ox rt w
      = (Ok (VoiceReply (rt +:+ " Please say your OTP to complete the transaction.")
               "FUND_TRANSFER" (Some "pending") (Some (JStr txn))), wf) ∧
    faults wf = Healthy ∧ now wf = now w ∧
    live wf (otp_key u txn) = Some (Entry (otp_data otp txn u 0) (Some (now w + 300))) ∧
    live wf (session_key u)
      = Some (Entry (JObj (dict_set "pending_transaction_id" (JStr txn) s))
                (Some (now w + 86400))).
Proof.
  intros Hf Hl Hne Hs txn.
  pose proof (search_otp_contains rt otp Hs) as Hc.
  unfold process_voice.
  rewrite (bool_decide_eq_false_2 ("FUND_TRANSFER" = "OTP_VERIFICATION")) by done.
  rewrite bool_decide_eq_true_2 by done. rewrite Hc, Hs. simpl andb. cbv iota.
  assert (Hgoal : ∃ wf,
      (let* t := timestamp in
       store_otp u otp ("TXN" +:+ pretty t) 5 ;;
       let* session := get_session u in
       match session with
       | Some session =>
           if py_truthy session then
             let* session :=
               py_setitem session "pending_transaction_id" (JStr ("TXN" +:+ pretty t)) in
             create_session u session 1440 ;; ret ()
           else ret ()
       | None => ret ()
       end ;;
       ret (VoiceReply (rt +:+ " Please say your OTP to complete the transaction.")
              "FUND_TRANSFER" (Some "pending") (Some (JStr ("TXN" +:+ pretty t))))) w
      = (Ok (VoiceReply (rt +:+ " Please say your OTP to complete the transaction.")
               "FUND_TRANSFER" (Some "pending") (Some (JStr txn))), wf) ∧
    faults wf = Healthy ∧ now wf = now w ∧
    live wf (otp_key u txn) = Some (Entry (otp_data otp txn u 0) (Some (now w + 300))) ∧
    live wf (session_key u)
      = Some (Entry (JObj (dict_set "pending_transaction_id" (JStr txn) s))
                (Some (now w + 86400)))).
  { unfold bind at 1. unfold timestamp at 1. fold txn.
    unfold bind at 1. unfold store_otp, try_except, redis_setex, timedelta_minutes, json_dumps.
    unfold bind at 1. rewrite command_healthy by done.
    rewrite bool_decide_eq_true_2 by lia. unfold ret at 1.
    unfold bind at 1. rewrite get_session_run by done.
    rewrite live_record, live_insert_ne by (by intros ?%symmetry%session_key_not_otp_key).
    rewrite Hl. cbn [fmap option_fmap option_map value py_truthy].
    rewrite bool_decide_eq_true_2 by done.
    unfold bind at 1. unfold bind at 1. unfold py_setitem at 1. unfold ret at 1.
    unfold bind at 1. rewrite create_session_run by done.
    unfold ret. eexists. split; [reflexivity|].
    split; [done|]. split; [done|]. split.
    - unfold live. simpl.
      rewrite lookup_insert_ne by (by apply session_key_not_otp_key).
      rewrite lookup_insert_eq. simpl. by rewrite bool_decide_eq_true_2 by lia.
    - unfold live. simpl. rewrite lookup_insert_eq. simpl.
      by rewrite bool_decide_eq_true_2 by lia. }
  destruct ox; exact Hgoal.
Qed.

(** X13: a transfer announced by the agent with "OTP: dddddd" to a user
    with an open session is recorded under a fresh transaction identifier,
    which the session then names; the code is six decimal digits, and
    speaking it within five minutes completes the transaction and sets
    the pending transaction of the session to null. *)
Theorem voice_transfer_completes
    (py_repr : json → string) (u rt otp : string) (ox : option string)
    (s : pydict) (exp : option Z) (w : world) :
  faults w = Healthy →
  live w (session_key u) = Some (Entry (JObj s) exp) → s ≠ [] →
  search_otp rt = Some otp →
  let issue := process_voice py_repr true u "FUND_TRANSFER" ox rt in
  let txn := "TXN" +:+ pretty (now w) in
  run issue w
    = Ok (VoiceReply (rt +:+ " Please say your OTP to complete the transaction.")
            "FUND_TRANSFER" (Some "pending") (Some (JStr txn))) ∧
  (String.length otp = 6%nat ∧ take_digits 6 otp = Some otp) ∧
  ∀ d rt', 0 ≤ d < 300 →
    let say := process_voice py_repr true u "OTP_VERIFICATION" (Some otp) rt' in
    let w1 := elapse d (after issue w) in
    run say w1
      = Ok (VoiceReply "Transaction completed successfully!" "TRANSACTION_COMPLETE"
              (Some "verified") (Some (JStr txn))) ∧
    ∃ session,
      run (get_session u) (after say w1) = Ok (Some (JObj session)) ∧
      dict_get "pending_transaction_id" session = Some JNull.
Proof.
  intros Hf Hl Hne Hs issue txn.
  destruct (process_voice_issue py_repr u ox rt otp s exp w Hf Hl Hne Hs)
    as (wf & Hrun & Hff & Hnf & Hlo & Hls). fold txn in Hrun, Hlo, Hls.
  assert (Hri : run issue w
    = Ok (VoiceReply (rt +:+ " Please say your OTP to complete the transaction.")
            "FUND_TRANSFER" (Some "pending") (Some (JStr txn))))
    by (subst issue; unfold run; by rewrite Hrun).
  assert (Hai : after issue w = wf) by (subst issue; unfold after; by rewrite Hrun).
  rewrite Hai. split; [done|]. split; [by apply (search_otp_sound rt)|].
  intros d rt' Hd say w1.
  assert (Hf1 : faults w1 = Healthy) by done.
  assert (Hls1 : live w1 (session_key u)
    = Some (Entry (JObj (dict_set "pending_transaction_id" (JStr txn) s))
              (Some (now w + 86400)))).
  { apply live_elapse_Some; [done|]. lia. }
  assert (Hlo1 : live w1 (otp_key u txn)
    = Some (Entry (otp_data otp txn u 0) (Some (now w + 300)))).
  { apply live_elapse_Some; [done|]. lia. }
  destruct (process_voice_verification py_repr u otp rt' _ _ (JStr txn) w1 Hf1 Hls1
              (dict_get_set_eq _ _ _)) as (v & Hv & H).
  fold say in H. cbn [py_str] in Hv.
  assert (Hm : run (verify_otp u txn otp 3) (after (get_session u) w1)
               = Ok (OtpResult true "OTP verified successfully" (3 - 0))).
  { eapply (verify_otp_match u txn otp 3 _ _ _ 0).
    - unfold after. by rewrite get_session_run.
    - unfold after. rewrite get_session_run by done. simpl. rewrite live_record. exact Hlo1.
    - reflexivity.
    - reflexivity.
    - lia. }
  rewrite Hm in Hv. injection Hv as <-. simpl in H. destruct H as [Hr Hsess].
  split; [done|]. eexists. split; [exact Hsess|]. apply dict_get_set_eq.
Qed.

Lemma voice_transfer_completes_witness :
  let py := λ _ : json, "" in
  let w := after (create_session "U1" (JObj [("name", JStr "Rahul")]) 15)
             (World 1000 ∅ Healthy (λ _, 0) 0 []) in
  let issue := process_voice py true "U1" "FUND_TRANSFER" None
                 "Sending 500 to Mom. OTP: 123456" in
  run (process_voice py true "U1" "OTP_VERIFICATION" (Some "123456") "")
      (elapse 30 (after issue w))
    = Ok (VoiceReply "Transaction completed successfully!" "TRANSACTION_COMPLETE"
            (Some "verified") (Some (JStr "TXN1000"))).
Proof.
  intros py w issue.
  destruct (voice_transfer_completes py "U1" "Sending 500 to Mom. OTP: 123456" "123456"
              None [("name", JStr "Rahul")] (Some 1900) w) as (_ & _ & H);
    [reflexivity | reflexivity | done | reflexivity |].
  destruct (H 30 "") as [Hr _]; [lia | exact Hr].
Defined.

(** X14: without an open session the transfer branch still stores the
    code, but nothing records which transaction is pending: a spoken code
    is then answered "No pending transaction found." and is not checked
    at all, so the stored record keeps all its attempts. *)
Theorem voice_code_without_session
    (py_repr : json → string) (u otp rt : string) (w : world) :
  faults w = Healthy →
  live w (session_key u) = None →
  let say := process_voice py_repr true u "OTP_VERIFICATION" (Some otp) rt in
  run say w = Ok (VoiceReply "No pending transaction found." "OTP_VERIFICATION"
                    (Some "no_transaction") None) ∧
  db (after say w) = db w.
Proof.
  intros Hf Hl say. subst say. unfold run, after, process_voice.
  rewrite bool_decide_eq_true_2 by done.
  unfold bind. rewrite get_session_run by done. rewrite Hl. done.
Qed.

Lemma voice_code_without_session_witness :
  let py := λ _ : json, "" in
  let w := after (process_voice py true "U1" "FUND_TRANSFER" None "OTP: 123456")
             (World 1000 ∅ Healthy (λ _, 0) 0 []) in
  is_Some (live w (otp_key "U1" "TXN1000")) ∧
  run (process_voice py true "U1" "OTP_VERIFICATION" (Some "123456") "") w
    = Ok (VoiceReply "No pending transaction found." "OTP_VERIFICATION"
            (Some "no_transaction") None).
Proof.
  intros py w. split; [by eexists|].
  by destruct (voice_code_without_session py "U1" "123456" "" w eq_refl eq_refl).
Defined.

(** X15: once a spoken code has completed a transaction the session
    still carries the key [pending_transaction_id], with value null.  A
    further spoken code is therefore checked against the transaction
    "None": it is answered as a failed verification, "OTP expired or not
    found", not as "No pending transaction found.", and the session stays
    as it is. *)
Theorem voice_code_after_completion
    (py_repr : json → string) (u otp rt : string) (s : pydict) (exp : option Z)
    (w : world) :
  faults w = Healthy →
  live w (session_key u) = Some (Entry (JObj s) exp) →
  dict_get "pending_transaction_id" s = Some JNull →
  live w (otp_key u "None") = None →
  let say := process_voice py_repr true u "OTP_VERIFICATION" (Some otp) rt in
  run say w = Ok (VoiceReply "Invalid OTP. OTP expired or not found" "OTP_FAILED"
                    (Some "failed") (Some JNull)) ∧
  run (get_session u) (after say w) = Ok (Some (JObj s)).
Proof.
  intros Hf Hl Hd Hnone say.
  destruct (process_voice_verification py_repr u otp rt s exp JNull w Hf Hl Hd)
    as (v & Hv & H). fold say in H. cbn [py_str] in Hv.
  rewrite verify_otp_absent in Hv.
  - injection Hv as <-. exact H.
  - unfold after. by rewrite get_session_run.
  - unfold after. rewrite get_session_run by done. simpl. by rewrite live_record.
Qed.

Lemma voice_code_after_completion_witness :
  let py := λ _ : json, "" in
  let say := process_voice py true "U1" "OTP_VERIFICATION" (Some "123456") "" in
  let w := after say
             (after (process_voice py true "U1" "FUND_TRANSFER" None "OTP: 123456")
                (after (create_session "U1" (JObj [("name", JStr "Rahul")]) 15)
                   (World 1000 ∅ Healthy (λ _, 0) 0 []))) in
  run say w = Ok (VoiceReply "Invalid OTP. OTP expired or not found" "OTP_FAILED"
                    (Some "failed") (Some JNull)).
Proof.
  intros py say w.
  by destruct (voice_code_after_completion py "U1" "123456" ""
                 [("name", JStr "Rahul"); ("pending_transaction_id", JNull)]
                 (Some 87400) w eq_refl eq_refl eq_refl eq_refl).
Defined.

(** ** Every call keeps to its key *)

Lemma append_cons a (s t : string) : String a s +:+ t = String a (s +:+ t).
Proof. reflexivity. Qed.

Lemma append_colon_inj u : ∀ u' t t',
  lacks colon u = true → lacks colon u' = true →
  u +:+ ":" +:+ t = u' +:+ ":" +:+ t' → u = u' ∧ t = t'.
Proof.
  induction u as [|a u IH]; intros [|a' u'] t t' Hu Hu';
    rewrite ?append_cons;
    repeat match goal with |- context ["" +:+ ?x] => change ("" +:+ x) with x end;
    simpl in Hu, Hu'.
  - by intros [= ->].
  - intros [= <- _]. by rewrite bool_decide_eq_true_2 in Hu'.
  - intros [= -> _]. by rewrite bool_decide_eq_true_2 in Hu.
  - intros [= <- H]. apply andb_true_iff in Hu as [_ Hu].
    apply andb_true_iff in Hu' as [_ Hu'].
    destruct (IH u' t t' Hu Hu' H) as [-> ->]. done.
Qed.

Lemma otp_key_inj u t u' t' :
  lacks colon u = true → lacks colon u' = true →
  otp_key u t = otp_key u' t' → u = u' ∧ t = t'.
Proof.
  intros Hu Hu'. unfold otp_key, rate_key. rewrite !append_cons.
  repeat match goal with |- context ["" +:+ ?x] => change ("" +:+ x) with x end.
  intros [= H]. by apply append_colon_inj.
Qed.

Lemma rate_key_inj u a u' a' :
  lacks colon u = true → lacks colon u' = true →
  rate_key u a = rate_key u' a' → u = u' ∧ a = a'.
Proof.
  intros Hu Hu'. unfold otp_key, rate_key. rewrite !append_cons.
  repeat match goal with |- context ["" +:+ ?x] => change ("" +:+ x) with x end.
  intros [= H]. by apply append_colon_inj.
Qed.

Lemma perform_frame c w k : k ≠ call_key c → db (perform c w) !! k = db w !! k.
Proof.
  intros Hk. destruct c; simpl in Hk; simpl perform; open_more; crunch;
    rewrite ?lookup_insert_ne, ?lookup_delete_ne by done; done.
Qed.

(** X16: each call of the service changes no key of the store but the one
    built from its arguments, whatever the faults of the connection.  Keys of sessions, passcodes, rate counters and blacklist
    entries never coincide, and for identifiers without a colon the keys
    of two different (user, transaction) or (identifier, action) pairs
    differ, so a call for one of them never disturbs the other. *)
Theorem calls_keep_to_their_key (c : service_call) (w : world) :
  (∀ k, k ≠ call_key c → db (perform c w) !! k = db w !! k) ∧
  (∀ u v t a token,
     session_key u ≠ otp_key v t ∧ session_key u ≠ rate_key v a ∧
     session_key u ≠ token_key token ∧ otp_key v t ≠ rate_key u a ∧
     otp_key v t ≠ token_key token ∧ rate_key v a ≠ token_key token) ∧
  (∀ u t u' t',
     lacks colon u = true → lacks colon u' = true →
     (otp_key u t = otp_key u' t' → u = u' ∧ t = t') ∧
     (rate_key u t = rate_key u' t' → u = u' ∧ t = t')).
Proof.
  split; [|split].
  - intros k. apply perform_frame.
  - intros. repeat split; discriminate.
  - intros u t u' t' Hu Hu'. split; [by apply otp_key_inj | by apply rate_key_inj].
Qed.

Lemma calls_keep_to_their_key_witness :
  let w := after (store_otp "U2" "654321" "TXN7" 5)
             (World 1000 ∅ Healthy (λ _, 0) 0 []) in
  db (perform (CallVerifyOtp "U1" "TXN7" "654321" 3) w) !! otp_key "U2" "TXN7"
    = db w !! otp_key "U2" "TXN7".
Proof.
  intros w.
  destruct (calls_keep_to_their_key (CallVerifyOtp "U1" "TXN7" "654321" 3) w) as [H _].
  apply H. discriminate.
Defined.
(** ** The time a rate limit check takes *)

Lemma elapse_0 w : elapse 0 w = w.
Proof. destruct w. unfold elapse. simpl. by rewrite Z.add_0_r. Qed.

(** A check whose round trips fall in the same second is the check of the
    sections above. *)
Lemma check_rate_limit_timed_instant u a max win w :
  check_rate_limit_timed 0 0 u a max win w = check_rate_limit u a max win w.
Proof.
  unfold check_rate_limit_timed, pause, elapse. open_service. unfold live.
  repeat (simpl; rewrite ?Z.add_0_r, ?lookup_insert_eq;
    match goal with
    | |- context [next_fault ?p] => destruct (next_fault p) as [[] ?] eqn:?
    | |- context [db ?w !! ?k] => destruct (db w !! k) as [[? [?|]]|] eqn:?
    | |- context [match ?x with JNull => _ | _ => _ end] => destruct x
    | |- context [bool_decide ?P] => destruct (bool_decide_reflect P)
    end); simpl; rewrite ?Z.add_0_r; try done.
Qed.

(** A counter without expiry is there at any time. *)
Lemma live_no_expiry w k v : db w !! k = Some (Entry v None) → live w k = Some (Entry v None).
Proof. unfold live. by intros ->. Qed.

(** The race: the counter is read inside its window, the window ends
    before the INCR arrives, and INCR starts the key afresh, without an
    expiry. *)
Lemma check_rate_limit_timed_race u a max win gap1 gap2 c exp w :
  faults w = Healthy → rate_counter w u a c exp → c < max → exp ≤ now w + gap1 →
  let call := check_rate_limit_timed gap1 gap2 u a max win in
  run call w = Ok (RateResult true (max - c - 1) (-1)) ∧
  faults (after call w) = Healthy ∧
  db (after call w) = <[rate_key u a := Entry (JInt 1) None]> (db w).
Proof.
  intros Hf Hc Hlt Hend call. subst call.
  assert (Hgone : ∀ e p, live (elapse gap1 (record e (set_faults p w))) (rate_key u a) = None).
  { intros e p. apply (live_elapse_expired _ _ (JInt c) exp); [|simpl; lia].
    by rewrite live_record, live_set_faults. }
  unfold rate_counter, run, after, check_rate_limit_timed, try_except, bind, redis_get,
    redis_ttl, redis_incr, pause in *.
  rewrite command_healthy by done. rewrite Hc. simpl.
  rewrite bool_decide_eq_false_2 by lia.
  rewrite command_healthy by done.
  change (live (elapse gap1 (record (Command "GET" (rate_key u a) true) w)) (rate_key u a))
    with (live (elapse gap1 (record (Command "GET" (rate_key u a) true)
                               (set_faults (faults w) w))) (rate_key u a)).
  rewrite Hgone. simpl.
  rewrite command_healthy by done.
  unfold live. simpl. rewrite lookup_insert_eq. simpl. done.
Qed.

(** A counter without expiry below the maximum is counted, at any time
    and with any gaps, and stays without expiry. *)
Lemma check_rate_limit_timed_stuck_counted u a max win gap1 gap2 n w :
  faults w = Healthy → db w !! rate_key u a = Some (Entry (JInt n) None) → n < max →
  let call := check_rate_limit_timed gap1 gap2 u a max win in
  run call w = Ok (RateResult true (max - n - 1) (-1)) ∧
  faults (after call w) = Healthy ∧
  db (after call w) = <[rate_key u a := Entry (JInt (n + 1)) None]> (db w).
Proof.
  intros Hf Hdb Hlt call. subst call.
  unfold run, after, check_rate_limit_timed, try_except, bind, redis_get,
    redis_ttl, redis_incr, pause in *.
  rewrite command_healthy by done.
  rewrite (live_no_expiry w _ (JInt n)) by done. simpl.
  rewrite bool_decide_eq_false_2 by lia.
  rewrite command_healthy by done.
  rewrite (live_no_expiry _ _ (JInt n)) by done. simpl.
  rewrite command_healthy by done.
  rewrite (live_no_expiry _ _ (JInt (n + 1))) by (simpl; by rewrite lookup_insert_eq).
  done.
Qed.

(** At or above the maximum it is refused, at any time, and nothing
    changes. *)
Lemma check_rate_limit_timed_stuck_denied u a max win gap1 gap2 n w :
  faults w = Healthy → db w !! rate_key u a = Some (Entry (JInt n) None) → max ≤ n →
  let call := check_rate_limit_timed gap1 gap2 u a max win in
  run call w = Ok (RateResult false 0 (-1)) ∧
  faults (after call w) = Healthy ∧
  db (after call w) = db w.
Proof.
  intros Hf Hdb Hge call. subst call.
  unfold run, after, check_rate_limit_timed, try_except, bind, redis_get,
    redis_ttl, redis_incr, pause in *.
  rewrite command_healthy by done.
  rewrite (live_no_expiry w _ (JInt n)) by done. simpl.
  rewrite bool_decide_eq_true_2 by lia.
  rewrite command_healthy by done.
  rewrite (live_no_expiry _ _ (JInt n)) by done. done.
Qed.

Lemma check_all_timed_app u a max win calls later : ∀ w,
  (check_all_timed u a max win (calls ++ later) w).2
    = (check_all_timed u a max win later (check_all_timed u a max win calls w).2).2.
Proof.
  induction calls as [|[d [g1 g2]] calls IH]; intros w; [done|].
  cbn [check_all_timed app].
  specialize (IH (after (check_rate_limit_timed g1 g2 u a max win) (elapse d w))).
  destruct (check_all_timed u a max win (calls ++ later) _) as [rs w2].
  by destruct (check_all_timed u a max win calls _) as [rs' w2'].
Qed.

(** Without expiry the counter is counted up to the maximum, whatever
    the delays and gaps. *)
Lemma check_all_timed_stuck_counted u a max win calls : ∀ w n,
  faults w = Healthy → db w !! rate_key u a = Some (Entry (JInt n) None) →
  n + Z.of_nat (length calls) ≤ max →
  let w' := (check_all_timed u a max win calls w).2 in
  faults w' = Healthy ∧
  db w' !! rate_key u a = Some (Entry (JInt (n + Z.of_nat (length calls))) None).
Proof.
  induction calls as [|[d [g1 g2]] calls IH]; intros w n Hf Hdb Hlen.
  - simpl. by rewrite Z.add_0_r.
  - cbn [length] in Hlen.
    destruct (check_rate_limit_timed_stuck_counted u a max win g1 g2 n (elapse d w))
      as (_ & Hf1 & Hdb1); [done|done|lia|].
    set (w1 := after (check_rate_limit_timed g1 g2 u a max win) (elapse d w)) in *.
    destruct (IH w1 (n + 1)) as [IHf IHdb]; [done| |lia|].
    { rewrite Hdb1. by rewrite lookup_insert_eq. }
    cbn [check_all_timed]. fold w1.
    destruct (check_all_timed u a max win calls w1) as [rs w2]. simpl in *.
    split; [done|].
    by replace (n + Z.of_nat (S (length calls)))
         with (n + 1 + Z.of_nat (length calls)) by lia.
Qed.

(** At the maximum and without expiry, nothing moves any more. *)
Lemma check_all_timed_stuck_denied u a max win calls : ∀ w n,
  faults w = Healthy → db w !! rate_key u a = Some (Entry (JInt n) None) → max ≤ n →
  let w' := (check_all_timed u a max win calls w).2 in
  faults w' = Healthy ∧ db w' !! rate_key u a = Some (Entry (JInt n) None).
Proof.
  induction calls as [|[d [g1 g2]] calls IH]; intros w n Hf Hdb Hge; [done|].
  destruct (check_rate_limit_timed_stuck_denied u a max win g1 g2 n (elapse d w))
    as (_ & Hf1 & Hdb1); [done|done|done|].
  set (w1 := after (check_rate_limit_timed g1 g2 u a max win) (elapse d w)) in *.
  destruct (IH w1 n) as [IHf IHdb]; [done| |done|].
  { by rewrite Hdb1. }
  cbn [check_all_timed]. fold w1.
  by destruct (check_all_timed u a max win calls w1) as [rs w2].
Qed.

(** C4: the limiter does not keep its window when the window ends while a
    call is under way.  A call that reads the counter inside the window,
    below the maximum, and whose INCR reaches the store once the window
    has ended, starts the key afresh at 1 without an expiry: it allows,
    reports [max_requests - count - 1] for the count it had read and -1
    seconds to the reset.  The counter then never expires: once
    [max_requests - 1] further calls have been counted, every later call,
    at any time, is denied.  (A call whose round trips all fall in the
    same second is the check of the sections above.) *)
Theorem rate_limit_window_race (u a : string) (max win gap1 gap2 c exp : Z) (w : world) :
  faults w = Healthy → 1 ≤ max →
  rate_counter w u a c exp → c < max → exp ≤ now w + gap1 →
  let call := check_rate_limit_timed gap1 gap2 u a max win in
  let w1 := after call w in
  run call w = Ok (RateResult true (max - c - 1) (-1)) ∧
  db w1 !! rate_key u a = Some (Entry (JInt 1) None) ∧
  (∀ calls later d g1 g2,
     length calls = Z.to_nat (max - 1) →
     let w2 := (check_all_timed u a max win (calls ++ later) w1).2 in
     run (check_rate_limit_timed g1 g2 u a max win) (elapse d w2)
       = Ok (RateResult false 0 (-1))) ∧
  (∀ w', check_rate_limit_timed 0 0 u a max win w' = check_rate_limit u a max win w').
Proof.
  intros Hf Hmax Hc Hlt Hend call w1.
  destruct (check_rate_limit_timed_race u a max win gap1 gap2 c exp w)
    as (Hr & Hf1 & Hdb1); [done..|].
  fold call in Hr, Hf1, Hdb1. fold w1 in Hf1, Hdb1.
  assert (Hk1 : db w1 !! rate_key u a = Some (Entry (JInt 1) None)).
  { by rewrite Hdb1, lookup_insert_eq. }
  split; [done|]. split; [done|]. split; [|apply check_rate_limit_timed_instant].
  intros calls later d g1 g2 Hlen w2. subst w2.
  rewrite check_all_timed_app.
  destruct (check_all_timed_stuck_counted u a max win calls w1 1) as [Hf2 Hdb2];
    [done|done|lia|].
  rewrite Hlen in Hdb2. replace (1 + Z.of_nat (Z.to_nat (max - 1))) with max in Hdb2 by lia.
  destruct (check_all_timed_stuck_denied u a max win later _ max Hf2 Hdb2) as [Hf3 Hdb3];
    [lia|].
  set (w3 := (check_all_timed u a max win later
                (check_all_timed u a max win calls w1).2).2) in *.
  by destruct (check_rate_limit_timed_stuck_denied u a max win g1 g2 max (elapse d w3))
    as (Hr3 & _); [exact Hf3|exact Hdb3|lia|].
Qed.

Lemma rate_limit_window_race_witness :
  let w0 := World 1000 ∅ Healthy (λ _, 0) 0 [] in
  let w := elapse 299 (after (check_rate_limit "a@b.c" "login" 5 5) w0) in
  let race := check_rate_limit_timed 1 0 "a@b.c" "login" 5 5 in
  let calls := [(1, (0, 0)); (1, (0, 0)); (1, (0, 0)); (1, (0, 0))] in
  rate_counter w "a@b.c" "login" 1 1300 ∧
  run race w = Ok (RateResult true 3 (-1)) ∧
  db (after race w) !! rate_key "a@b.c" "login" = Some (Entry (JInt 1) None) ∧
  run (check_rate_limit_timed 0 0 "a@b.c" "login" 5 5)
      (elapse 86400 (check_all_timed "a@b.c" "login" 5 5 calls (after race w)).2)
    = Ok (RateResult false 0 (-1)) ∧
  run (login_rate_check true "a@b.c")
      (elapse 86400 (check_all_timed "a@b.c" "login" 5 5 calls (after race w)).2)
    = Raise (HTTPException 429 "Too many login attempts. Try again in -1 seconds").
Proof.
  intros w0 w race calls.
  assert (Hc : rate_counter w "a@b.c" "login" 1 1300) by reflexivity.
  destruct (rate_limit_window_race "a@b.c" "login" 5 5 1 0 1 1300 w)
    as (H1 & H2 & H3 & _); [reflexivity | lia | exact Hc | lia | by vm_compute |].
  split; [exact Hc|]. split; [exact H1|]. split; [exact H2|].
  split; [exact (H3 calls [] 86400 0 0 eq_refl) | reflexivity].
Defined.

(** ** Expiry is never postponed *)





(** ** The rate counter is bounded *)






(** ** Logging in *)

Lemma session_key_not_rate_key u u' a : session_key u ≠ rate_key u' a.
Proof. discriminate. Qed.

(** Looking the user up leaves the world as it is. *)
Lemma authenticate_user_world checkpw users email password w :
  (authenticate_user checkpw users email password w).2 = w.
Proof.
  unfold authenticate_user, raise, ret.
  destruct (users_down users); [done|].
  destruct (active_user users email) as [[uid name mail phone hash]|]; [|done].
  by destruct (checkpw password hash) as [[]|].
Qed.

(** A login that the limiter lets through: what is left of the call
    after the rate limit check. *)
Lemma login_run jwt_encode checkpw am rd iso users ip email password w rr w1 :
  email ≠ "" → password ≠ "" →
  check_rate_limit email "login" 5 5 w = (Ok rr, w1) → faults w1 = Healthy →
  login jwt_encode checkpw am rd iso true users ip email password w =
    if allowed rr then
      match (authenticate_user checkpw users email password w1).1 with
      | Raise e => (Raise e, w1)
      | Ok user =>
          (Ok (LoginReply
                 (jwt_encode
                    [("sub", JStr (info_user_id user));
                     ("exp", JInt (now w1 + 60 * am)); ("iat", JInt (now w1));
                     ("type", JStr "access"); ("name", JStr (info_name user));
                     ("email", JStr (info_email user))])
                 (jwt_encode
                    [("sub", JStr (info_user_id user));
                     ("exp", JInt (now w1 + 86400 * rd)); ("iat", JInt (now w1));
                     ("type", JStr "refresh")])
                 user),
           record (Command "SETEX" (session_key (info_user_id user)) true)
             (set_db
                (<[session_key (info_user_id user) :=
                     Entry (JObj [("name", JStr (info_name user));
                                  ("email", JStr (info_email user));
                                  ("login_time", JStr (iso (now w1)));
                                  ("ip_address", JStr ip)])
                           (Some (now w1 + 60 * 15))]> (db w1)) w1))
      end
    else
      (Raise (HTTPException 429
                ("Too many login attempts. Try again in "
                 +:+ pretty (reset_in rr) +:+ " seconds")), w1).
Proof.
  intros He Hp Hc Hf. unfold login.
  rewrite !bool_decide_eq_false_2 by done. simpl.
  unfold login_rate_check. unfold bind at 1. unfold bind at 1. rewrite Hc.
  destruct (allowed rr); simpl; [|done].
  unfold ret at 1. unfold bind at 1.
  pose proof (authenticate_user_world checkpw users email password w1) as Hw.
  destruct (authenticate_user checkpw users email password w1) as [[user|e] w2];
    simpl in *; subst w2; [|done].
  unfold bind, create_access_token, create_refresh_token, timestamp, ret. simpl.
  rewrite create_session_run by (done || lia). done.
Qed.

(** The rate limit check of a healthy store, as one step of the world. *)
Lemma check_rate_limit_step u a max win w :
  faults w = Healthy → 0 < win →
  ∃ rr w1, check_rate_limit u a max win w = (Ok rr, w1) ∧
    faults w1 = Healthy ∧ now w1 = now w ∧
    (live w (rate_key u a) = None →
       allowed rr = true ∧
       db w1 = <[rate_key u a := Entry (JInt 1) (Some (now w + 60 * win))]> (db w)) ∧
    (∀ c exp, rate_counter w u a c exp → c < max →
       allowed rr = true ∧
       db w1 = <[rate_key u a := Entry (JInt (c + 1)) (Some exp)]> (db w)) ∧
    (∀ c exp, rate_counter w u a c exp → max ≤ c →
       rr = RateResult false 0 (exp - now w) ∧ db w1 = db w).
Proof.
  intros Hf Hwin.
  pose proof (check_rate_limit_healthy u a max win w Hf) as Hf1.
  pose proof (check_rate_limit_now u a max win w) as Hn1.
  pose proof (check_rate_limit_first u a max win w Hf) as H1.
  pose proof (check_rate_limit_counted u a max win w) as H2.
  pose proof (check_rate_limit_denied u a max win w) as H3.
  pose proof (check_rate_limit_fails_open u a max win w) as H4.
  unfold run, after, rate_counter in *.
  destruct (check_rate_limit u a max win w) as [[rr|e] w1] eqn:E; simpl in *.
  - exists rr, w1. split; [done|]. split; [done|]. split; [done|].
    split; [|split].
    + intros Hl. destruct (H1 Hl Hwin) as [[= ->] Hc]. split; [done|].
      apply map_eq. intros k. apply live_db in Hc.
      destruct (decide (k = rate_key u a)) as [->|Hne].
      * by rewrite lookup_insert_eq.
      * rewrite lookup_insert_ne by done. revert Hne. clear -E Hf.
        revert E. open_service. rewrite Hf. simpl. crunch_live; intros; simplify_eq;
          simpl; rewrite ?lookup_insert_ne by done; done.
    + intros c exp Hc Hlt. destruct (H2 c exp Hf Hc Hlt) as [[= ->] Hdb]. done.
    + intros c exp Hc Hge. destruct (H3 c exp Hf Hc Hge) as [[= ->] Hdb]. done.
  - exfalso. revert E. clear -Hf. open_service. rewrite Hf. simpl.
    crunch_live; intros; simplify_eq.
Qed.

(** One attempt under the limit: it is counted whatever the password
    turns out to be, and the counter keeps its window. *)
Lemma login_counted jwt_encode checkpw am rd iso users ip email password w c exp :
  faults w = Healthy → email ≠ "" → password ≠ "" →
  rate_counter w email "login" c exp → c < 5 →
  let call := login jwt_encode checkpw am rd iso true users ip email password in
  faults (after call w) = Healthy ∧ now (after call w) = now w ∧
  rate_counter (after call w) email "login" (c + 1) exp.
Proof.
  intros Hf He Hp Hc Hlt call.
  pose proof (live_Some_now _ _ _ _ Hc) as Hnow.
  destruct (check_rate_limit_step email "login" 5 5 w Hf ltac:(lia))
    as (rr & w1 & E & Hf1 & Hn1 & _ & Hcount & _).
  destruct (Hcount c exp Hc Hlt) as [Hal Hdb].
  assert (Hc1 : rate_counter w1 email "login" (c + 1) exp)
    by (by eapply rate_counter_db).
  unfold call, after.
  rewrite (login_run jwt_encode checkpw am rd iso users ip email password w rr w1)
    by done.
  rewrite Hal.
  destruct (authenticate_user checkpw users email password w1).1 as [user|e]; simpl;
    [|done].
  split; [done|]. split; [done|].
  unfold rate_counter. rewrite live_record, live_insert_ne; [done|].
  apply session_key_not_rate_key.
Qed.

(** The first attempt of a window opens the counter. *)
Lemma login_first jwt_encode checkpw am rd iso users ip email password w :
  faults w = Healthy → email ≠ "" → password ≠ "" →
  live w (rate_key email "login") = None →
  let call := login jwt_encode checkpw am rd iso true users ip email password in
  faults (after call w) = Healthy ∧ now (after call w) = now w ∧
  rate_counter (after call w) email "login" 1 (now w + 300).
Proof.
  intros Hf He Hp Hl call.
  destruct (check_rate_limit_step email "login" 5 5 w Hf ltac:(lia))
    as (rr & w1 & E & Hf1 & Hn1 & Hfirst & _).
  destruct (Hfirst Hl) as [Hal Hdb].
  assert (Hc1 : rate_counter w1 email "login" 1 (now w + 300)).
  { eapply rate_counter_db; [done| |exact Hdb]. lia. }
  unfold call, after.
  rewrite (login_run jwt_encode checkpw am rd iso users ip email password w rr w1)
    by done.
  rewrite Hal.
  destruct (authenticate_user checkpw users email password w1).1 as [user|e]; simpl;
    [|done].
  split; [done|]. split; [done|].
  unfold rate_counter. rewrite live_record, live_insert_ne; [done|].
  apply session_key_not_rate_key.
Qed.

(** Attempts in a row that stay under the limit are all counted. *)
Lemma login_all_counted jwt_encode checkpw am rd iso users ip email exp tries :
  ∀ w c,
  faults w = Healthy → email ≠ "" → rate_counter w email "login" c exp →
  Forall (λ p, 0 ≤ p.1 ∧ p.2 ≠ "") tries → now w + total_delay tries < exp →
  c + Z.of_nat (length tries) ≤ 5 →
  let w' := (login_all jwt_encode checkpw am rd iso users ip email tries w).2 in
  faults w' = Healthy ∧ now w' = now w + total_delay tries ∧
  rate_counter w' email "login" (c + Z.of_nat (length tries)) exp.
Proof.
  induction tries as [|[d p] tries IH]; intros w c Hf He Hc Hall Htime Hlen.
  - simpl in *. rewrite !Z.add_0_r. done.
  - apply Forall_cons in Hall as [[Hd Hp] Hall]. simpl in Hd, Hp.
    assert (Ht : 0 ≤ total_delay tries).
    { clear -Hall. induction Hall as [|[] ? [] ? IH]; simpl in *; [done|].
      unfold total_delay in *. simpl. lia. }
    cbn [total_delay foldr fst] in Htime. fold (total_delay tries) in Htime.
    cbn [length] in Hlen.
    pose proof (rate_counter_elapse w email "login" c exp d Hc ltac:(lia)) as Hc1.
    destruct (login_counted jwt_encode checkpw am rd iso users ip email p (elapse d w)
                c exp) as (Hf1 & Hn1 & Hc2); [done|done|done|done|lia|].
    set (w1 := after (login jwt_encode checkpw am rd iso true users ip email p)
                 (elapse d w)) in *.
    simpl in Hn1.
    destruct (IH w1 (c + 1) Hf1 He Hc2 Hall) as (IHf & IHn & IHc); [lia|lia|].
    cbn [login_all]. fold w1.
    destruct (login_all jwt_encode checkpw am rd iso users ip email tries w1)
      as [rs w2] eqn:E. simpl in *.
    split; [done|]. split; [fold (total_delay tries); lia|].
    by replace (c + Z.of_nat (S (length tries)))
         with (c + 1 + Z.of_nat (length tries)) by lia.
Qed.

(** X19: with a healthy store, five login attempts for an email inside
    five minutes, whatever their passwords and outcomes, lock the email
    out: an attempt that follows inside the window of the first one is
    refused with status 429 and the seconds left of that window, also
    with the right password and from any address, before the user table
    is consulted, and it leaves the store as it was, so that no session
    is opened. *)
Theorem login_locked_after_five_attempts
    (jwt_encode : pydict → string) (checkpw : string → string → bool + string)
    (am rd : Z) (iso : Z → string) (users users' : user_db)
    (ip ip' email password : string) (d0 : Z) (p0 : string)
    (tries : list (Z * string)) (d : Z) (w : world) :
  faults w = Healthy → email ≠ "" → password ≠ "" →
  live (elapse d0 w) (rate_key email "login") = None →
  p0 ≠ "" → Forall (λ p, 0 ≤ p.1 ∧ p.2 ≠ "") tries → length tries = 4%nat →
  0 ≤ d → total_delay tries + d < 300 →
  let w5 := (login_all jwt_encode checkpw am rd iso users ip email
               ((d0, p0) :: tries) w).2 in
  let call := login jwt_encode checkpw am rd iso true users' ip' email password in
  run call (elapse d w5)
    = Raise (HTTPException 429
               ("Too many login attempts. Try again in "
                +:+ pretty (300 - (total_delay tries + d)) +:+ " seconds")) ∧
  db (after call (elapse d w5)) = db w5.
Proof.
  intros Hf He Hp Hl Hp0 Hall Hlen Hd Htime w5 call.
  destruct (login_first jwt_encode checkpw am rd iso users ip email p0 (elapse d0 w))
    as (Hf1 & Hn1 & Hc1); [done|done|done|done|].
  set (w1 := after (login jwt_encode checkpw am rd iso true users ip email p0)
               (elapse d0 w)) in *.
  simpl in Hn1.
  assert (Ht : 0 ≤ total_delay tries).
  { clear -Hall. induction Hall as [|[] ? [] ? IH]; simpl in *; [done|].
    unfold total_delay in *. simpl. lia. }
  destruct (login_all_counted jwt_encode checkpw am rd iso users ip email
              (now (elapse d0 w) + 300) tries w1 1)
    as (Hf5 & Hn5 & Hc5); [done|done|done|done|simpl in *; lia|lia|].
  assert (Hw5 : w5 = (login_all jwt_encode checkpw am rd iso users ip email tries w1).2).
  { unfold w5. cbn [login_all]. fold w1.
    by destruct (login_all jwt_encode checkpw am rd iso users ip email tries w1). }
  rewrite <- Hw5 in *. rewrite Hlen in Hc5. simpl in Hc5, Hn5.
  pose proof (rate_counter_elapse w5 email "login" 5 _ d Hc5 ltac:(lia)) as Hc6.
  destruct (check_rate_limit_step email "login" 5 5 (elapse d w5) Hf5 ltac:(lia))
    as (rr & w6 & E & Hf6 & Hn6 & _ & _ & Hdenied).
  destruct (Hdenied 5 _ Hc6 ltac:(lia)) as [-> Hdb].
  unfold call, run, after.
  rewrite (login_run jwt_encode checkpw am rd iso users' ip' email password
             (elapse d w5) _ w6) by done.
  simpl. split; [|done].
  by replace (now w + d0 + 300 - (now w5 + d)) with (300 - (total_delay tries + d))
    by lia.
Qed.

Lemma login_locked_after_five_attempts_witness :
  let users :=
    UserDb (λ e, if bool_decide (e = "a@b.c")
                 then Some (UserRow "U1" "Ann" "a@b.c" "555" "pw") else None) false in
  let checkpw := λ p h : string, inl (bool_decide (p = h)) : bool + string in
  let w := World 1000 ∅ Healthy (λ _, 0) 0 [] in
  let tries := [(10, "x"); (10, "pw"); (10, "y"); (10, "z")] in
  let w5 := (login_all (λ _, "t") checkpw 15 7 (λ _, "now") users "ip" "a@b.c"
               ((0, "w") :: tries) w).2 in
  run (login (λ _, "t") checkpw 15 7 (λ _, "now") true users "ip" "a@b.c" "pw")
      (elapse 20 w5)
    = Raise (HTTPException 429 "Too many login attempts. Try again in 240 seconds").
Proof.
  intros users checkpw w tries w5.
  destruct (login_locked_after_five_attempts (λ _, "t") checkpw 15 7 (λ _, "now")
              users users "ip" "ip" "a@b.c" "pw" 0 "w" tries 20 w) as [H _].
  - reflexivity.
  - done.
  - done.
  - reflexivity.
  - done.
  - repeat constructor; simpl; (lia || done).
  - reflexivity.
  - lia.
  - simpl. lia.
  - exact H.
Defined.

(** X20: with a healthy store and the counter of the email below five,
    a login with an unknown email and one with a wrong password get the
    same answer, status 401 with the text [Invalid email or password];
    the attempt is counted against the email in its running window, and
    the sessions are left as they were. *)
Theorem failed_login_is_counted
    (jwt_encode : pydict → string) (checkpw : string → string → bool + string)
    (am rd : Z) (iso : Z → string) (users : user_db)
    (ip email password : string) (c exp : Z) (w : world) :
  faults w = Healthy → email ≠ "" → password ≠ "" →
  rate_counter w email "login" c exp → c < 5 →
  users_down users = false →
  (active_user users email = None ∨
   ∃ row, active_user users email = Some row ∧
          checkpw password (row_password_hash row) = inl false) →
  let call := login jwt_encode checkpw am rd iso true users ip email password in
  run call w = Raise (HTTPException 401 "Invalid email or password") ∧
  rate_counter (after call w) email "login" (c + 1) exp ∧
  ∀ k, k ≠ rate_key email "login" → db (after call w) !! k = db w !! k.
Proof.
  intros Hf He Hp Hc Hlt Hup Hbad call.
  destruct (login_counted jwt_encode checkpw am rd iso users ip email password w c exp)
    as (_ & _ & Hc1); [done..|].
  split; [|split; [exact Hc1|]].
  all: destruct (check_rate_limit_step email "login" 5 5 w Hf ltac:(lia))
    as (rr & w1 & E & Hf1 & Hn1 & _ & Hcount & _).
  all: destruct (Hcount c exp Hc Hlt) as [Hal Hdb].
  all: unfold call, run, after.
  all: rewrite (login_run jwt_encode checkpw am rd iso users ip email password w rr w1)
    by done.
  all: rewrite Hal; unfold authenticate_user; rewrite Hup.
  all: destruct Hbad as [->|([uid name mail phone hash] & -> & Hpw)];
    simpl in *; rewrite ?Hpw; simpl.
  all: try done.
  all: intros k Hk; rewrite Hdb; by rewrite lookup_insert_ne.
Qed.

Lemma failed_login_is_counted_witness :
  let users :=
    UserDb (λ e, if bool_decide (e = "a@b.c")
                 then Some (UserRow "U1" "Ann" "a@b.c" "555" "pw") else None) false in
  let checkpw := λ p h : string, inl (bool_decide (p = h)) : bool + string in
  let w := World 1000 {[ rate_key "a@b.c" "login" := Entry (JInt 2) (Some 1100) ]}
             Healthy (λ _, 0) 0 [] in
  let call := login (λ _, "t") checkpw 15 7 (λ _, "now") true users "ip" "a@b.c" "nope" in
  run call w = Raise (HTTPException 401 "Invalid email or password") ∧
  rate_counter (after call w) "a@b.c" "login" 3 1100.
Proof.
  intros users checkpw w call.
  destruct (failed_login_is_counted (λ _, "t") checkpw 15 7 (λ _, "now") users
              "ip" "a@b.c" "nope" 2 1100 w) as (H1 & H2 & _).
  - reflexivity.
  - done.
  - done.
  - reflexivity.
  - lia.
  - reflexivity.
  - right. exists (UserRow "U1" "Ann" "a@b.c" "555" "pw"). split; reflexivity.
  - split; [exact H1 | exact H2].
Defined.

(** X21: with a healthy store and the counter of the email below five or
    absent, a login with the password of an active user returns tokens
    for that user, the access token living for the configured minutes and
    the refresh token for the configured days, and opens a session that
    holds the name, the email, the login time and the address of the
    caller; the session can be read for fifteen minutes and is gone
    after that. *)
Theorem login_opens_session
    (jwt_encode : pydict → string) (checkpw : string → string → bool + string)
    (am rd : Z) (iso : Z → string) (users : user_db)
    (ip email password : string) (uid name mail phone hash : string) (w : world) :
  faults w = Healthy → email ≠ "" → password ≠ "" →
  (live w (rate_key email "login") = None ∨
   ∃ c exp, rate_counter w email "login" c exp ∧ c < 5) →
  users_down users = false →
  active_user users email = Some (UserRow uid name mail phone hash) →
  checkpw password hash = inl true →
  let call := login jwt_encode checkpw am rd iso true users ip email password in
  let session := JObj [("name", JStr name); ("email", JStr mail);
                       ("login_time", JStr (iso (now w))); ("ip_address", JStr ip)] in
  run call w
    = Ok (LoginReply
            (jwt_encode [("sub", JStr uid); ("exp", JInt (now w + 60 * am));
                         ("iat", JInt (now w)); ("type", JStr "access");
                         ("name", JStr name); ("email", JStr mail)])
            (jwt_encode [("sub", JStr uid); ("exp", JInt (now w + 86400 * rd));
                         ("iat", JInt (now w)); ("type", JStr "refresh")])
            (UserInfo uid name mail phone)) ∧
  ∀ d, 0 ≤ d →
    run (get_session uid) (elapse d (after call w))
      = Ok (if bool_decide (d < 900) then Some session else None).
Proof.
  intros Hf He Hp Hlim Hup Hrow Hpw call session.
  destruct (check_rate_limit_step email "login" 5 5 w Hf ltac:(lia))
    as (rr & w1 & E & Hf1 & Hn1 & Hfirst & Hcount & _).
  assert (Hal : allowed rr = true).
  { destruct Hlim as [Hl|(c & exp & Hc & Hlt)].
    - by destruct (Hfirst Hl).
    - by destruct (Hcount c exp Hc Hlt). }
  unfold call, run, after.
  rewrite (login_run jwt_encode checkpw am rd iso users ip email password w rr w1)
    by done.
  rewrite Hal. unfold authenticate_user. rewrite Hup, Hrow, Hpw. simpl.
  rewrite Hn1. split; [done|].
  intros d Hd. rewrite get_session_run by done. simpl. f_equal.
  unfold live. simpl. rewrite lookup_insert_eq. simpl. rewrite Hn1.
  case_bool_decide; case_bool_decide; try lia; done.
Qed.

Lemma login_opens_session_witness :
  let users :=
    UserDb (λ e, if bool_decide (e = "a@b.c")
                 then Some (UserRow "U1" "Ann" "a@b.c" "555" "pw") else None) false in
  let checkpw := λ p h : string, inl (bool_decide (p = h)) : bool + string in
  let w := World 1000 ∅ Healthy (λ _, 0) 0 [] in
  let call := login (λ _, "t") checkpw 15 7 (λ _, "now") true users "ip" "a@b.c" "pw" in
  run call w = Ok (LoginReply "t" "t" (UserInfo "U1" "Ann" "a@b.c" "555")) ∧
  run (get_session "U1") (elapse 899 (after call w))
    = Ok (Some (JObj [("name", JStr "Ann"); ("email", JStr "a@b.c");
                      ("login_time", JStr "now"); ("ip_address", JStr "ip")])) ∧
  run (get_session "U1") (elapse 900 (after call w)) = Ok None.
Proof.
  intros users checkpw w call.
  destruct (login_opens_session (λ _, "t") checkpw 15 7 (λ _, "now") users
              "ip" "a@b.c" "pw" "U1" "Ann" "a@b.c" "555" "pw" w) as (H1 & H2).
  - reflexivity.
  - done.
  - done.
  - left. reflexivity.
  - reflexivity.
  - reflexivity.
  - reflexivity.
  - split; [exact H1|]. split; [exact (H2 899 ltac:(lia)) | exact (H2 900 ltac:(lia))].
Defined.
